(** * tfl-extractor: segmentation of a clinical study report into TLFs

    A shallow embedding of [extract_tlfs.py]: the page classifier
    ([parse_tfl_page]), the termination detector and the page scan of
    [extract_tlfs], the manifest it builds, and the page-range checks of
    [run_validation].

    Conventions of the model.
    - Python [str] values are Rocq [string]s; the text is taken to be ASCII,
      so every character predicate below is the restriction of Python's
      Unicode predicate to code points below 128.
    - Python [int] values are [Z].
    - The list [tlfs] holds the record objects; [current_tfl] is a reference
      to one of them, modelled as an index into [tlfs], so that an update
      through [current_tfl] is an update of the list entry it aliases.
    - Logging, printing and filesystem writes are collected, in program
      order, in a list of effects. *)

From Stdlib Require Import ZArith Ascii String Bool Lia.
From stdpp Require Import base option list strings pretty.

Local Open Scope string_scope.
Local Open Scope Z_scope.
Local Open Scope list_scope.

(** ** Python string primitives (ASCII) *)

Module PyStr.

(** [str.isspace] and the regex class [\s]: TAB, LF, VT, FF, CR,
    FS, GS, RS, US and SPACE. *)
Definition is_space (c : ascii) : bool :=
  let n := N_of_ascii c in
  ((9 <=? n) && (n <=? 13) || (28 <=? n) && (n <=? 32))%N.

(** The regex class [\d]. *)
Definition is_digit (c : ascii) : bool :=
  let n := N_of_ascii c in ((48 <=? n) && (n <=? 57))%N.

(** Line boundaries of [str.splitlines]: LF, VT, FF, CR, FS, GS, RS. *)
Definition is_linebreak (c : ascii) : bool :=
  let n := N_of_ascii c in
  ((10 <=? n) && (n <=? 13) || (28 <=? n) && (n <=? 30))%N.

Definition lower_char (c : ascii) : ascii :=
  let n := N_of_ascii c in
  if ((65 <=? n) && (n <=? 90))%N then ascii_of_N (n + 32) else c.

Definition upper_char (c : ascii) : ascii :=
  let n := N_of_ascii c in
  if ((97 <=? n) && (n <=? 122))%N then ascii_of_N (n - 32) else c.

Fixpoint smap (f : ascii -> ascii) (s : string) : string :=
  match s with
  | EmptyString => EmptyString
  | String c s' => String (f c) (smap f s')
  end.

(** [s.lower()] and [s.upper()]. *)
Definition lower : string -> string := smap lower_char.
Definition upper : string -> string := smap upper_char.

Fixpoint lstrip (s : string) : string :=
  match s with
  | EmptyString => EmptyString
  | String c s' => if is_space c then lstrip s' else s
  end.

Fixpoint rstrip (s : string) : string :=
  match s with
  | EmptyString => EmptyString
  | String c s' =>
      match rstrip s' with
      | EmptyString => if is_space c then EmptyString else String c EmptyString
      | r => String c r
      end
  end.

(** [s.strip()]. *)
Definition strip (s : string) : string := rstrip (lstrip s).

(** [s.startswith(p)]. *)
Definition startswith (s p : string) : bool := String.prefix p s.

(** [needle in hay]. *)
Fixpoint contains (needle hay : string) : bool :=
  String.prefix needle hay ||
  match hay with
  | EmptyString => false
  | String _ h => contains needle h
  end.

(** [s[n:]] for [0 <= n]. *)
Fixpoint sdrop (n : nat) (s : string) : string :=
  match n, s with
  | O, _ => s
  | S n', String _ s' => sdrop n' s'
  | S _, EmptyString => EmptyString
  end.

(** [s[:n]] for [0 <= n]. *)
Fixpoint stake (n : nat) (s : string) : string :=
  match n, s with
  | S n', String c s' => String c (stake n' s')
  | _, _ => EmptyString
  end.

(** [s[:-n]] for [0 < n]. *)
Definition drop_last (n : nat) (s : string) : string :=
  stake (String.length s - n) s.

(** [s.splitlines()]: CR LF counts as one boundary and a boundary at the
    very end opens no further line. *)
Fixpoint splitlines (s : string) : list string :=
  match s with
  | EmptyString => []
  | String c s' =>
      if is_linebreak c then
        EmptyString ::
          match s' with
          | String c2 s'' =>
              if Ascii.eqb c "013" && Ascii.eqb c2 "010"
              then splitlines s'' else splitlines s'
          | EmptyString => []
          end
      else
        match splitlines s' with
        | [] => [String c EmptyString]
        | l :: ls => String c l :: ls
        end
  end.

(** [s.split(sep, 1)] for a one-character separator. *)
Fixpoint split1 (sep : ascii) (s : string) : list string :=
  match s with
  | EmptyString => [EmptyString]
  | String c s' =>
      if Ascii.eqb c sep then [EmptyString; s']
      else match split1 sep s' with
           | a :: rest => String c a :: rest
           | [] => []
           end
  end.

Definition next_is (p : ascii -> bool) (s : string) : bool :=
  match s with
  | String c _ => p c
  | EmptyString => false
  end.

(** [re.split] on the pattern "two or more characters of class [p]": the
    separators are the maximal runs of at least two such characters, found
    left to right. [in_sep] says that the scan is inside such a run and
    [piece] is the piece read so far. *)
Fixpoint split_runs2_go (p : ascii -> bool) (in_sep : bool) (piece : string)
    (s : string) : list string :=
  match s with
  | EmptyString => [piece]
  | String c s' =>
      if in_sep then
        if p c then split_runs2_go p true piece s'
        else split_runs2_go p false (piece +:+ String c EmptyString) s'
      else if p c && next_is p s' then
        piece :: split_runs2_go p true EmptyString s'
      else split_runs2_go p false (piece +:+ String c EmptyString) s'
  end.

(** [re.split(r'\s{2,}', s)]. *)
Definition split_ws2 (s : string) : list string :=
  split_runs2_go is_space false EmptyString s.

(** [s.replace(old, new)] for a one-character [old]. *)
Fixpoint replace1 (old : ascii) (new : string) (s : string) : string :=
  match s with
  | EmptyString => EmptyString
  | String c s' =>
      if Ascii.eqb c old then new +:+ replace1 old new s'
      else String c (replace1 old new s')
  end.

(** [s.ljust(n)]. *)
Definition ljust (n : nat) (s : string) : string :=
  s +:+ String.concat "" (replicate (n - String.length s) " ").

(** Truthiness of a string. *)
Definition truthy (s : string) : bool :=
  match s with EmptyString => false | _ => true end.

(** [str(n)] for an integer. *)
Definition str (n : Z) : string := pretty n.

End PyStr.

(** ** Regular expressions, as far as [re.match] needs them *)

Module Re.

Inductive regex : Type :=
| Void
| Eps
| Chr (p : ascii -> bool)
| Cat (r1 r2 : regex)
| Alt (r1 r2 : regex)
| Star (r : regex).

Fixpoint nullable (r : regex) : bool :=
  match r with
  | Void => false
  | Eps => true
  | Chr _ => false
  | Cat r1 r2 => nullable r1 && nullable r2
  | Alt r1 r2 => nullable r1 || nullable r2
  | Star _ => true
  end.

Fixpoint deriv (c : ascii) (r : regex) : regex :=
  match r with
  | Void => Void
  | Eps => Void
  | Chr p => if p c then Eps else Void
  | Cat r1 r2 =>
      if nullable r1 then Alt (Cat (deriv c r1) r2) (deriv c r2)
      else Cat (deriv c r1) r2
  | Alt r1 r2 => Alt (deriv c r1) (deriv c r2)
  | Star r1 => Cat (deriv c r1) (Star r1)
  end.

(** [re.match(r, s)] succeeds iff some prefix of [s] is in the language
    of [r]. *)
Fixpoint match_prefix (r : regex) (s : string) : bool :=
  nullable r ||
  match s with
  | EmptyString => false
  | String c s' => match_prefix (deriv c r) s'
  end.

(** A literal matched under [re.IGNORECASE]. *)
Fixpoint lit_ci (s : string) : regex :=
  match s with
  | EmptyString => Eps
  | String c s' =>
      Cat (Chr (fun x => Ascii.eqb (PyStr.lower_char x) (PyStr.lower_char c)))
          (lit_ci s')
  end.

Definition plus (r : regex) : regex := Cat r (Star r).

Definition one_of (cs : list ascii) : ascii -> bool :=
  fun x => existsb (Ascii.eqb x) cs.

End Re.

(** ** The page classifier *)

(** [r'^(Table|Figure)\s*14[.\-][\d.\-]+'] *)
Definition tfl_heading_re : Re.regex :=
  Re.Cat (Re.Alt (Re.lit_ci "Table") (Re.lit_ci "Figure"))
   (Re.Cat (Re.Star (Re.Chr PyStr.is_space))
     (Re.Cat (Re.lit_ci "14")
       (Re.Cat (Re.Chr (Re.one_of ["."%char; "-"%char]))
         (Re.plus (Re.Chr (fun c => PyStr.is_digit c
                                    || Re.one_of ["."%char; "-"%char] c)))))).

Definition is_heading (line : string) : bool :=
  Re.match_prefix tfl_heading_re line.

Definition nonempty (s : string) : bool := PyStr.truthy s.

(** [[line.strip() for line in text.splitlines() if line.strip()]] *)
Definition page_lines (text : string) : list string :=
  List.filter nonempty (PyStr.strip <$> PyStr.splitlines text).

(** The dict returned by [parse_tfl_page]. *)
Record Parsed : Type := mkParsed {
  p_id : option string;
  p_type : option string;
  p_title : string;
  p_population : string;
  p_source_program : string
}.

Definition is_population_line (line : string) : bool :=
  PyStr.startswith (PyStr.lower line) "population:".

Definition is_source_line (line : string) : bool :=
  PyStr.startswith (PyStr.lower line) "source:".

(** [lines[-n:]] for [0 < n]. *)
Definition last_n {A} (n : nat) (l : list A) : list A :=
  drop (length l - n) l.

(** Lines 35-40: the first heading among [lines[:10]], with its index. *)
Definition find_heading (lines : list string) : option (nat * string) :=
  list_find (fun l => Is_true (is_heading l)) (take 10 lines).

(** Lines 45-49; the index [1] always exists, see [population_split]. *)
Definition population_of (lines : list string) : string :=
  match list_find (fun l => Is_true (is_population_line l)) (take 10 lines) with
  | Some (_, line) => PyStr.strip (default "" (PyStr.split1 ":" line !! 1%nat))
  | None => ""
  end.

(** Lines 51-58. *)
Definition source_program_of (lines : list string) : string :=
  match list_find (fun l => Is_true (is_source_line l))
                  (reverse (last_n 15 lines)) with
  | Some (_, line) =>
      let part := PyStr.strip (PyStr.sdrop (String.length "source:") line) in
      match PyStr.split_ws2 part with
      | [] => ""
      | p0 :: _ => p0
      end
  | None => ""
  end.

Definition parse_lines (lines : list string) : Parsed :=
  let hit := find_heading lines in
  let tfl_id := snd <$> hit in
  let tfl_type :=
    (fun h => if PyStr.contains "table" (PyStr.lower (snd h))
              then "table" else "figure") <$> hit in
  let title :=
    match hit with
    | Some (i, _) => default "" (lines !! S i)
    | None => ""
    end in
  mkParsed tfl_id tfl_type title (population_of lines) (source_program_of lines).

Definition parse_tfl_page (text : string) : Parsed :=
  parse_lines (page_lines text).

(** ** Data model of the extraction *)

(** One entry of [tlfs]: the dict built at lines 280-290. The key
    [source_program] is present only when [tfl_source_program] is [Some]. *)
Record TlfDict : Type := mkTlf {
  tfl_id : string;
  tfl_type : option string;
  tfl_title : string;
  tfl_file : string;
  pages_in_source : Z * Z;
  page_count : Z;
  tfl_population : string;
  tfl_source_program : option string
}.

Definition first_page (r : TlfDict) : Z := fst (pages_in_source r).
Definition last_page (r : TlfDict) : Z := snd (pages_in_source r).

Record Narrative : Type := mkNarrative {
  n_file : string;
  n_pages_in_source : Z * Z;
  n_page_count : Z
}.

Record Manifest : Type := mkManifest {
  source_file : string;
  source_pages : Z;
  extraction_date : string;
  narrative : Narrative;
  m_tlfs : list TlfDict
}.

Inductive LogLevel : Type := INFO | WARNING | ERROR.

(** What the program does to the outside world, in program order. *)
Inductive Effect : Type :=
| Log (lvl : LogLevel) (msg : string)
| Print (msg : string)
| MakeDirs (path : string)
| SavePdf (path : string) (from_page to_page : Z)
| WriteText (path : string) (content : string)
| WriteJson (path : string) (m : Manifest)
| WriteCsv (path : string) (rows : list (list string)).

Definition is_fs_write (e : Effect) : bool :=
  match e with
  | Log _ _ | Print _ => false
  | _ => true
  end.

(** A file is created by every filesystem effect except [MakeDirs]. *)
Definition is_file_write (e : Effect) : bool :=
  match e with
  | SavePdf _ _ _ | WriteText _ _ | WriteJson _ _ | WriteCsv _ _ => true
  | _ => false
  end.

(** [logger.info] under [setLevel(INFO if verbose else WARNING)]. *)
Definition log_info (verbose : bool) (msg : string) : list Effect :=
  if verbose then [Log INFO msg] else [].

(** ** The termination detector (lines 242-248) *)

Definition is_termination_line (line : string) : bool :=
  let upper_line := PyStr.upper line in
  PyStr.startswith upper_line "15. REFERENCE"
  || String.eqb upper_line "15."
  || PyStr.startswith upper_line "16. APPEND"
  || String.eqb upper_line "16.".

Definition is_termination (text : string) : bool :=
  existsb is_termination_line (take 20 (page_lines text)).

(** ** The segmentation engine (lines 218-298) *)

Record ScanState : Type := mkScan {
  tlfs : list TlfDict;
  current_tfl : option nat;
  warnings : Z;
  tfl_pages_total : Z;
  table_count : Z;
  figure_count : Z
}.

Definition scan_init : ScanState := mkScan [] None 0 0 0 0.

(** The object [current_tfl] refers to. *)
Definition current_record (st : ScanState) : option TlfDict :=
  i ← current_tfl st; tlfs st !! i.

(** [not tfl_id]: the id is [None] or the empty string. *)
Definition id_falsy (o : option string) : bool :=
  match o with
  | Some s => negb (PyStr.truthy s)
  | None => true
  end.

(** The arm of the loop body a page takes. *)
Inductive Branch : Type :=
| BrContinue (i : nat)   (* lines 259-262: no id, a record is open *)
| BrWarn                 (* lines 264-266: no id, nothing open, [tlfs] empty *)
| BrSkip                 (* line 267 alone: no id, nothing open, [tlfs] not empty *)
| BrSame (i : nat)       (* lines 269-272: the id of the open record *)
| BrNew (new_id : string). (* lines 273-298: another id, or nothing open *)

Definition branch_of (st : ScanState) (parsed : Parsed) : Branch :=
  if id_falsy (p_id parsed) then
    match current_tfl st with
    | Some i => BrContinue i
    | None => if (length (tlfs st) =? 0)%nat then BrWarn else BrSkip
    end
  else
    let new_id := default "" (p_id parsed) in
    match current_tfl st with
    | Some i =>
        if String.eqb (default "" (tfl_id <$> tlfs st !! i)) new_id
        then BrSame i else BrNew new_id
    | None => BrNew new_id
    end.

(** [current_tfl['pages_in_source'][1] = page_num + 1;
     current_tfl['page_count'] += 1] *)
Definition extend (page_num : Z) (r : TlfDict) : TlfDict :=
  mkTlf (tfl_id r) (tfl_type r) (tfl_title r) (tfl_file r)
        (fst (pages_in_source r), page_num + 1)
        (page_count r + 1)
        (tfl_population r) (tfl_source_program r).

(** [tfl_id.replace(" ", "_").replace("\n", "")] *)
Definition safe_id (id : string) : string :=
  PyStr.replace1 "010" "" (PyStr.replace1 " " "_" id).

Definition out_file_name (id : string) : string :=
  "pdf/" +:+ safe_id id +:+ ".pdf".

(** Lines 280-290. *)
Definition new_record (page_num : Z) (new_id : string) (parsed : Parsed)
  : TlfDict :=
  mkTlf new_id (p_type parsed) (p_title parsed) (out_file_name new_id)
        (page_num + 1, page_num + 1) 1 (p_population parsed)
        (if PyStr.truthy (p_source_program parsed)
         then Some (p_source_program parsed) else None).

Definition found_msg (r : TlfDict) : string :=
  "Found " +:+ tfl_id r +:+ " (Pages " +:+ PyStr.str (first_page r) +:+ "-"
  +:+ PyStr.str (last_page r) +:+ ")".

Definition extend_current (page_num : Z) (i : nat) (st : ScanState)
  : ScanState :=
  mkScan (alter (extend page_num) i (tlfs st)) (current_tfl st)
         (warnings st) (tfl_pages_total st + 1)
         (table_count st) (figure_count st).

(** The state after the loop body ran on a page that is not a
    termination page. *)
Definition scan_page (page_num : Z) (text : string) (st : ScanState)
  : ScanState :=
  let parsed := parse_tfl_page text in
  match branch_of st parsed with
  | BrContinue i | BrSame i => extend_current page_num i st
  | BrWarn =>
      mkScan (tlfs st) (current_tfl st) (warnings st + 1)
             (tfl_pages_total st) (table_count st) (figure_count st)
  | BrSkip => st
  | BrNew new_id =>
      let is_table :=
        match p_type parsed with
        | Some t => String.eqb t "table"
        | None => false
        end in
      mkScan (tlfs st ++ [new_record page_num new_id parsed])
             (Some (length (tlfs st)))
             (warnings st) (tfl_pages_total st + 1)
             (if is_table then table_count st + 1 else table_count st)
             (if is_table then figure_count st else figure_count st + 1)
  end.

(** What the loop body logs on that page. *)
Definition scan_page_log (verbose : bool) (page_num : Z) (text : string)
    (st : ScanState) : list Effect :=
  match branch_of st (parse_tfl_page text) with
  | BrWarn =>
      [Log WARNING ("No clear TFL ID found on page " +:+ PyStr.str (page_num + 1)
                    +:+ " before any TFL started.")]
  | BrNew _ =>
      match current_record st with
      | Some r => log_info verbose (found_msg r)
      | None => []
      end
  | _ => []
  end.

(** [for page_num in range(42, total_pages)], started at [page_num] on the
    pages that remain; the [break] of line 253 ends the scan. *)
Fixpoint scan_pages (verbose : bool) (page_num : Z) (pages : list string)
    (st : ScanState) : ScanState * list Effect :=
  match pages with
  | [] => (st, [])
  | text :: rest =>
      if is_termination text then
        (st, log_info verbose
               ("Reached Section 15/16 on page " +:+ PyStr.str (page_num + 1)
                +:+ ". Terminating TFL extraction."))
      else
        let st' := scan_page page_num text st in
        let '(st_end, log) := scan_pages verbose (page_num + 1) rest st' in
        (st_end, (scan_page_log verbose page_num text st ++ log)%list)
  end.

(** The whole scan of a document: pages 43 onwards, 0-based from 42. *)
Definition segment (verbose : bool) (doc : list string)
  : ScanState * list Effect :=
  scan_pages verbose 42 (drop 42 doc) scan_init.

(** ** Paths ([posixpath]) and timestamps *)

Definition nl : string := String "010" EmptyString.

Fixpoint ends_with_slash (s : string) : bool :=
  match s with
  | EmptyString => false
  | String c EmptyString => Ascii.eqb c "/"
  | String _ s' => ends_with_slash s'
  end.

(** [os.path.join(a, b)]. *)
Definition path_join (a b : string) : string :=
  if PyStr.startswith b "/" then b
  else if negb (PyStr.truthy a) || ends_with_slash a then a +:+ b
  else a +:+ "/" +:+ b.

(** [os.path.basename(p)]: what follows the last slash. *)
Fixpoint basename (p : string) : string :=
  match p with
  | EmptyString => EmptyString
  | String c p' =>
      if PyStr.contains "/" p' then basename p'
      else if Ascii.eqb c "/" then p' else p
  end.

(** The fields of [datetime.now(timezone.utc)]. *)
Record DateTime : Type := mkDateTime {
  year : Z; month : Z; day : Z;
  hour : Z; minute : Z; second : Z; microsecond : Z
}.

Definition digit_char (d : Z) : ascii :=
  ascii_of_N (48 + Z.to_N d).

(** ["%0<w>d" % n] for [0 <= n < 10 ^ w], which is where the fields of a
    datetime lie: the [w] decimal digits of [n]. *)
Fixpoint zfill (w : nat) (n : Z) : string :=
  match w with
  | O => EmptyString
  | S w' => zfill w' (n / 10) +:+ String (digit_char (n mod 10)) EmptyString
  end.

(** [t.isoformat()] of an aware datetime in UTC: the fraction is printed
    only when [microsecond] is not zero. *)
Definition isoformat (t : DateTime) : string :=
  zfill 4 (year t) +:+ "-" +:+ zfill 2 (month t) +:+ "-" +:+ zfill 2 (day t)
  +:+ "T" +:+ zfill 2 (hour t) +:+ ":" +:+ zfill 2 (minute t) +:+ ":"
  +:+ zfill 2 (second t)
  +:+ (if (microsecond t =? 0)%Z then "" else "." +:+ zfill 6 (microsecond t))
  +:+ "+00:00".

(** Line 322: [datetime.now(timezone.utc).isoformat()[:-13] + "Z"]. *)
Definition extraction_date_of (now : DateTime) : string :=
  PyStr.drop_last 13 (isoformat now) +:+ "Z".

(** ** Text extraction (lines 68-80) *)

Definition page_separator (n : Z) : string :=
  nl +:+ "--- Page " +:+ PyStr.str n +:+ " ---" +:+ nl.

(** What one iteration of the loop of [extract_txt] writes, for [0 <= i];
    [None] when the document has no page [i] and [doc[i]] raises. *)
Definition txt_chunk (doc : list string) (start_page end_page i : Z)
  : option string :=
  text ← doc !! Z.to_nat i;
  Some (text +:+ (if (i <? end_page)%Z
                  then page_separator (i - start_page + 2) else "")).

(** The exception branch rewrites the file with the marker; the text of
    the exception in the warning is left out. *)
Definition extract_txt (doc : list string) (start_page end_page : Z)
    (filepath : string) : list Effect :=
  match mapM (txt_chunk doc start_page end_page)
             (seqZ start_page (end_page + 1 - start_page)) with
  | Some chunks => [WriteText filepath (String.concat "" chunks)]
  | None =>
      [Log WARNING ("Failed to extract text to " +:+ filepath);
       WriteText filepath
         ("[TEXT EXTRACTION FAILED ON PAGE " +:+ PyStr.str (start_page + 1)
          +:+ "]")]
  end.

(** ** The extraction driver (lines 194-373) *)

Definition the_narrative : Narrative :=
  mkNarrative "pdf/narrative_body.pdf" (1, 42) 42.

(** Lines 319-329. *)
Definition build_manifest (doc_name : string) (total_pages : Z)
    (now : DateTime) (tlfs : list TlfDict) : Manifest :=
  mkManifest doc_name total_pages (extraction_date_of now) the_narrative tlfs.

(** Lines 304-317, for one record. *)
Definition write_tlf (doc : list string) (output_dir : string)
    (no_text : bool) (tfl : TlfDict) : list Effect :=
  let start_idx := first_page tfl - 1 in
  let end_idx := last_page tfl - 1 in
  (SavePdf (path_join output_dir (tfl_file tfl)) start_idx end_idx ::
   (if no_text then []
    else extract_txt doc start_idx end_idx
           (path_join output_dir
              ("text/" +:+ safe_id (tfl_id tfl) +:+ ".txt"))))%list.

Definition csv_header : list string :=
  ["id"; "type"; "title"; "file"; "pages_in_source_start";
   "pages_in_source_end"; "page_count"; "population"; "source_program"].

Definition csv_narrative_row (n : Narrative) : list string :=
  ["narrative_body"; "narrative"; ""; n_file n;
   PyStr.str (fst (n_pages_in_source n)); PyStr.str (snd (n_pages_in_source n));
   PyStr.str (n_page_count n); ""; ""].

Definition csv_tlf_row (tfl : TlfDict) : list string :=
  [tfl_id tfl; default "" (tfl_type tfl); tfl_title tfl; tfl_file tfl;
   PyStr.str (first_page tfl); PyStr.str (last_page tfl);
   PyStr.str (page_count tfl); tfl_population tfl;
   default "" (tfl_source_program tfl)].

(** Lines 331-355. *)
Definition write_manifest (output_dir : string) (m : Manifest) : list Effect :=
  [WriteJson (path_join output_dir "manifest.json") m;
   WriteCsv (path_join output_dir "manifest.csv")
     (csv_header :: csv_narrative_row (narrative m)
        :: (csv_tlf_row <$> m_tlfs m))].

Definition summary_row (tfl : TlfDict) : string :=
  PyStr.ljust 14 (tfl_id tfl) +:+ " "
  +:+ PyStr.ljust 6 ("(" +:+ PyStr.str (page_count tfl) +:+ "p)") +:+ " "
  +:+ tfl_title tfl.

(** Lines 363-373. *)
Definition summary (doc_name : string) (total_pages : Z) (st : ScanState)
  : list Effect :=
  ([Print (nl +:+ "=== Extraction Summary ===");
    Print ("Source: " +:+ doc_name +:+ " (" +:+ PyStr.str total_pages
           +:+ " pages)");
    Print "Narrative: pages 1-42 -> pdf/narrative_body.pdf";
    Print ("TFLs extracted: " +:+ PyStr.str (Z.of_nat (length (tlfs st)))
           +:+ " (" +:+ PyStr.str (table_count st) +:+ " tables, "
           +:+ PyStr.str (figure_count st) +:+ " figure"
           +:+ (if (figure_count st =? 1)%Z then "" else "s") +:+ ")");
    Print ("Total TFL pages: " +:+ PyStr.str (tfl_pages_total st));
    Print ("Warnings: " +:+ PyStr.str (warnings st) +:+ nl)]
   ++ (Print ∘ summary_row <$> tlfs st))%list.

Inductive Outcome : Type :=
| InputNotFound
| TooFewPages
| Completed (m : Manifest) (st : ScanState).

Record Run : Type := mkRun {
  effects : list Effect;
  outcome : Outcome
}.

(** [extract_tlfs]; [doc] is [None] when [input_path] does not exist and
    otherwise the text of each page of the opened document, and [now] is
    what the clock returns at line 322. *)
Definition extract_tlfs (doc : option (list string))
    (input_path output_dir : string) (verbose dry_run no_text : bool)
    (now : DateTime) : Run :=
  match doc with
  | None => mkRun [Log ERROR ("Input file not found: " +:+ input_path)]
                  InputNotFound
  | Some doc =>
      let pdf_dir := path_join output_dir "pdf" in
      let text_dir := path_join output_dir "text" in
      let dirs :=
        if dry_run then []
        else (MakeDirs output_dir :: MakeDirs pdf_dir ::
              (if no_text then [] else [MakeDirs text_dir]))%list in
      let total_pages := Z.of_nat (length doc) in
      let doc_name := basename input_path in
      if (total_pages <? 43)%Z then
        mkRun (dirs ++
               [Log ERROR ("Document has too few pages ("
                           +:+ PyStr.str total_pages
                           +:+ "). Cannot extract CSR.")])%list
              TooFewPages
      else
        let narrative_out :=
          if dry_run then []
          else (SavePdf (path_join output_dir "pdf/narrative_body.pdf") 0 41 ::
                (if no_text then []
                 else extract_txt doc 0 41
                        (path_join output_dir "text/narrative_body.txt")))%list
        in
        let '(st, scan_log) := segment verbose doc in
        let last_found :=
          match current_record st with
          | Some r => log_info verbose (found_msg r)
          | None => []
          end in
        let tlf_out :=
          if dry_run then []
          else concat (write_tlf doc output_dir no_text <$> tlfs st) in
        let manifest := build_manifest doc_name total_pages now (tlfs st) in
        let manifest_out :=
          if dry_run then [] else write_manifest output_dir manifest in
        mkRun (dirs
               ++ log_info verbose "Extracting narrative body (pages 1-42)..."
               ++ narrative_out ++ scan_log ++ last_found ++ tlf_out
               ++ manifest_out ++ summary doc_name total_pages st)%list
              (Completed manifest st)
  end.

(** ** The validator (lines 82-191) *)

(** A manifest as [json.load] returns it. A key that [run_validation]
    reads with [.get] is an [option]; [tfl['id']] must be present. *)
Record TlfJson : Type := mkTlfJson {
  j_id : string;
  j_pages_in_source : option (Z * Z);
  j_file : option string;
  j_page_count : option Z
}.

Record NarrativeJson : Type := mkNarrativeJson {
  jn_file : option string;
  jn_page_count : option Z
}.

(** [j_narrative] is [None] for a missing or empty [narrative] object,
    [j_tlfs] is [[]] for a missing [tlfs] array. *)
Record ManifestJson : Type := mkManifestJson {
  j_narrative : option NarrativeJson;
  j_tlfs : list TlfJson
}.

(** The manifest file that [json.dump] of line 334 leaves behind. *)
Definition manifest_json (m : Manifest) : ManifestJson :=
  mkManifestJson
    (Some (mkNarrativeJson (Some (n_file (narrative m)))
                           (Some (n_page_count (narrative m)))))
    ((fun r => mkTlfJson (tfl_id r) (Some (pages_in_source r))
                         (Some (tfl_file r)) (Some (page_count r)))
       <$> m_tlfs m).

(** What the validator finds at a path: nothing, an empty file, a file
    that [fitz.open] rejects, or a PDF with so many pages. *)
Inductive FileState : Type :=
| Missing
| EmptyFile
| Unreadable
| Pdf (pages : Z).

Inductive CheckKey : Type :=
| files_exist | files_non_empty | page_count_match | no_page_gaps
| no_page_overlaps | narrative_ok | pdfs_readable.

Global Instance CheckKey_eq_dec : EqDecision CheckKey.
Proof. solve_decision. Defined.

Definition all_checks : list CheckKey :=
  [files_exist; files_non_empty; page_count_match; no_page_gaps;
   no_page_overlaps; narrative_ok; pdfs_readable].

(** The dict [checks] (the keys that were set to [False]) and [msgs]. *)
Record Report : Type := mkReport {
  failed : list CheckKey;
  msgs : list string
}.

Definition check (rep : Report) (k : CheckKey) : bool :=
  bool_decide (k ∉ failed rep).

(** U+274C, as UTF-8. *)
Definition cross_mark : string :=
  String (ascii_of_nat 226) (String (ascii_of_nat 157)
    (String (ascii_of_nat 140) EmptyString)).

Definition set_false (k : CheckKey) (rep : Report) : Report :=
  mkReport (failed rep ++ [k]) (msgs rep).

Definition log_fail (k : CheckKey) (msg : string) (rep : Report) : Report :=
  mkReport (failed rep ++ [k]) (msgs rep ++ [cross_mark +:+ " " +:+ msg]).

(** Lines 113-131. *)
Definition validate_narrative (fs : string -> FileState)
    (output_dir : string) (narrative : option NarrativeJson) (rep : Report)
  : Report :=
  match narrative with
  | None => rep
  | Some n =>
      let n_pages := default 0 (jn_page_count n) in
      let n_file := path_join output_dir (default "" (jn_file n)) in
      match fs n_file with
      | Missing =>
          set_false files_exist
            (log_fail narrative_ok ("Narrative body missing: " +:+ n_file) rep)
      | EmptyFile =>
          set_false files_non_empty
            (log_fail narrative_ok ("Narrative body is empty: " +:+ n_file) rep)
      | Pdf len =>
          if (len =? n_pages)%Z then rep
          else log_fail narrative_ok
                 ("Narrative page count mismatch: " +:+ PyStr.str len
                  +:+ " != " +:+ PyStr.str n_pages) rep
      | Unreadable =>
          set_false pdfs_readable
            (log_fail narrative_ok
               ("Narrative body is unreadable: " +:+ n_file) rep)
      end
  end.

Definition gap_msg (tfl : TlfJson) (expected start_p : Z) : string :=
  "Page gap before " +:+ j_id tfl +:+ " (expected " +:+ PyStr.str expected
  +:+ ", got " +:+ PyStr.str start_p +:+ ")".

Definition overlap_msg (tfl : TlfJson) (expected start_p : Z) : string :=
  "Page overlap at " +:+ j_id tfl +:+ " (expected " +:+ PyStr.str expected
  +:+ ", got " +:+ PyStr.str start_p +:+ ")".

(** Lines 137-142. *)
Definition check_range (expected_next_page : option Z) (tfl : TlfJson)
    (rep : Report) : Report :=
  let start_p := fst (default (0, 0) (j_pages_in_source tfl)) in
  match expected_next_page with
  | Some e =>
      if (start_p >? e)%Z then log_fail no_page_gaps (gap_msg tfl e start_p) rep
      else if (start_p <? e)%Z
           then log_fail no_page_overlaps (overlap_msg tfl e start_p) rep
           else rep
  | None => rep
  end.

(** Lines 145-162. *)
Definition check_file (fs : string -> FileState) (output_dir : string)
    (tfl : TlfJson) (rep : Report) : Report :=
  let f_path := path_join output_dir (default "" (j_file tfl)) in
  let p_count := default 0 (j_page_count tfl) in
  match fs f_path with
  | Missing =>
      log_fail files_exist
        ("File missing for " +:+ j_id tfl +:+ ": " +:+ f_path) rep
  | EmptyFile =>
      log_fail files_non_empty
        ("File empty for " +:+ j_id tfl +:+ ": " +:+ f_path) rep
  | Pdf len =>
      if (len =? p_count)%Z then rep
      else log_fail page_count_match
             ("Page count mismatch: " +:+ basename f_path +:+ " has "
              +:+ PyStr.str len +:+ " pages but manifest says "
              +:+ PyStr.str p_count) rep
  | Unreadable =>
      log_fail pdfs_readable
        ("File unreadable for " +:+ j_id tfl +:+ ": " +:+ f_path) rep
  end.

(** The loop of lines 136-162, with [expected_next_page] threaded. *)
Fixpoint validate_tlfs (fs : string -> FileState) (output_dir : string)
    (expected_next_page : option Z) (tlfs : list TlfJson) (rep : Report)
  : Report :=
  match tlfs with
  | [] => rep
  | tfl :: rest =>
      let end_p := snd (default (0, 0) (j_pages_in_source tfl)) in
      let rep1 := check_range expected_next_page tfl rep in
      let rep2 := check_file fs output_dir tfl rep1 in
      validate_tlfs fs output_dir (Some (end_p + 1)) rest rep2
  end.

(** [run_validation] on a manifest that was found and parsed. *)
Definition run_validation (fs : string -> FileState) (output_dir : string)
    (manifest : ManifestJson) : Report :=
  validate_tlfs fs output_dir None (j_tlfs manifest)
    (validate_narrative fs output_dir (j_narrative manifest)
       (mkReport [] [])).

(** Line 189-191: the verdict. *)
Definition passed (rep : Report) : nat :=
  length (List.filter (check rep) all_checks).

Definition validation_passed (rep : Report) : bool :=
  (passed rep =? length all_checks)%nat.

(** ** Notions the properties are stated with *)

(** *** The scan, page by page *)

(** The pages the loop body runs on: those before the first termination
    page, or all of them when there is none. *)
Fixpoint scanned (pages : list string) : list string :=
  match pages with
  | [] => []
  | text :: rest => if is_termination text then [] else text :: scanned rest
  end.

(** The loop body iterated over pages none of which ends the scan. *)
Fixpoint scan_steps (page_num : Z) (pages : list string) (st : ScanState)
  : ScanState :=
  match pages with
  | [] => st
  | text :: rest => scan_steps (page_num + 1) rest (scan_page page_num text st)
  end.

(** The record, as an index into [tlfs], a page is folded into: the one
    whose [page_count] the loop body increments or sets to 1. [None] for a
    page that is dropped. *)
Definition target_of (st : ScanState) (parsed : Parsed) : option nat :=
  match branch_of st parsed with
  | BrContinue i | BrSame i => Some i
  | BrNew _ => Some (length (tlfs st))
  | BrWarn | BrSkip => None
  end.

Fixpoint scan_targets (page_num : Z) (pages : list string) (st : ScanState)
  : list (option nat) :=
  match pages with
  | [] => []
  | text :: rest =>
      target_of st (parse_tfl_page text)
        :: scan_targets (page_num + 1) rest (scan_page page_num text st)
  end.

(** The pages of the TLF section of a document that the scan processes;
    the one at index [k] is page [43 + k] of the document. *)
Definition tlf_pages (doc : list string) : list string :=
  scanned (drop 42 doc).

(** The state of the scan once [k] pages went through the loop body. *)
Definition state_after (doc : list string) (k : nat) : ScanState :=
  scan_steps 42 (take k (tlf_pages doc)) scan_init.

Definition targets_after (doc : list string) (k : nat) : list (option nat) :=
  scan_targets 42 (take k (tlf_pages doc)) scan_init.

(** How many of the first [k] pages were folded into record [i]. *)
Definition folded_into (doc : list string) (k i : nat) : nat :=
  length (filter (fun t => t = Some i) (targets_after doc k)).

(** The classifier finds a TLF identity on the page. *)
Definition has_heading (text : string) : bool :=
  negb (id_falsy (p_id (parse_tfl_page text))).

(** Index of the first page with a TLF identity. *)
Fixpoint first_heading (pages : list string) : option nat :=
  match pages with
  | [] => None
  | text :: rest =>
      if has_heading text then Some O else S <$> first_heading rest
  end.

(** *** Page ranges *)

Definition in_range (p : Z) (r : TlfDict) : Prop :=
  first_page r <= p <= last_page r.

(** The later of two records starts after the earlier one ends. *)
Definition page_ordered (l : list TlfDict) : Prop :=
  forall (i j : nat) ri rj, (i < j)%nat ->
    l !! i = Some ri -> l !! j = Some rj -> last_page ri < first_page rj.

Definition gap_free (l : list TlfDict) : Prop :=
  forall (i : nat) ri rj,
    l !! i = Some ri -> l !! S i = Some rj -> first_page rj = last_page ri + 1.

(** The pages in some record's range are exactly those of [[a, b)]. *)
Definition covers_exactly (l : list TlfDict) (a b : Z) : Prop :=
  forall p, (exists r, r ∈ l /\ in_range p r) <-> a <= p < b.

Definition segmentation_of (l : list TlfDict) (a b : Z) : Prop :=
  page_ordered l /\ gap_free l /\ covers_exactly l a b.

(** The records, one after the other, tile the pages of [[a, b)], and each
    counts its pages. *)
Fixpoint tiles (a : Z) (l : list TlfDict) (b : Z) : Prop :=
  match l with
  | [] => a = b
  | r :: l' =>
      first_page r = a /\ first_page r <= last_page r
      /\ page_count r = last_page r - first_page r + 1
      /\ tiles (last_page r + 1) l' b
  end.

(** *** The source program, in words *)

(** The last element that satisfies [f]: the first one met from the end. *)
Fixpoint last_match (f : string -> bool) (l : list string) : option string :=
  match l with
  | [] => None
  | x :: l' =>
      match last_match f l' with
      | Some y => Some y
      | None => if f x then Some x else None
      end
  end.

(** The text before the first run of two or more characters of class [p]. *)
Fixpoint first_token (p : ascii -> bool) (s : string) : string :=
  match s with
  | EmptyString => EmptyString
  | String c s' =>
      if p c && PyStr.next_is p s' then EmptyString
      else String c (first_token p s')
  end.

Definition is_blank (c : ascii) : bool := Ascii.eqb c " ".

(** The rule as the specification words it: what follows [source:], split
    on runs of two or more spaces, first token. A piece before a leading
    run counts as a token here; [C7_counterexample] uses lines with no
    leading run, where this makes no difference. *)
Definition spec_source_program (lines : list string) : string :=
  match last_match is_source_line (last_n 15 lines) with
  | Some line => first_token is_blank (PyStr.sdrop 7 line)
  | None => ""
  end.

(** The rule with the trimming and the whitespace class of the code. *)
Definition spec_source_program_trimmed (lines : list string) : string :=
  match last_match is_source_line (last_n 15 lines) with
  | Some line => first_token PyStr.is_space (PyStr.strip (PyStr.sdrop 7 line))
  | None => ""
  end.

(** *** File names, in words *)

Fixpoint has_char (c : ascii) (s : string) : bool :=
  match s with
  | EmptyString => false
  | String x s' => Ascii.eqb x c || has_char c s'
  end.

(** The id with its spaces and newlines removed. *)
Fixpoint spec_sanitize (s : string) : string :=
  match s with
  | EmptyString => EmptyString
  | String c s' =>
      if Ascii.eqb c " " || Ascii.eqb c "010" then spec_sanitize s'
      else String c (spec_sanitize s')
  end.

(** The id with each space turned into an underscore and its newlines
    removed. *)
Fixpoint underscore_sanitize (s : string) : string :=
  match s with
  | EmptyString => EmptyString
  | String c s' =>
      if Ascii.eqb c " " then String "_" (underscore_sanitize s')
      else if Ascii.eqb c "010" then underscore_sanitize s'
      else String c (underscore_sanitize s')
  end.

(** *** Timestamps *)

(** [YYYY-MM-DDTHH:MM:SSZ] *)
Definition is_iso_utc_seconds (s : string) : bool :=
  match list_ascii_of_string s with
  | [y1; y2; y3; y4; d1; m1; m2; d2; a1; a2; t; h1; h2; c1; n1; n2; c2;
     s1; s2; z] =>
      forallb PyStr.is_digit [y1; y2; y3; y4; m1; m2; a1; a2; h1; h2; n1; n2; s1; s2]
      && Ascii.eqb d1 "-" && Ascii.eqb d2 "-" && Ascii.eqb t "T"
      && Ascii.eqb c1 ":" && Ascii.eqb c2 ":" && Ascii.eqb z "Z"
  | _ => false
  end.

(** The fields of a datetime are in the ranges [datetime] allows. *)
Definition valid_datetime (t : DateTime) : Prop :=
  1 <= year t <= 9999 /\ 1 <= month t <= 12 /\ 1 <= day t <= 31
  /\ 0 <= hour t < 24 /\ 0 <= minute t < 60 /\ 0 <= second t < 60
  /\ 0 <= microsecond t < 1000000.

(** *** Manifest page ranges *)

Definition j_first (t : TlfJson) : Z := fst (default (0, 0) (j_pages_in_source t)).
Definition j_last (t : TlfJson) : Z := snd (default (0, 0) (j_pages_in_source t)).

(** Two records that follow each other in the manifest, the first page of
    the second in relation [R] to the page after the last page of the
    first. *)
Definition adjacent_pair (R : Z -> Z -> Prop) (l : list TlfJson) : Prop :=
  exists (i : nat) a b,
    l !! i = Some a /\ l !! S i = Some b /\ R (j_first b) (j_last a + 1).

(** Some record starts after the page that follows its predecessor. *)
Definition has_gap : list TlfJson -> Prop := adjacent_pair Z.gt.

(** Some record starts before the page that follows its predecessor. *)
Definition has_overlap : list TlfJson -> Prop := adjacent_pair Z.lt.

(** The same, along the loop: [e] is [expected_next_page]. *)
Fixpoint breach_from (R : Z -> Z -> Prop) (e : option Z) (l : list TlfJson)
  : Prop :=
  match l with
  | [] => False
  | t :: rest =>
      (exists x, e = Some x /\ R (j_first t) x)
      \/ breach_from R (Some (j_last t + 1)) rest
  end.

(** The first record of the manifest starts at page 43. *)
Definition begins_at_43 (l : list TlfJson) : Prop :=
  forall t, l !! 0%nat = Some t -> j_first t = 43.

(** *** The loop body and its invariant *)

(** The open record is the last one of [tlfs], and there is an open record
    as soon as [tlfs] is not empty. *)
Definition open_last (st : ScanState) : Prop :=
  match current_tfl st with
  | Some i => S i = length (tlfs st)
  | None => tlfs st = []
  end.

(** The three things the loop body does: drop the page with a warning,
    extend the last record, or append a new record. *)
Inductive step_shape (n : Z) (t : string) (st st' : ScanState)
  : option nat -> Prop :=
| shape_drop :
    has_heading t = false -> branch_of st (parse_tfl_page t) = BrWarn ->
    tlfs st = [] -> tlfs st' = [] -> current_tfl st' = None ->
    warnings st' = warnings st + 1 ->
    step_shape n t st st' None
| shape_extend l r :
    tlfs st = l ++ [r] -> current_tfl st = Some (length l) ->
    tlfs st' = l ++ [extend n r] -> current_tfl st' = Some (length l) ->
    warnings st' = warnings st ->
    step_shape n t st st' (Some (length l))
| shape_open new_id :
    has_heading t = true ->
    tlfs st' = tlfs st ++ [new_record n new_id (parse_tfl_page t)] ->
    current_tfl st' = Some (length (tlfs st)) ->
    warnings st' = warnings st ->
    step_shape n t st st' (Some (length (tlfs st))).

(** What holds of the state [st] and of the targets [T] of the pages
    [done] that went through the loop body, the first of them page 43. *)
Record scan_inv (done : list string) (st : ScanState)
    (T : list (option nat)) : Prop := mkInv {
  inv_open : open_last st;
  inv_len : length T = length done;
  inv_tiles :
    match first_heading done with
    | Some j =>
        tiles (43 + Z.of_nat j) (tlfs st) (43 + Z.of_nat (length done))
        /\ tlfs st <> []
    | None => tlfs st = []
    end;
  inv_count : forall (i : nat) r,
    tlfs st !! i = Some r ->
    page_count r = Z.of_nat (length (filter (fun t => t = Some i) T));
  inv_target : forall (j i : nat),
    T !! j = Some (Some i) ->
    exists r, tlfs st !! i = Some r /\ in_range (43 + Z.of_nat j) r;
  inv_dropped : forall (j : nat),
    T !! j = Some None ->
    match first_heading done with
    | Some j0 => (j < j0)%nat
    | None => True
    end;
  inv_file : forall r, r ∈ tlfs st -> tfl_file r = out_file_name (tfl_id r);
  inv_warnings :
    warnings st = Z.of_nat (length (filter (fun t => t = None) T))
}.

(** *** Example documents *)

Definition narrative_pages : list string := replicate 42 "Narrative text".

(** Page 43 carries no heading; the first TLF starts on page 44. *)
Definition doc_late_heading : list string :=
  narrative_pages
  ++ ["Synopsis of the tables"; "Table 14.1.1" +:+ nl +:+ "Demographics"].

(** The page of scenario 1. *)
Definition page_demographics : string :=
  "Table 14.1.1" +:+ nl +:+ "Demographics" +:+ nl +:+ "Population: Safety"
  +:+ nl +:+ "Age (years)    42.1" +:+ nl
  +:+ "Source:   prog1.sas   02JUN2023" +:+ nl.

(** A table on pages 43-44, a figure on page 45, the references on page 46
    and one more page behind them. *)
Definition doc_sample : list string :=
  narrative_pages
  ++ [page_demographics; "Sex    F 12   M 14";
      "Figure 14.2-1" +:+ nl +:+ "Kaplan-Meier plot";
      "15. References"; "Table 14.3.1"].

(** A source line whose date follows the program after two tabs. *)
Definition source_line_tabs : string :=
  "Source:prog1.sas" +:+ String "009" (String "009" "02JUN2023").

(** A manifest whose only record starts at page 50, with every file in
    place. *)
Definition manifest_from_50 : ManifestJson :=
  mkManifestJson None
    [mkTlfJson "Table 14.1.1" (Some (50, 51)) (Some "pdf/Table_14.1.1.pdf")
               (Some 2)].

Definition fs_two_pages : string -> FileState := fun _ => Pdf 2.

(** The manifest of scenario 4. *)
Definition manifest_gap : ManifestJson :=
  mkManifestJson None
    [mkTlfJson "A" (Some (43, 44)) (Some "pdf/A.pdf") (Some 2);
     mkTlfJson "B" (Some (46, 46)) (Some "pdf/B.pdf") (Some 1)].

(** *** What a run shows on the console *)

(** The effects of a run that are no filesystem writes: log records and
    printed lines. *)
Definition console (es : list Effect) : list Effect :=
  List.filter (fun e => negb (is_fs_write e)) es.


(** ** Further notions: the counters and the records of the scan *)

(** The sum of the [page_count] fields. *)
Definition sum_counts (l : list TlfDict) : Z :=
  foldr (fun r acc => page_count r + acc) 0 l.

(** The test of line 295 on a record. *)
Definition is_table_record (r : TlfDict) : bool :=
  match tfl_type r with
  | Some t => String.eqb t "table"
  | None => false
  end.

(** The record [r] is what line 280-290 build from the page [text] at
    0-based index [page_num], but for the end of its range and its count. *)
Definition seeded_from (page_num : Z) (text : string) (r : TlfDict) : Prop :=
  let parsed := parse_tfl_page text in
  p_id parsed = Some (tfl_id r)
  /\ tfl_type r = p_type parsed
  /\ tfl_title r = p_title parsed
  /\ tfl_file r = out_file_name (tfl_id r)
  /\ first_page r = page_num + 1
  /\ tfl_population r = p_population parsed
  /\ tfl_source_program r
     = (if PyStr.truthy (p_source_program parsed)
        then Some (p_source_program parsed) else None).


(** What the counters of the scan state say about the pages [done] that
    went through the loop body. *)
Record scan_facts (done : list string) (st : ScanState) : Prop := mkFacts {
  fact_total : tfl_pages_total st = sum_counts (tlfs st);
  fact_processed :
    tfl_pages_total st + warnings st = Z.of_nat (length done);
  fact_tables :
    table_count st = Z.of_nat (length (List.filter is_table_record (tlfs st)));
  fact_figures :
    figure_count st
    = Z.of_nat (length (List.filter (fun r => negb (is_table_record r))
                                     (tlfs st)));
  fact_seed : forall (i : nat) r,
    tlfs st !! i = Some r ->
    exists (k : nat) text,
      done !! k = Some text /\ seeded_from (42 + Z.of_nat k) text r;
  fact_adjacent : forall (i : nat) a b,
    tlfs st !! i = Some a -> tlfs st !! S i = Some b -> tfl_id a <> tfl_id b
}.

(** *** Kinds of effects *)

Definition is_info_log (e : Effect) : bool :=
  match e with
  | Log INFO _ => true
  | _ => false
  end.

Definition not_info (e : Effect) : bool := negb (is_info_log e).

(** The effects that exist only for the text output: the text files and
    the directory [text] of the output directory. *)
Definition is_text_output (output_dir : string) (e : Effect) : bool :=
  match e with
  | WriteText _ _ => true
  | MakeDirs p => String.eqb p (path_join output_dir "text")
  | _ => false
  end.

Definition not_text_output (output_dir : string) (e : Effect) : bool :=
  negb (is_text_output output_dir e).

(** ** The report of the validator (lines 82-95 and 164-191) *)

(** [safe_print] is taken on a standard output that encodes the marks
    (lines 12-16 set it to UTF-8); where it cannot, the marks come out
    as question marks. *)

(** U+2705, as UTF-8. *)
Definition check_mark : string :=
  String (ascii_of_nat 226) (String (ascii_of_nat 156)
    (String (ascii_of_nat 133) EmptyString)).

(** How a call ends: it returns, or an exception leaves it. *)
Inductive Ending : Type :=
| Returned
| Raised (exn : string).

(** Lines 174-180. The page range is read with [tlfs[0]["pages_in_source"]]
    and [tlfs[-1]["pages_in_source"]], which raise [KeyError] for a record
    without that key; [None] stands for that. *)
Definition gap_line (tlfs : list TlfJson) : option string :=
  match tlfs with
  | [] => Some (check_mark +:+ " No page gaps in Section 14")
  | first_tfl :: _ =>
      min_p ← fst <$> j_pages_in_source first_tfl;
      last_tfl ← last tlfs;
      max_p ← snd <$> j_pages_in_source last_tfl;
      Some (check_mark +:+ " No page gaps in Section 14 (pages "
            +:+ PyStr.str min_p +:+ "-" +:+ PyStr.str max_p +:+ " covered)")
  end.

(** Lines 170-172. *)
Definition report_head (manifest : ManifestJson) (rep : Report) : list Effect :=
  (if check rep files_exist
   then [Print (check_mark +:+ " All "
                +:+ PyStr.str (Z.of_nat (length (j_tlfs manifest)))
                +:+ " TFL files exist")]
   else [])
  ++ (if check rep files_non_empty
      then [Print (check_mark +:+ " All files non-empty")] else [])
  ++ (if check rep page_count_match
      then [Print (check_mark +:+ " Page counts consistent")] else []).

(** Line 191. *)
Definition verdict (rep : Report) : string :=
  let total := length all_checks in
  PyStr.strip
    (nl +:+ "Validation "
     +:+ (if (passed rep =? total)%nat then "PASSED" else "FAILED")
     +:+ " (" +:+ PyStr.str (Z.of_nat (passed rep)) +:+ "/"
     +:+ PyStr.str (Z.of_nat total) +:+ " checks "
     +:+ (if (passed rep =? total)%nat then "" else "passed") +:+ ")").

(** Lines 182-191. *)
Definition report_tail (manifest : ManifestJson) (rep : Report) : list Effect :=
  let n_pages := default 0 (j_narrative manifest ≫= jn_page_count) in
  (if check rep no_page_overlaps
   then [Print (check_mark +:+ " No page overlaps")] else [])
  ++ (if check rep narrative_ok
      then [Print (check_mark +:+ " Narrative body OK (" +:+ PyStr.str n_pages
                   +:+ " pages)")]
      else [])
  ++ (if check rep pdfs_readable
      then [Print (check_mark +:+ " All PDFs readable")] else [])
  ++ (Print <$> msgs rep)
  ++ [Print (verdict rep)].

Record ValidationRun : Type := mkValidationRun {
  v_effects : list Effect;
  v_ending : Ending
}.

(** Lines 170-191: what is printed once the checks are done. *)
Definition print_report (manifest : ManifestJson) (rep : Report)
  : ValidationRun :=
  if check rep no_page_gaps then
    match gap_line (j_tlfs manifest) with
    | Some line =>
        mkValidationRun
          (report_head manifest rep ++ [Print line] ++ report_tail manifest rep)
          Returned
    | None =>
        mkValidationRun (report_head manifest rep)
                        (Raised "KeyError: 'pages_in_source'")
    end
  else
    mkValidationRun (report_head manifest rep ++ report_tail manifest rep)
                    Returned.

(** What [run_validation] finds at [manifest.json]. *)
Inductive ManifestFile : Type :=
| NoManifest
| CorruptManifest
| ManifestOk (m : ManifestJson).

(** The whole of [run_validation]: the manifest is looked up and parsed,
    the checks run, the report is printed. *)
Definition run_validation_io (mf : ManifestFile) (fs : string -> FileState)
    (output_dir : string) : ValidationRun :=
  match mf with
  | NoManifest =>
      mkValidationRun
        [Log ERROR ("Cannot validate: manifest.json not found in "
                    +:+ output_dir)]
        Returned
  | CorruptManifest =>
      mkValidationRun [Log ERROR "Invalid manifest.json format"] Returned
  | ManifestOk manifest =>
      let r := print_report manifest (run_validation fs output_dir manifest) in
      mkValidationRun (Print (nl +:+ "=== Validation ===") :: v_effects r)
                      (v_ending r)
  end.

(** The file of a record is a PDF with the page count the manifest
    records for it. *)
Definition file_matches (fs : string -> FileState) (output_dir : string)
    (t : TlfJson) : Prop :=
  fs (path_join output_dir (default "" (j_file t)))
  = Pdf (default 0 (j_page_count t)).

Definition narrative_matches (fs : string -> FileState) (output_dir : string)
    (n : option NarrativeJson) : Prop :=
  match n with
  | None => True
  | Some n =>
      fs (path_join output_dir (default "" (jn_file n)))
      = Pdf (default 0 (jn_page_count n))
  end.

(** ** The command line ([main], lines 375-398) *)

(** The arguments as [parse_args] returns them; [--output] is required,
    so [main] goes on only with one. *)
Record Args : Type := mkArgs {
  arg_input : option string;
  arg_output : string;
  arg_verbose : bool;
  arg_dry_run : bool;
  arg_validate : bool;
  arg_no_text : bool
}.

(** What the program reads from its surroundings: the documents by path,
    the clock, and, depending on the effects the run had before the read,
    [manifest.json] in the output directory and the files the validator
    opens. *)
Record Env : Type := mkEnv {
  env_docs : string -> option (list string);
  env_now : DateTime;
  env_manifest : list Effect -> ManifestFile;
  env_fs : list Effect -> string -> FileState
}.

Inductive Exit : Type :=
| ExitOk
| ExitUsage (msg : string)
| ExitRaised (exn : string).

Record MainRun : Type := mkMainRun {
  m_effects : list Effect;
  m_exit : Exit
}.

(** [args.input] when it is truthy: given and not empty. *)
Definition input_given (args : Args) : option string :=
  match arg_input args with
  | Some s => if PyStr.truthy s then Some s else None
  | None => None
  end.

Definition exit_of (e : Ending) : Exit :=
  match e with
  | Returned => ExitOk
  | Raised exn => ExitRaised exn
  end.

Definition main (env : Env) (args : Args) : MainRun :=
  match input_given args with
  | None =>
      if arg_validate args then
        let v := run_validation_io (env_manifest env []) (env_fs env [])
                   (arg_output args) in
        mkMainRun (v_effects v) (exit_of (v_ending v))
      else
        mkMainRun []
          (ExitUsage "--input is required unless running standalone --validate")
  | Some input_path =>
      let run := extract_tlfs (env_docs env input_path) input_path
                   (arg_output args) (arg_verbose args) (arg_dry_run args)
                   (arg_no_text args) (env_now env) in
      if arg_validate args && negb (arg_dry_run args) then
        let v := run_validation_io (env_manifest env (effects run))
                   (env_fs env (effects run)) (arg_output args) in
        mkMainRun (effects run ++ v_effects v) (exit_of (v_ending v))
      else mkMainRun (effects run) ExitOk
  end.

(** *** A file system that reads back what was written *)

Definition writes_to (path : string) (e : Effect) : bool :=
  match e with
  | SavePdf p _ _ | WriteText p _ | WriteJson p _ | WriteCsv p _ =>
      String.eqb p path
  | _ => false
  end.

(** The last effect that wrote the file at [path]. *)
Definition last_write (path : string) (es : list Effect) : option Effect :=
  last (List.filter (writes_to path) es).

(** The files read back as they were last written: a PDF saved from pages
    [a..b] of the source has [b - a + 1] pages, and the manifest parses to
    what was dumped. Nothing is said of files the run did not write. *)
Definition reads_back (env : Env) (output_dir : string) : Prop :=
  (forall es path a b,
     last_write path es = Some (SavePdf path a b) -> a <= b ->
     env_fs env es path = Pdf (b - a + 1))
  /\ (forall es p m,
        last_write (path_join output_dir "manifest.json") es
        = Some (WriteJson p m) ->
        env_manifest env es = ManifestOk (manifest_json m)).

(** The surroundings in which only the files of the run exist. *)
Definition env_of_writes (docs : string -> option (list string))
    (now : DateTime) (output_dir : string) : Env :=
  mkEnv docs now
    (fun es =>
       match last_write (path_join output_dir "manifest.json") es with
       | Some (WriteJson _ m) => ManifestOk (manifest_json m)
       | Some _ => CorruptManifest
       | None => NoManifest
       end)
    (fun es path =>
       match last_write path es with
       | Some (SavePdf _ a b) => Pdf (b - a + 1)
       | Some _ => Unreadable
       | None => Missing
       end).

(** A report with a failed check and a message. *)
Definition dirty (rep : Report) : Prop := failed rep <> [] /\ msgs rep <> [].

(** A report with neither. *)
Definition clean (rep : Report) : Prop := failed rep = [] /\ msgs rep = [].

(** A regular expression that no string matches. *)
Fixpoint re_void (r : Re.regex) : bool :=
  match r with
  | Re.Void => true
  | Re.Eps | Re.Chr _ | Re.Star _ => false
  | Re.Cat r1 r2 => re_void r1 || re_void r2
  | Re.Alt r1 r2 => re_void r1 && re_void r2
  end.

(** What is read does not change with effects that write no file. *)
Definition reads_only_files (env : Env) : Prop :=
  forall es, Forall (fun e => is_file_write e = false) es ->
    env_manifest env es = env_manifest env []
    /\ forall path, env_fs env es path = env_fs env [] path.

(** The command line with [--validate] taken off. *)
Definition without_validate (args : Args) : Args :=
  mkArgs (arg_input args) (arg_output args) (arg_verbose args)
         (arg_dry_run args) false (arg_no_text args).

(** The command line of a standalone validation of the same directory. *)
Definition validate_only (args : Args) : Args :=
  mkArgs None (arg_output args) (arg_verbose args) (arg_dry_run args) true
         (arg_no_text args).

(** ** Text files in words *)



(** The table of page 43 comes back on pages 45-46, behind a figure. *)
Definition doc_repeated_table : list string :=
  narrative_pages
  ++ ["Table 14.1.1" +:+ nl +:+ "Demographics";
      "Figure 14.2-1" +:+ nl +:+ "Kaplan-Meier plot";
      "Table 14.1.1" +:+ nl +:+ "Demographics (continued)";
      "Sex    F 12   M 14"].

(** ** Clean strings *)

Fixpoint all_chars (p : ascii -> bool) (s : string) : bool :=
  match s with
  | EmptyString => true
  | String c s' => p c && all_chars p s'
  end.

(** No character at which [splitlines] would break a line. *)
Definition no_linebreak (s : string) : bool :=
  all_chars (fun c => negb (PyStr.is_linebreak c)) s.

(** A string that [strip] leaves as it is. *)
Definition trimmed (s : string) : Prop := PyStr.strip s = s.

(** One line, without white space around it. *)
Definition clean_line (s : string) : Prop :=
  trimmed s /\ no_linebreak s = true.

(** * Properties *)

(** ** Facts about the classifier *)

Section find_last.
Context (f : string -> bool).

Lemma list_find_bool_cons x l :
  list_find (fun y => Is_true (f y)) (x :: l)
  = if f x then Some (O, x)
    else prod_map S id <$> list_find (fun y => Is_true (f y)) l.
Proof.
  cbn [list_find]. destruct (f x) eqn:E; case_decide as H; done.
Qed.

Lemma list_find_snoc_bool l x :
  snd <$> list_find (fun y => Is_true (f y)) (x :: l) =
  if f x then Some x else snd <$> list_find (fun y => Is_true (f y)) l.
Proof.
  rewrite list_find_bool_cons. destruct (f x); [done|].
  by destruct (list_find _ l) as [[? ?]|].
Qed.

Lemma last_match_app l x :
  last_match f (l ++ [x]) = if f x then Some x else last_match f l.
Proof.
  induction l as [|y l IH]; cbn [last_match app].
  - by destruct (f x).
  - rewrite IH. by destruct (f x).
Qed.

(** Scanning the reversed list for the first match finds the last match. *)
Lemma list_find_reverse l :
  snd <$> list_find (fun y => Is_true (f y)) (reverse l) = last_match f l.
Proof.
  induction l as [|x l IH] using rev_ind; [done|].
  rewrite reverse_snoc, list_find_snoc_bool, last_match_app, IH. done.
Qed.

Lemma last_match_none l :
  Forall (fun y => f y = false) l -> last_match f l = None.
Proof.
  induction 1 as [|x l Hx _ IH]; [done|]. cbn. by rewrite IH, Hx.
Qed.

Lemma last_match_split pre x post :
  f x = true -> Forall (fun y => f y = false) post ->
  last_match f (pre ++ x :: post) = Some x.
Proof.
  intros Hx Hpost. induction pre as [|y pre IH]; cbn.
  - by rewrite (last_match_none _ Hpost), Hx.
  - by rewrite IH.
Qed.
End find_last.

Lemma last_n_split {A} (n : nat) (pre : list A) x post :
  (length post < n)%nat ->
  exists pre', last_n n (pre ++ x :: post) = pre' ++ x :: post.
Proof.
  intros Hn. unfold last_n. rewrite length_app. cbn [length].
  destruct (decide (length pre + S (length post) - n <= length pre)%nat) as [H|H].
  - rewrite drop_app_le by done. eauto.
  - lia.
Qed.

(** The equations of [+:+], which [simpl] leaves folded. *)
Lemma app_String c (a b : string) : String c a +:+ b = String c (a +:+ b).
Proof. reflexivity. Qed.

Lemma app_empty_l (b : string) : "" +:+ b = b.
Proof. reflexivity. Qed.

Lemma append_assoc_char (a : string) c (b : string) :
  (a +:+ String c "") +:+ b = a +:+ String c b.
Proof. induction a as [|x a IH]; [done|]. rewrite !app_String. by rewrite IH. Qed.

Lemma append_empty_r (a : string) : a +:+ "" = a.
Proof. induction a as [|x a IH]; [done|]. rewrite app_String. by rewrite IH. Qed.

Section split.
Context (p : ascii -> bool).

(** The first piece of the split is the text before the first run. *)
Lemma split_runs2_head piece s :
  head (PyStr.split_runs2_go p false piece s) = Some (piece +:+ first_token p s).
Proof.
  revert piece. induction s as [|c s IH]; intros piece; cbn.
  - by rewrite append_empty_r.
  - destruct (p c && PyStr.next_is p s); cbn.
    + by rewrite append_empty_r.
    + rewrite IH. by rewrite append_assoc_char.
Qed.
End split.

Lemma source_program_of_spec lines :
  source_program_of lines = spec_source_program_trimmed lines.
Proof.
  unfold source_program_of, spec_source_program_trimmed.
  rewrite <- (list_find_reverse is_source_line).
  destruct (list_find _ _) as [[i line]|]; cbn; [|done].
  unfold PyStr.split_ws2.
  pose proof (split_runs2_head PyStr.is_space "" (PyStr.strip (PyStr.sdrop 7 line))) as H.
  destruct (PyStr.split_runs2_go _ _ _ _); cbn in H; [done|].
  by injection H as ->.
Qed.

Lemma is_heading_nonempty s : is_heading s = true -> PyStr.truthy s = true.
Proof. destruct s; [|done]. vm_compute. done. Qed.

Lemma find_heading_Some lines i s :
  find_heading lines = Some (i, s) ->
  lines !! i = Some s /\ is_heading s = true /\ (i < 10)%nat.
Proof.
  unfold find_heading. intros H. apply list_find_Some in H as (Hl & Hs & _).
  apply lookup_take_Some in Hl as [Hl Hi].
  split; [done|]. split; [|done]. by apply Is_true_true.
Qed.

Lemma parse_id_truthy lines s :
  p_id (parse_lines lines) = Some s -> PyStr.truthy s = true.
Proof.
  unfold parse_lines; cbn. destruct (find_heading lines) as [[i l]|] eqn:E; [|done].
  cbn. intros [= <-]. apply find_heading_Some in E as (_ & H & _).
  by apply is_heading_nonempty.
Qed.

Lemma has_heading_Some text :
  has_heading text = true <-> is_Some (p_id (parse_tfl_page text)).
Proof.
  unfold has_heading, id_falsy, parse_tfl_page.
  destruct (p_id (parse_lines (page_lines text))) as [s|] eqn:E; cbn.
  - rewrite (parse_id_truthy _ _ E). split; eauto.
  - split; [done|]. by intros [? ?].
Qed.

Lemma lower_char_colon c : PyStr.lower_char c = ":"%char -> c = ":"%char.
Proof.
  destruct c as [[] [] [] [] [] [] [] []]; vm_compute; intros H;
    first [reflexivity | discriminate H].
Qed.

Lemma split1_two sep s :
  has_char sep s = true -> exists a b, PyStr.split1 sep s = [a; b].
Proof.
  induction s as [|c s IH]; cbn; [done|].
  destruct (Ascii.eqb c sep); cbn; [eauto|].
  intros (a & b & ->)%IH. eauto.
Qed.

Lemma prefix_has_last_char (p : string) c s :
  String.prefix (p +:+ String c "") s = true -> has_char c s = true.
Proof.
  revert s. induction p as [|a p IH]; intros [|b s];
    rewrite ?app_empty_l, ?app_String; cbn; try done.
  - destruct (ascii_dec c b) as [->|]; [|done].
    intros _. by rewrite Ascii.eqb_refl.
  - destruct (ascii_dec a b); [|done]. intros ->%IH. apply orb_true_r.
Qed.

Lemma has_char_lower_colon s :
  has_char ":" (PyStr.lower s) = true -> has_char ":" s = true.
Proof.
  induction s as [|c s IH]; cbn; [done|].
  intros [H%Ascii.eqb_eq%lower_char_colon|H%IH]%orb_true_iff.
  - by subst.
  - rewrite H. apply orb_true_r.
Qed.

(** The index [1] of line 48 exists: a population line holds a colon. *)
Lemma population_split line :
  is_population_line line = true ->
  exists a b, PyStr.split1 ":" line = [a; b].
Proof.
  intros H. apply split1_two, has_char_lower_colon.
  by apply (prefix_has_last_char "population").
Qed.

(** ** Facts about page ranges *)

Lemma tiles_le a l b : tiles a l b -> a <= b.
Proof.
  revert a. induction l as [|r l IH]; intros a; cbn; [lia|].
  intros (? & ? & ? & H%IH). lia.
Qed.

Lemma tiles_snoc a l r b :
  tiles a (l ++ [r]) b <->
  tiles a l (first_page r) /\ first_page r <= last_page r
  /\ page_count r = last_page r - first_page r + 1 /\ b = last_page r + 1.
Proof.
  revert a. induction l as [|x l IH]; intros a; cbn.
  - intuition lia.
  - rewrite IH. intuition lia.
Qed.

Lemma tiles_lookup a l b (i : nat) r :
  tiles a l b -> l !! i = Some r ->
  a <= first_page r /\ first_page r <= last_page r /\ last_page r < b
  /\ page_count r = last_page r - first_page r + 1.
Proof.
  revert a i. induction l as [|x l IH]; intros a i; [done|].
  cbn. intros (Ha & Hx & Hc & Ht) Hi. pose proof (tiles_le _ _ _ Ht).
  destruct i as [|i]; cbn in Hi.
  - injection Hi as <-. lia.
  - destruct (IH _ _ Ht Hi) as (? & ? & ? & ?). lia.
Qed.

Lemma tiles_ordered a l b : tiles a l b -> page_ordered l.
Proof.
  revert a. induction l as [|x l IH]; intros a; [by intros ? [|?] [|?]|].
  cbn. intros (Ha & Hx & Hc & Ht) i j ri rj Hij Hi Hj.
  destruct j as [|j]; [lia|]. cbn in Hj.
  destruct i as [|i]; cbn in Hi.
  - injection Hi as <-. destruct (tiles_lookup _ _ _ _ _ Ht Hj). lia.
  - eapply (IH _ Ht i j); [lia|done..].
Qed.

Lemma tiles_gap_free a l b : tiles a l b -> gap_free l.
Proof.
  revert a. induction l as [|x l IH]; intros a; [by intros ? [|?]|].
  cbn. intros (Ha & Hx & Hc & Ht) i ri rj Hi Hj. cbn in Hj.
  destruct i as [|i]; cbn in Hi.
  - injection Hi as <-. destruct l as [|y l]; [done|].
    cbn in Hj. injection Hj as <-. cbn in Ht. lia.
  - by eapply (IH _ Ht i).
Qed.

Lemma tiles_covers a l b : tiles a l b -> covers_exactly l a b.
Proof.
  revert a. induction l as [|x l IH]; intros a; cbn.
  - intros <- p. split; [|lia]. intros (r & Hr & _). by apply elem_of_nil in Hr.
  - intros (Ha & Hx & Hc & Ht) p. pose proof (tiles_le _ _ _ Ht).
    specialize (IH _ Ht p). split.
    + intros (r & Hr & Hp). apply elem_of_cons in Hr as [->|Hr].
      * unfold in_range in Hp. lia.
      * assert (last_page x + 1 <= p < b) by (apply IH; eauto). lia.
    + intros Hp. destruct (decide (p <= last_page x)) as [Hle|Hgt].
      * exists x. split; [apply elem_of_cons; by left|]. unfold in_range. lia.
      * destruct IH as [_ (r & Hr & Hin)]; [lia|].
        exists r. split; [apply elem_of_cons; by right|done].
Qed.

Lemma tiles_segmentation a l b : tiles a l b -> segmentation_of l a b.
Proof.
  intros H. split; [by eapply tiles_ordered|].
  split; [by eapply tiles_gap_free|by apply tiles_covers].
Qed.

(** A page lies in the range of at most one record. *)
Lemma page_ordered_unique l p (i j : nat) ri rj :
  page_ordered l -> l !! i = Some ri -> l !! j = Some rj ->
  in_range p ri -> in_range p rj -> i = j.
Proof.
  intros Hord Hi Hj Hpi Hpj. unfold in_range in *.
  destruct (Nat.lt_trichotomy i j) as [Hlt|[->|Hgt]]; [|done|].
  - pose proof (Hord _ _ _ _ Hlt Hi Hj). lia.
  - pose proof (Hord _ _ _ _ Hgt Hj Hi). lia.
Qed.

(** ** The scan as an iteration of the loop body *)

Lemma scan_pages_state verbose n pages st :
  fst (scan_pages verbose n pages st) = scan_steps n (scanned pages) st.
Proof.
  revert n st. induction pages as [|t rest IH]; intros n st; cbn; [done|].
  destruct (is_termination t); cbn; [done|].
  rewrite <- IH. by destruct (scan_pages _ _ _ _).
Qed.

Lemma scan_steps_snoc n l t st :
  scan_steps n (l ++ [t]) st
  = scan_page (n + Z.of_nat (length l)) t (scan_steps n l st).
Proof.
  revert n st. induction l as [|x l IH]; intros n st; cbn [scan_steps app length].
  - by rewrite Z.add_0_r.
  - rewrite IH. f_equal. lia.
Qed.

Lemma scan_targets_snoc n l t st :
  scan_targets n (l ++ [t]) st
  = scan_targets n l st ++ [target_of (scan_steps n l st) (parse_tfl_page t)].
Proof.
  revert n st. induction l as [|x l IH]; intros n st; cbn; [done|].
  by rewrite IH.
Qed.

Lemma first_heading_snoc l t :
  first_heading (l ++ [t]) =
  match first_heading l with
  | Some j => Some j
  | None => if has_heading t then Some (length l) else None
  end.
Proof.
  induction l as [|x l IH]; cbn.
  - by destruct (has_heading t).
  - destruct (has_heading x); [done|]. rewrite IH.
    destruct (first_heading l); [done|]. by destruct (has_heading t).
Qed.

Lemma first_heading_lt l j : first_heading l = Some j -> (j < length l)%nat.
Proof.
  revert j. induction l as [|x l IH]; intros j; cbn; [done|].
  destruct (has_heading x); [intros [= <-]; lia|].
  destruct (first_heading l) as [j'|]; [|done]. cbn. intros [= <-].
  specialize (IH _ eq_refl). lia.
Qed.

(** ** One run of the loop body *)

Lemma open_last_snoc st i :
  open_last st -> current_tfl st = Some i ->
  exists l r, tlfs st = l ++ [r] /\ i = length l.
Proof.
  unfold open_last. intros H Hc. rewrite Hc in H.
  destruct (tlfs st) as [|x l0] eqn:E using rev_ind; [done|].
  exists l0, x. split; [done|]. rewrite length_app in H. cbn in H. lia.
Qed.

Lemma alter_last {A} (f : A -> A) (l : list A) x :
  alter f (length l) (l ++ [x]) = l ++ [f x].
Proof.
  replace (length l) with (length l + 0)%nat by lia.
  by rewrite alter_app_r.
Qed.

Lemma scan_page_shape n t st :
  open_last st ->
  step_shape n t st (scan_page n t st) (target_of st (parse_tfl_page t)).
Proof.
  intros Hopen. unfold scan_page, target_of.
  pose proof (has_heading_Some t) as Hh. unfold has_heading in Hh |- *.
  unfold branch_of.
  destruct (id_falsy (p_id (parse_tfl_page t))) eqn:Ef.
  - destruct (current_tfl st) as [i|] eqn:Ec.
    + destruct (open_last_snoc _ _ Hopen Ec) as (l & r & Hl & ->).
      eapply (shape_extend _ _ _ _ l r); cbn;
        [done|done|by rewrite Hl, alter_last|done|done].
    + unfold open_last in Hopen. rewrite Ec in Hopen. rewrite Hopen. cbn.
      apply shape_drop; cbn; try done.
      * unfold has_heading. by rewrite Ef.
      * unfold branch_of. by rewrite Ef, Ec, Hopen.
  - set (new_id := default "" (p_id (parse_tfl_page t))).
    assert (has_heading t = true) as Hhead by (unfold has_heading; by rewrite Ef).
    destruct (current_tfl st) as [i|] eqn:Ec.
    + destruct (String.eqb _ new_id).
      * destruct (open_last_snoc _ _ Hopen Ec) as (l & r & Hl & ->).
        eapply (shape_extend _ _ _ _ l r); cbn;
          [done|done|by rewrite Hl, alter_last|done|done].
      * by eapply shape_open.
    + by eapply shape_open.
Qed.

Lemma step_shape_open_last n t st st' tg :
  step_shape n t st st' tg -> open_last st'.
Proof.
  intros [? ? ? Ht Hc ?|l r ? ? Ht Hc ?|id ? Ht Hc ?]; unfold open_last; rewrite Hc.
  - done.
  - rewrite Ht, !length_app. cbn. lia.
  - rewrite Ht, !length_app. cbn. lia.
Qed.

(** ** The invariant of the scan *)

Lemma filter_target_absent (T : list (option nat)) (k : nat) :
  (forall j, T !! j = Some (Some k) -> False) ->
  filter (fun t => t = Some k) T = [].
Proof.
  intros H. induction T as [|x T IH]; [done|].
  rewrite filter_cons. case_decide as Hx.
  - exfalso. apply (H O). by rewrite Hx.
  - apply IH. intros j Hj. by apply (H (S j)).
Qed.

Lemma filter_one_eq (x : option nat) : filter (fun t => t = x) [x] = [x].
Proof. rewrite filter_cons. by case_decide. Qed.

Lemma filter_one_ne (x y : option nat) :
  x <> y -> filter (fun t => t = y) [x] = [].
Proof. intros H. rewrite filter_cons. by case_decide. Qed.

Lemma filter_none_none :
  filter (fun t : option nat => t = None) [None] = [None].
Proof. reflexivity. Qed.

Lemma filter_none_some (i : nat) :
  filter (fun t : option nat => t = None) [Some i] = [].
Proof. reflexivity. Qed.

Lemma scan_inv_init : scan_inv [] scan_init [].
Proof.
  split; cbn; try done.
  intros r Hr. by apply elem_of_nil in Hr.
Qed.

Lemma scan_inv_step done st T t st' tg :
  scan_inv done st T ->
  step_shape (42 + Z.of_nat (length done)) t st st' tg ->
  scan_inv (done ++ [t]) st' (T ++ [tg]).
Proof.
  intros [Hopen Hlen Htiles Hcount Htarget Hdrop Hfile Hwarn] Hshape.
  pose proof (step_shape_open_last _ _ _ _ _ Hshape) as Hopen'.
  destruct Hshape as [Hh Hbr Hnil Hnil' Hc' Hw'|l r Hl Hc Hl' Hc' Hw'|new_id Hh Hl' Hc' Hw'].
  - (* the page is dropped *)
    destruct (first_heading done) as [j0|] eqn:Efh; [by destruct Htiles|].
    split.
    + done.
    + rewrite !length_app. cbn. lia.
    + by rewrite first_heading_snoc, Efh, Hh.
    + intros i r. by rewrite Hnil', lookup_nil.
    + intros j i [[_ Hj]|[_ [=]]]%lookup_snoc_Some.
      destruct (Htarget _ _ Hj) as (r & Hr & _). by rewrite Hnil, lookup_nil in Hr.
    + by rewrite first_heading_snoc, Efh, Hh.
    + intros r. rewrite Hnil'. by intros ?%elem_of_nil.
    + rewrite Hw', Hwarn, filter_app, length_app.
      rewrite filter_none_none. cbn. lia.
  - (* the open record is extended *)
    destruct (first_heading done) as [j0|] eqn:Efh;
      [|by rewrite Htiles in Hl; destruct l].
    destruct Htiles as [Htiles _]. rewrite Hl in Htiles.
    apply tiles_snoc in Htiles as (Ht & Hr1 & Hr2 & Hr3).
    split.
    + done.
    + rewrite !length_app. cbn. lia.
    + rewrite first_heading_snoc, Efh, Hl'. rewrite length_app. split; [|by destruct l].
      apply tiles_snoc. cbn. unfold first_page, last_page in *. cbn.
      repeat split; [done|lia..].
    + intros i r'. rewrite Hl', filter_app, length_app.
      intros [[Hi Hr']|[-> <-]]%lookup_snoc_Some.
      * rewrite filter_one_ne by (intros ?; simplify_eq; lia).
        cbn. rewrite Nat.add_0_r. apply Hcount. rewrite Hl.
        by apply lookup_app_l_Some.
      * rewrite filter_one_eq. cbn.
        rewrite (Hcount (length l) r) by (by rewrite Hl, list_lookup_middle).
        lia.
    + intros j i. rewrite Hl'.
      intros [[Hj HT]|[Hj [= <-]]]%lookup_snoc_Some.
      * destruct (Htarget _ _ HT) as (r0 & Hr0 & Hin). rewrite Hl in Hr0.
        apply lookup_snoc_Some in Hr0 as [[Hi Hr0]|[-> <-]].
        -- exists r0. split; [by apply lookup_app_l_Some|done].
        -- exists (extend (42 + Z.of_nat (length done)) r).
           split; [by rewrite list_lookup_middle|].
           unfold in_range, first_page, last_page in *. cbn. lia.
      * exists (extend (42 + Z.of_nat (length done)) r).
        split; [by rewrite list_lookup_middle|].
        unfold in_range, first_page, last_page in *. cbn. lia.
    + intros j [[_ Hj]|[_ [=]]]%lookup_snoc_Some.
      rewrite first_heading_snoc, Efh. by apply Hdrop.
    + intros r'. rewrite Hl'. intros [Hin| ->%list_elem_of_singleton]%elem_of_app.
      * apply Hfile. rewrite Hl. apply elem_of_app. by left.
      * cbn. apply Hfile. rewrite Hl. apply elem_of_app. right.
        by apply list_elem_of_singleton.
    + rewrite Hw', Hwarn, filter_app, length_app.
      rewrite filter_none_some. cbn. lia.
  - (* a new record is opened *)
    assert (filter (fun t0 => t0 = Some (length (tlfs st))) T = []) as Hfresh.
    { apply filter_target_absent. intros j Hj.
      destruct (Htarget _ _ Hj) as (r & Hr%lookup_lt_Some & _). lia. }
    split.
    + done.
    + rewrite !length_app. cbn. lia.
    + rewrite first_heading_snoc, Hl'.
      destruct (first_heading done) as [j0|] eqn:Efh.
      * destruct Htiles as [Htiles _]. split; [|by destruct (tlfs st)].
        apply tiles_snoc. rewrite length_app. cbn.
        unfold first_page, last_page. cbn.
        replace (42 + Z.of_nat (length done) + 1)
          with (43 + Z.of_nat (length done)) by lia.
        repeat split; [done|lia..].
      * rewrite Hh, Htiles. rewrite length_app. cbn.
        unfold first_page, last_page. cbn. repeat split; try lia. done.
    + intros i r'. rewrite Hl', filter_app, length_app.
      intros [[Hi Hr']|[-> <-]]%lookup_snoc_Some.
      * rewrite filter_one_ne by (intros ?; simplify_eq; lia).
        cbn. rewrite Nat.add_0_r. by apply Hcount.
      * rewrite filter_one_eq. by rewrite Hfresh.
    + intros j i. rewrite Hl'.
      intros [[Hj HT]|[Hj [= <-]]]%lookup_snoc_Some.
      * destruct (Htarget _ _ HT) as (r0 & Hr0 & Hin).
        exists r0. split; [by apply lookup_app_l_Some|done].
      * eexists. split; [by rewrite list_lookup_middle|].
        unfold in_range, first_page, last_page. cbn. lia.
    + intros j [[Hj HT]|[_ [=]]]%lookup_snoc_Some.
      rewrite first_heading_snoc. specialize (Hdrop _ HT).
      destruct (first_heading done); [done|]. rewrite Hh. lia.
    + intros r'. rewrite Hl'. intros [Hin| ->%list_elem_of_singleton]%elem_of_app.
      * by apply Hfile.
      * done.
    + rewrite Hw', Hwarn, filter_app, length_app.
      rewrite filter_none_some. cbn. lia.
Qed.

(** The invariant holds after any number of pages. *)
Lemma scan_inv_steps done :
  scan_inv done (scan_steps 42 done scan_init) (scan_targets 42 done scan_init).
Proof.
  induction done as [|t done IH] using rev_ind; [apply scan_inv_init|].
  rewrite scan_steps_snoc, scan_targets_snoc.
  eapply scan_inv_step; [exact IH|]. apply scan_page_shape. apply IH.
Qed.

(** ** The states the scan goes through *)

(** [scanned] cuts the pages at the first termination page. *)
Lemma scanned_spec pages :
  exists rest,
    pages = scanned pages ++ rest
    /\ Forall (fun t => is_termination t = false) (scanned pages)
    /\ (rest = [] \/ exists t rest', rest = t :: rest' /\ is_termination t = true).
Proof.
  induction pages as [|t pages (rest & Heq & Hall & Hrest)]; cbn.
  - exists []. by auto.
  - destruct (is_termination t) eqn:E.
    + exists (t :: pages). split; [done|]. split; [done|]. right. eauto.
    + exists rest. split; [cbn; by f_equal|]. split; [by constructor|done].
Qed.

Lemma segment_state verbose doc :
  fst (segment verbose doc) = state_after doc (length (tlf_pages doc)).
Proof.
  unfold segment, state_after, tlf_pages.
  by rewrite scan_pages_state, take_ge.
Qed.

Lemma state_after_inv doc k :
  scan_inv (take k (tlf_pages doc)) (state_after doc k) (targets_after doc k).
Proof. apply scan_inv_steps. Qed.


Lemma scan_targets_lookup n l st (k : nat) :
  scan_targets n l st !! k
  = (fun t => target_of (scan_steps n (take k l) st) (parse_tfl_page t))
      <$> l !! k.
Proof.
  revert n st k. induction l as [|x l IH]; intros n st k; [done|].
  destruct k as [|k]; cbn; [done|]. by rewrite IH.
Qed.

Lemma first_heading_take l (k : nat) :
  first_heading (take k l) =
  match first_heading l with
  | Some j => if decide (j < k)%nat then Some j else None
  | None => None
  end.
Proof.
  revert k. induction l as [|x l IH]; intros [|k]; cbn; try done.
  - destruct (has_heading x); cbn; [done|].
    destruct (first_heading l); cbn; [|done]. case_decide; done || lia.
  - destruct (has_heading x); cbn; [case_decide; done || lia|]. rewrite IH.
    destruct (first_heading l) as [j|]; [|done]. cbn.
    repeat case_decide; done || lia.
Qed.

(** Some record exists exactly from the first heading page on. *)
Lemma state_after_tlfs_nil doc k :
  tlfs (state_after doc k) = [] <-> first_heading (take k (tlf_pages doc)) = None.
Proof.
  pose proof (inv_tiles _ _ _ (state_after_inv doc k)) as H.
  destruct (first_heading _); [|done]. by destruct H.
Qed.

(** Consecutive records of a scan are contiguous. *)
Lemma segment_gap_free verbose doc :
  gap_free (tlfs (fst (segment verbose doc))).
Proof.
  rewrite segment_state.
  pose proof (inv_tiles _ _ _ (state_after_inv doc (length (tlf_pages doc)))) as H.
  destruct (first_heading _) as [j|].
  - destruct H as [H _]. by eapply tiles_gap_free.
  - rewrite H. by intros ? ? ?.
Qed.

(** ** C1: the page ranges of the records *)

(** C1, as amended. For every document, the scan processes the pages from
    page 43 up to the page before the first termination page, or up to the
    last page when there is none ([tlf_pages]). The records it produces are
    in page order with pairwise non-overlapping, gap-free page ranges, and
    they cover exactly the pages from the first processed page on which the
    classifier finds a TLF identity (page [43 + j], where the [j] pages
    without one that come first are covered by no record) to the last
    processed page; when no processed page carries a TLF identity there is
    no record. *)
Theorem C1_ranges_tile_from_first_heading verbose doc :
  (exists rest,
     drop 42 doc = tlf_pages doc ++ rest
     /\ Forall (fun t => is_termination t = false) (tlf_pages doc)
     /\ (rest = [] \/ exists t rest', rest = t :: rest' /\ is_termination t = true))
  /\ match first_heading (tlf_pages doc) with
     | Some j =>
         segmentation_of (tlfs (fst (segment verbose doc)))
           (43 + Z.of_nat j) (43 + Z.of_nat (length (tlf_pages doc)))
     | None => tlfs (fst (segment verbose doc)) = []
     end.
Proof.
  split; [apply scanned_spec|].
  rewrite segment_state.
  pose proof (inv_tiles _ _ _ (state_after_inv doc (length (tlf_pages doc)))) as H.
  rewrite take_ge in H by done.
  destruct (first_heading (tlf_pages doc)) as [j|]; [|done].
  destruct H as [H _]. by apply tiles_segmentation.
Qed.

(** C1 as stated fails: in [doc_late_heading] page 43 has no heading, the
    only record is that of page 44, and page 43 is covered by no record. *)
Lemma C1_counterexample :
  ~ segmentation_of (tlfs (fst (segment false doc_late_heading)))
      43 (43 + Z.of_nat (length (tlf_pages doc_late_heading))).
Proof.
  intros (_ & _ & Hcov). destruct (Hcov 43) as [_ H].
  destruct H as (r & Hr & Hin).
  { assert (length (tlf_pages doc_late_heading) = 2%nat) as ->
      by (vm_compute; reflexivity). lia. }
  vm_compute in Hr. apply list_elem_of_singleton in Hr as ->.
  unfold in_range in Hin. vm_compute in Hin. by destruct Hin as [Hin _].
Qed.

(** ** C3: the page count of a record *)

(** C3. After any number [k] of pages went through the loop body, and so
    also when the scan is over, every record [r] of [tlfs] has
    [page_count r = last_page r - first_page r + 1], and this is the number
    of pages folded into it so far. *)
Theorem C3_page_count verbose doc (k i : nat) r :
  tlfs (state_after doc k) !! i = Some r ->
  fst (segment verbose doc) = state_after doc (length (tlf_pages doc))
  /\ page_count r = last_page r - first_page r + 1
  /\ page_count r = Z.of_nat (folded_into doc k i).
Proof.
  intros Hr. split; [apply segment_state|].
  destruct (state_after_inv doc k) as [_ _ Htiles Hcount _ _ _ _].
  split; [|by apply Hcount].
  destruct (first_heading _) as [j|].
  - destruct Htiles as [Htiles _].
    by destruct (tiles_lookup _ _ _ _ _ Htiles Hr) as (_ & _ & _ & ?).
  - by rewrite Htiles, lookup_nil in Hr.
Qed.

(** The table of [doc_sample] after three pages: pages 43-44, two pages
    folded into it. *)
Lemma C3_page_count_witness :
  let r := mkTlf "Table 14.1.1" (Some "table") "Demographics"
                 "pdf/Table_14.1.1.pdf" (43, 44) 2 "Safety" (Some "prog1.sas") in
  fst (segment true doc_sample) = state_after doc_sample (length (tlf_pages doc_sample))
  /\ page_count r = last_page r - first_page r + 1
  /\ page_count r = Z.of_nat (folded_into doc_sample 3 0).
Proof.
  intros r. apply (C3_page_count true doc_sample 3 0 r). vm_compute. reflexivity.
Defined.

(** ** C10: a record stays open *)

Lemma open_last_current st :
  open_last st -> tlfs st <> [] -> is_Some (current_record st).
Proof.
  unfold open_last, current_record. intros Hopen Hne.
  destruct (current_tfl st) as [i|]; [|done]. cbn.
  apply lookup_lt_is_Some. lia.
Qed.

Lemma state_after_tlfs_mono doc (k k' : nat) :
  (k <= k')%nat -> tlfs (state_after doc k) <> [] ->
  tlfs (state_after doc k') <> [].
Proof.
  rewrite !state_after_tlfs_nil, !first_heading_take. intros Hk.
  destruct (first_heading (tlf_pages doc)) as [j|]; [|done].
  repeat case_decide; done || lia.
Qed.

(** The warning of line 265 is logged on the arm [BrWarn] only. *)
Lemma scan_page_log_warning verbose n t st msg :
  Log WARNING msg ∈ scan_page_log verbose n t st ->
  branch_of st (parse_tfl_page t) = BrWarn.
Proof.
  unfold scan_page_log.
  destruct (branch_of _ _) as [i| | |i|new_id];
    [by intros ?%elem_of_nil|done|by intros ?%elem_of_nil..|].
  destruct (current_record st); [|by intros ?%elem_of_nil].
  unfold log_info. destruct verbose; [|by intros ?%elem_of_nil].
  by intros [=]%list_elem_of_singleton.
Qed.

Lemma branch_warn_nil st parsed :
  branch_of st parsed = BrWarn -> tlfs st = [] /\ current_tfl st = None.
Proof.
  unfold branch_of. destruct (id_falsy _).
  - destruct (current_tfl st); [done|].
    destruct (length (tlfs st) =? 0)%nat eqn:E; [|done].
    apply Nat.eqb_eq in E. by destruct (tlfs st).
  - destruct (current_tfl st); [|done]. by destruct (String.eqb _ _).
Qed.

(** C10. Throughout the scan of a document: (1) from the moment [tlfs] is
    not empty, [current_tfl] refers to a record after every later page;
    (2) a page is dropped, or the warning "No clear TFL ID found" is logged
    for it, only while [tlfs] is still empty; (3) every page the scan
    processes from the first page of the first record on is folded into a
    record, and that record is the only one whose page range contains the
    page. The pages the scan processes are those before the termination
    page. *)
Theorem C10_record_stays_open verbose doc :
  (forall k k' : nat,
     (k <= k')%nat -> tlfs (state_after doc k) <> [] ->
     is_Some (current_record (state_after doc k')))
  /\ (forall (k : nat) t,
        tlf_pages doc !! k = Some t ->
        target_of (state_after doc k) (parse_tfl_page t) = None
        \/ (exists msg, Log WARNING msg
              ∈ scan_page_log verbose (42 + Z.of_nat k) t (state_after doc k)) ->
        tlfs (state_after doc k) = [] /\ current_tfl (state_after doc k) = None)
  /\ (forall (k : nat) t r0,
        tlf_pages doc !! k = Some t ->
        tlfs (fst (segment verbose doc)) !! 0%nat = Some r0 ->
        first_page r0 <= 43 + Z.of_nat k ->
        exists i : nat,
          target_of (state_after doc k) (parse_tfl_page t) = Some i
          /\ forall (i' : nat) r',
               tlfs (fst (segment verbose doc)) !! i' = Some r' ->
               (in_range (43 + Z.of_nat k) r' <-> i' = i)).
Proof.
  split; [|split].
  - intros k k' Hk Hne. apply open_last_current.
    + apply (inv_open _ _ _ (state_after_inv doc k')).
    + by eapply state_after_tlfs_mono.
  - intros k t Hk [Hdrop|[msg Hwarn]].
    + pose proof (scan_page_shape (42 + Z.of_nat k) t _
                    (inv_open _ _ _ (state_after_inv doc k))) as Hshape.
      rewrite Hdrop in Hshape. inversion Hshape as [? Hbr| |].
      by apply branch_warn_nil in Hbr.
    + by apply scan_page_log_warning, branch_warn_nil in Hwarn.
  - intros k t r0 Hk Hr0 Hfirst. rewrite segment_state in Hr0 |- *.
    destruct (state_after_inv doc (length (tlf_pages doc)))
      as [_ _ Htiles _ Htarget Hdrop _ _].
    rewrite firstn_all in Htiles, Hdrop.
    assert (targets_after doc (length (tlf_pages doc)) !! k
            = Some (target_of (state_after doc k) (parse_tfl_page t))) as HT.
    { unfold targets_after, state_after. rewrite scan_targets_lookup.
      rewrite !firstn_all. by rewrite Hk. }
    destruct (first_heading (tlf_pages doc)) as [j0|];
      [|by rewrite Htiles, lookup_nil in Hr0].
    destruct Htiles as [Htiles _].
    assert (first_page r0 = 43 + Z.of_nat j0) as Hj0.
    { destruct (tlfs (state_after doc _)) as [|x l]; [done|].
      cbn in Hr0. injection Hr0 as ->. by destruct Htiles. }
    destruct (target_of (state_after doc k) (parse_tfl_page t)) as [i|] eqn:Etg.
    + exists i. split; [done|]. intros i' r' Hr'.
      destruct (Htarget _ _ HT) as (r & Hr & Hin). split.
      * intros Hin'. eapply page_ordered_unique; eauto using tiles_ordered.
      * intros ->. by simplify_eq.
    + specialize (Hdrop _ HT). lia.
Qed.

(** In [doc_sample] a record is open after three pages and page 44 is
    folded into the table; in [doc_late_heading] page 43 is dropped while
    [tlfs] is empty. *)
Lemma C10_record_stays_open_witness :
  is_Some (current_record (state_after doc_sample 3))
  /\ (tlfs (state_after doc_late_heading 0) = []
      /\ current_tfl (state_after doc_late_heading 0) = None)
  /\ exists i : nat,
       target_of (state_after doc_sample 1) (parse_tfl_page "Sex    F 12   M 14")
       = Some i
       /\ forall (i' : nat) r',
            tlfs (fst (segment true doc_sample)) !! i' = Some r' ->
            (in_range (43 + Z.of_nat 1) r' <-> i' = i).
Proof.
  split; [|split].
  - apply (proj1 (C10_record_stays_open true doc_sample) 1%nat 3%nat); [lia|].
    vm_compute. discriminate.
  - apply (proj1 (proj2 (C10_record_stays_open true doc_late_heading))
             0%nat "Synopsis of the tables"); [reflexivity|].
    left. vm_compute. reflexivity.
  - eapply (proj2 (proj2 (C10_record_stays_open true doc_sample)) 1%nat);
      [reflexivity|vm_compute; reflexivity|vm_compute; discriminate].
Defined.

(** ** C7: the source program *)

(** The source line is the last one of the page that starts with
    [source:], provided fewer than 15 lines follow it. *)
Lemma source_program_at pre line post :
  (length post < 15)%nat -> is_source_line line = true ->
  Forall (fun l => is_source_line l = false) post ->
  source_program_of (pre ++ line :: post)
  = first_token PyStr.is_space (PyStr.strip (PyStr.sdrop 7 line)).
Proof.
  intros Hlen Hline Hpost. rewrite source_program_of_spec.
  unfold spec_source_program_trimmed.
  destruct (last_n_split 15 pre line post Hlen) as [pre' ->].
  by rewrite last_match_split.
Qed.

(** C7, as amended. For every page text, [sourceProgram] is found by
    scanning the last 15 non-empty lines from the bottom up for the first
    line whose lowercase form starts with [source:]; the text after
    [source:] is trimmed of surrounding whitespace and [sourceProgram] is
    what precedes its first run of two or more whitespace characters; it is
    empty, hence absent from the record, when no such line exists among
    those 15 lines. *)
Theorem C7_source_program_trimmed text :
  p_source_program (parse_tfl_page text)
  = spec_source_program_trimmed (page_lines text).
Proof. apply source_program_of_spec. Qed.

(** C7 as stated fails. Without the trimming, what follows [source:] in
    [Source: prog1.sas] is the token [ prog1.sas], with its leading space;
    the code yields [prog1.sas]. And two tabs are no run of spaces, but the
    code splits on them. *)
Lemma C7_counterexample :
  p_source_program (parse_tfl_page "Source: prog1.sas")
  <> spec_source_program (page_lines "Source: prog1.sas")
  /\ p_source_program (parse_tfl_page source_line_tabs)
     <> spec_source_program (page_lines source_line_tabs).
Proof. split; vm_compute; discriminate. Qed.

(** ** C6: the classifier on the page of scenario 1 *)

Lemma find_heading_first line rest :
  is_heading line = true -> find_heading (line :: rest) = Some (O, line).
Proof.
  intros H. unfold find_heading. cbn [take].
  by rewrite list_find_bool_cons, H.
Qed.

Lemma population_of_third l0 l1 l2 rest :
  is_population_line l0 = false -> is_population_line l1 = false ->
  is_population_line l2 = true ->
  population_of (l0 :: l1 :: l2 :: rest)
  = PyStr.strip (default "" (PyStr.split1 ":" l2 !! 1%nat)).
Proof.
  intros H0 H1 H2. unfold population_of. cbn [take].
  by rewrite !list_find_bool_cons, H0, H1, H2.
Qed.

Lemma segment_single verbose narr text :
  length narr = 42%nat -> is_termination text = false ->
  fst (segment verbose (narr ++ [text])) = scan_page 42 text scan_init.
Proof.
  intros Hlen Hterm. unfold segment.
  rewrite drop_app_length' by done. cbn. by rewrite Hterm.
Qed.

(** C6. Whenever the non-empty lines of a page start with
    [Table 14.1.1], [Demographics], [Population: Safety] and the line
    [Source:   prog1.sas   02JUN2023] is the last source line of the page,
    among its last 15 lines, the classifier yields id [Table 14.1.1], type
    table, title [Demographics], population [Safety] and source program
    [prog1.sas]; the loop body run on it as page 43 opens the record with
    pages 43-43 and page count 1, and this is the result of the scan of a
    43-page document that ends with this page. *)
Theorem C6_scenario_demographics text mid tail :
  page_lines text
  = "Table 14.1.1" :: "Demographics" :: "Population: Safety"
      :: mid ++ "Source:   prog1.sas   02JUN2023" :: tail ->
  (length tail < 15)%nat ->
  Forall (fun l => is_source_line l = false) tail ->
  let record :=
    mkTlf "Table 14.1.1" (Some "table") "Demographics" "pdf/Table_14.1.1.pdf"
          (43, 43) 1 "Safety" (Some "prog1.sas") in
  parse_tfl_page text
  = mkParsed (Some "Table 14.1.1") (Some "table") "Demographics" "Safety"
             "prog1.sas"
  /\ scan_page 42 text scan_init = mkScan [record] (Some O) 0 1 1 0
  /\ (is_termination text = false ->
      forall verbose narr, length narr = 42%nat ->
        fst (segment verbose (narr ++ [text]))
        = mkScan [record] (Some O) 0 1 1 0).
Proof.
  intros Hlines Hlen Htail record.
  assert (parse_tfl_page text
          = mkParsed (Some "Table 14.1.1") (Some "table") "Demographics"
                     "Safety" "prog1.sas") as Hparse.
  { unfold parse_tfl_page, parse_lines. rewrite Hlines.
    rewrite find_heading_first by (vm_compute; reflexivity).
    rewrite population_of_third by (vm_compute; reflexivity).
    pose proof (source_program_at
                  ("Table 14.1.1" :: "Demographics" :: "Population: Safety"
                     :: mid)
                  "Source:   prog1.sas   02JUN2023" tail Hlen
                  ltac:(vm_compute; reflexivity) Htail) as Hsrc.
    cbn [app] in Hsrc. rewrite Hsrc.
    vm_compute. reflexivity. }
  assert (scan_page 42 text scan_init = mkScan [record] (Some O) 0 1 1 0) as Hstep.
  { unfold scan_page. rewrite Hparse. vm_compute. reflexivity. }
  split; [done|]. split; [done|].
  intros Hterm verbose narr Hnarr. by rewrite segment_single.
Qed.

(** The page [page_demographics]. *)
Lemma C6_scenario_demographics_witness :
  let record :=
    mkTlf "Table 14.1.1" (Some "table") "Demographics" "pdf/Table_14.1.1.pdf"
          (43, 43) 1 "Safety" (Some "prog1.sas") in
  parse_tfl_page page_demographics
  = mkParsed (Some "Table 14.1.1") (Some "table") "Demographics" "Safety"
             "prog1.sas"
  /\ scan_page 42 page_demographics scan_init = mkScan [record] (Some O) 0 1 1 0
  /\ (is_termination page_demographics = false ->
      forall verbose narr, length narr = 42%nat ->
        fst (segment verbose (narr ++ [page_demographics]))
        = mkScan [record] (Some O) 0 1 1 0).
Proof.
  apply (C6_scenario_demographics page_demographics ["Age (years)    42.1"] []).
  - vm_compute. reflexivity.
  - simpl. lia.
  - constructor.
Defined.

(** ** C8: the output file of a record *)

Lemma has_char_app c (a b : string) :
  has_char c (a +:+ b) = has_char c a || has_char c b.
Proof.
  induction a as [|x a IH]; [done|].
  rewrite app_String. cbn. by rewrite IH, orb_assoc.
Qed.

Lemma safe_id_underscore id : safe_id id = underscore_sanitize id.
Proof.
  unfold safe_id. induction id as [|c s IH]; [done|].
  cbn [PyStr.replace1 underscore_sanitize].
  destruct (Ascii.eqb c " ") eqn:Esp.
  - rewrite app_String, app_empty_l. cbn. by rewrite IH.
  - cbn. destruct (Ascii.eqb c "010"); [by rewrite app_empty_l|by rewrite IH].
Qed.

Lemma underscore_sanitize_clean s :
  has_char " " (underscore_sanitize s) = false
  /\ has_char "010" (underscore_sanitize s) = false.
Proof.
  induction s as [|c s [IH1 IH2]]; [done|]. cbn.
  destruct (Ascii.eqb c " ") eqn:Esp; [cbn; by rewrite IH1, IH2|].
  destruct (Ascii.eqb c "010") eqn:Enl; [done|].
  cbn. by rewrite Esp, Enl, IH1, IH2.
Qed.

(** C8, as amended. The output file of every record is
    [pdf/<sanitized-id>.pdf], where the sanitized id (the [safe_id] of
    lines 277 and 315) is the id with each space replaced by an underscore
    and each newline removed; the file name holds no space and no newline
    and is a function of the id only. *)
Theorem C8_output_file_underscore verbose doc r :
  r ∈ tlfs (fst (segment verbose doc)) ->
  safe_id (tfl_id r) = underscore_sanitize (tfl_id r)
  /\ tfl_file r = "pdf/" +:+ underscore_sanitize (tfl_id r) +:+ ".pdf"
  /\ has_char " " (tfl_file r) = false
  /\ has_char "010" (tfl_file r) = false.
Proof.
  rewrite segment_state. intros Hr. split; [apply safe_id_underscore|].
  pose proof (inv_file _ _ _ (state_after_inv doc _) r Hr) as Hfile.
  unfold out_file_name in Hfile. rewrite safe_id_underscore in Hfile.
  destruct (underscore_sanitize_clean (tfl_id r)) as [H1 H2].
  rewrite Hfile, !has_char_app, H1, H2. done.
Qed.

(** The figure of [doc_sample]. *)
Lemma C8_output_file_underscore_witness :
  let r := mkTlf "Figure 14.2-1" (Some "figure") "Kaplan-Meier plot"
                 "pdf/Figure_14.2-1.pdf" (45, 45) 1 "" None in
  safe_id (tfl_id r) = underscore_sanitize (tfl_id r)
  /\ tfl_file r = "pdf/" +:+ underscore_sanitize (tfl_id r) +:+ ".pdf"
  /\ has_char " " (tfl_file r) = false
  /\ has_char "010" (tfl_file r) = false.
Proof.
  intros r. apply (C8_output_file_underscore false doc_sample r).
  vm_compute. apply elem_of_cons. right. apply elem_of_cons. by left.
Defined.

(** C8 as stated fails: the file of the record [Table 14.1.1] is
    [pdf/Table_14.1.1.pdf], the id with its space removed would give
    [pdf/Table14.1.1.pdf]. *)
Lemma C8_counterexample :
  ~ (forall r, r ∈ tlfs (fst (segment false doc_sample)) ->
       tfl_file r = "pdf/" +:+ spec_sanitize (tfl_id r) +:+ ".pdf").
Proof.
  intros H.
  specialize (H (mkTlf "Table 14.1.1" (Some "table") "Demographics"
                       "pdf/Table_14.1.1.pdf" (43, 44) 2 "Safety"
                       (Some "prog1.sas"))).
  assert (H' := H ltac:(vm_compute; apply elem_of_cons; by left)).
  vm_compute in H'. discriminate.
Qed.

(** ** C2: the page-range checks of the validator *)

Lemma adjacent_pair_breach R l :
  adjacent_pair R l <-> breach_from R None l.
Proof.
  assert (forall e l,
    breach_from R e l <->
    (exists x t, e = Some x /\ l !! 0%nat = Some t /\ R (j_first t) x)
    \/ adjacent_pair R l) as Hgen.
  { clear l. intros e l. revert e.
    induction l as [|t rest IH]; intros e; cbn.
    - split; [done|]. intros [(x & t & _ & [=] & _)|(i & a & b & [=] & _)].
    - rewrite IH. split.
      + intros [(x & -> & HR)|[(x & b & [= <-] & Hb & HR)|(i & a & b & Ha & Hb & HR)]].
        * left. eauto.
        * right. exists O, t, b. eauto.
        * right. exists (S i), a, b. eauto.
      + intros [(x & t' & -> & [= <-] & HR)|(i & a & b & Ha & Hb & HR)].
        * left. eauto.
        * right. destruct i as [|i]; cbn in Ha, Hb.
          -- injection Ha as <-. left. eauto.
          -- right. exists i, a, b. eauto. }
  rewrite Hgen. split; [by right|].
  by intros [(x & t & [=] & _)|?].
Qed.

Section range_check.
Context (fs : string -> FileState) (output_dir : string).
Context (k : CheckKey) (R : Z -> Z -> Prop)
        (mk_msg : TlfJson -> Z -> Z -> string).

(** What the range check of one record does for the key [k]. *)
Hypothesis range_failed : forall e t rep,
  k ∈ failed (check_range e t rep)
  <-> k ∈ failed rep \/ exists x, e = Some x /\ R (j_first t) x.
Hypothesis range_msg : forall x t rep,
  R (j_first t) x ->
  cross_mark +:+ " " +:+ mk_msg t x (j_first t)
    ∈ msgs (check_range (Some x) t rep).
Hypothesis file_failed : forall t rep,
  k ∈ failed (check_file fs output_dir t rep) <-> k ∈ failed rep.

Lemma validate_tlfs_failed e l rep :
  k ∈ failed (validate_tlfs fs output_dir e l rep)
  <-> k ∈ failed rep \/ breach_from R e l.
Proof.
  revert e rep. induction l as [|t rest IH]; intros e rep; cbn.
  - tauto.
  - rewrite IH, file_failed, range_failed. unfold j_last. tauto.
Qed.

Lemma check_file_msgs t rep m :
  m ∈ msgs rep -> m ∈ msgs (check_file fs output_dir t rep).
Proof.
  intros Hm. unfold check_file.
  destruct (fs _); [..|case_match]; cbn; rewrite ?elem_of_app; auto.
Qed.

Lemma check_range_msgs e t rep m :
  m ∈ msgs rep -> m ∈ msgs (check_range e t rep).
Proof.
  intros Hm. unfold check_range. destruct e; [|done].
  repeat case_match; cbn; rewrite ?elem_of_app; auto.
Qed.

Lemma validate_tlfs_msgs e l rep m :
  m ∈ msgs rep -> m ∈ msgs (validate_tlfs fs output_dir e l rep).
Proof.
  revert e rep. induction l as [|t rest IH]; intros e rep Hm; cbn; [done|].
  by apply IH, check_file_msgs, check_range_msgs.
Qed.

Lemma validate_tlfs_msg e l rep (i : nat) a b :
  l !! i = Some a -> l !! S i = Some b -> R (j_first b) (j_last a + 1) ->
  cross_mark +:+ " " +:+ mk_msg b (j_last a + 1) (j_first b)
    ∈ msgs (validate_tlfs fs output_dir e l rep).
Proof.
  revert e rep i. induction l as [|t rest IH]; intros e rep i Ha Hb HR;
    [done|].
  destruct i as [|i]; cbn in Ha, Hb.
  - injection Ha as ->. destruct rest as [|b' rest]; [done|].
    cbn in Hb. injection Hb as ->. cbn.
    by apply validate_tlfs_msgs, check_file_msgs, range_msg.
  - cbn. by eapply IH.
Qed.
End range_check.

Lemma elem_of_snoc {A} (l : list A) (x y : A) :
  x ∈ l ++ [y] <-> x ∈ l \/ x = y.
Proof. by rewrite elem_of_app, list_elem_of_singleton. Qed.

Lemma check_file_failed_range fs output_dir k t rep :
  k = no_page_gaps \/ k = no_page_overlaps ->
  k ∈ failed (check_file fs output_dir t rep) <-> k ∈ failed rep.
Proof.
  intros [-> | ->]; unfold check_file;
    (destruct (fs _); [..|case_match]; cbn; rewrite ?elem_of_snoc;
     intuition congruence).
Qed.

(** Membership of a key in an explicit list of other keys. *)
Ltac absurd_key H :=
  repeat (apply elem_of_cons in H as [H|H]; [discriminate H|]);
  by apply elem_of_nil in H.

Lemma validate_narrative_failed_range fs output_dir k n :
  k = no_page_gaps \/ k = no_page_overlaps ->
  k ∉ failed (validate_narrative fs output_dir n (mkReport [] [])).
Proof.
  intros [-> | ->]; unfold validate_narrative;
    (destruct n as [n|]; [|by intros ?%elem_of_nil]);
    (destruct (fs _); [..|case_match]; cbn; intros Hin; absurd_key Hin).
Qed.

(** Closes the cases of [check_range] for one key: either the key was
    appended, or the comparison that would append it is false. *)
Ltac close_range_case :=
  cbn; rewrite ?elem_of_snoc;
  (split;
   [intros [?|?];
    [by left
    |first [discriminate | right; eexists; split; [reflexivity|lia]]]
   |intros [?|(? & [= <-] & ?)]; [by left|first [lia | by right]]]).

Lemma check_range_failed_gap e t rep :
  no_page_gaps ∈ failed (check_range e t rep)
  <-> no_page_gaps ∈ failed rep \/ exists x, e = Some x /\ j_first t > x.
Proof.
  unfold check_range. fold (j_first t). destruct e as [x|].
  - destruct (Z.gtb_spec (j_first t) x);
      [|destruct (Z.ltb_spec (j_first t) x)]; try close_range_case.
    split; [by left|]. intros [?|(? & [= <-] & ?)]; [done|lia].
  - split; [by left|]. by intros [?|(? & [=] & _)].
Qed.

Lemma check_range_failed_overlap e t rep :
  no_page_overlaps ∈ failed (check_range e t rep)
  <-> no_page_overlaps ∈ failed rep \/ exists x, e = Some x /\ j_first t < x.
Proof.
  unfold check_range. fold (j_first t). destruct e as [x|].
  - destruct (Z.gtb_spec (j_first t) x);
      [|destruct (Z.ltb_spec (j_first t) x)]; try close_range_case.
    split; [by left|]. intros [?|(? & [= <-] & ?)]; [done|lia].
  - split; [by left|]. by intros [?|(? & [=] & _)].
Qed.

Lemma check_range_msg_gap x t rep :
  j_first t > x ->
  cross_mark +:+ " " +:+ gap_msg t x (j_first t)
    ∈ msgs (check_range (Some x) t rep).
Proof.
  intros H. unfold check_range. fold (j_first t).
  destruct (Z.gtb_spec (j_first t) x); [|lia]. cbn. apply elem_of_snoc. by right.
Qed.

Lemma check_range_msg_overlap x t rep :
  j_first t < x ->
  cross_mark +:+ " " +:+ overlap_msg t x (j_first t)
    ∈ msgs (check_range (Some x) t rep).
Proof.
  intros H. unfold check_range. fold (j_first t).
  destruct (Z.gtb_spec (j_first t) x); [lia|].
  destruct (Z.ltb_spec (j_first t) x); [|lia]. cbn. apply elem_of_snoc. by right.
Qed.

Lemma check_false rep k : check rep k = false <-> k ∈ failed rep.
Proof.
  unfold check. rewrite bool_decide_eq_false. split; [|by auto].
  intros H. by destruct (decide (k ∈ failed rep)).
Qed.

(** C2, as amended. For every manifest it reads, the validator walks the
    [tlfs] list in manifest order and checks that consecutive page ranges
    are contiguous and do not overlap: the check [no_page_gaps] fails, with
    the message "Page gap before <id> (expected e, got s)", exactly when
    some record's first page [s] exceeds [e], the last page of the record
    before it plus one, and [no_page_overlaps] fails, with the message
    "Page overlap at ...", exactly when it is less. The first page of the
    first record is compared with nothing. *)
Theorem C2_validator_adjacent_ranges fs output_dir manifest :
  let rep := run_validation fs output_dir manifest in
  (check rep no_page_gaps = false <-> has_gap (j_tlfs manifest))
  /\ (check rep no_page_overlaps = false <-> has_overlap (j_tlfs manifest))
  /\ (forall (i : nat) a b,
        j_tlfs manifest !! i = Some a -> j_tlfs manifest !! S i = Some b ->
        (j_first b > j_last a + 1 ->
         cross_mark +:+ " " +:+ gap_msg b (j_last a + 1) (j_first b) ∈ msgs rep)
        /\ (j_first b < j_last a + 1 ->
            cross_mark +:+ " " +:+ overlap_msg b (j_last a + 1) (j_first b)
              ∈ msgs rep)).
Proof.
  intros rep. unfold rep, run_validation. rewrite !check_false.
  split; [|split].
  - rewrite (validate_tlfs_failed fs output_dir no_page_gaps Z.gt).
    + unfold has_gap. rewrite adjacent_pair_breach.
      pose proof (validate_narrative_failed_range fs output_dir no_page_gaps
                    (j_narrative manifest)). tauto.
    + apply check_range_failed_gap.
    + intros. apply check_file_failed_range. by left.
  - rewrite (validate_tlfs_failed fs output_dir no_page_overlaps Z.lt).
    + unfold has_overlap. rewrite adjacent_pair_breach.
      pose proof (validate_narrative_failed_range fs output_dir no_page_overlaps
                    (j_narrative manifest)). tauto.
    + apply check_range_failed_overlap.
    + intros. apply check_file_failed_range. by right.
  - intros i a b Ha Hb. split; intros HR.
    + eapply (validate_tlfs_msg fs output_dir Z.gt gap_msg); eauto.
      apply check_range_msg_gap.
    + eapply (validate_tlfs_msg fs output_dir Z.lt overlap_msg); eauto.
      apply check_range_msg_overlap.
Qed.

(** Scenario 4: records A on pages 43-44 and B on page 46. *)
Lemma C2_validator_adjacent_ranges_witness :
  check (run_validation fs_two_pages "out" manifest_gap) no_page_gaps = false
  /\ cross_mark +:+ " Page gap before B (expected 45, got 46)"
       ∈ msgs (run_validation fs_two_pages "out" manifest_gap).
Proof.
  destruct (C2_validator_adjacent_ranges fs_two_pages "out" manifest_gap)
    as (Hgap & _ & Hmsg).
  split.
  - apply Hgap. exists O. eexists _, _.
    split; [reflexivity|]. split; [reflexivity|]. vm_compute. reflexivity.
  - apply (Hmsg O (mkTlfJson "A" (Some (43, 44)) (Some "pdf/A.pdf") (Some 2))
                  (mkTlfJson "B" (Some (46, 46)) (Some "pdf/B.pdf") (Some 1))
                  eq_refl eq_refl).
    vm_compute. reflexivity.
Defined.

(** C2 as stated fails: a manifest whose only record starts at page 50
    passes every check, the gap and overlap checks included, with no
    message. *)
Lemma C2_counterexample :
  validation_passed (run_validation fs_two_pages "out" manifest_from_50) = true
  /\ msgs (run_validation fs_two_pages "out" manifest_from_50) = []
  /\ ~ begins_at_43 (j_tlfs manifest_from_50).
Proof.
  split; [vm_compute; reflexivity|]. split; [vm_compute; reflexivity|].
  intros H. specialize (H _ eq_refl). vm_compute in H. discriminate.
Qed.

(** Round trip: the manifest that a run of the extraction writes shows
    neither a gap nor an overlap to the validator. *)
Lemma manifest_round_trip verbose doc doc_name total_pages now :
  let m := build_manifest doc_name total_pages now
             (tlfs (fst (segment verbose doc))) in
  ~ has_gap (j_tlfs (manifest_json m)) /\ ~ has_overlap (j_tlfs (manifest_json m)).
Proof.
  intros m.
  assert (forall R, adjacent_pair R (j_tlfs (manifest_json m)) ->
            exists x, R x x) as Hpair.
  { intros R (i & a & b & Ha & Hb & HR). cbn in Ha, Hb.
    rewrite list_lookup_fmap in Ha, Hb.
    destruct (tlfs (fst (segment verbose doc)) !! i) as [ra|] eqn:Era; [|done].
    destruct (tlfs (fst (segment verbose doc)) !! S i) as [rb|] eqn:Erb; [|done].
    cbn in Ha, Hb. injection Ha as <-. injection Hb as <-.
    unfold j_first, j_last in HR. cbn in HR.
    pose proof (segment_gap_free verbose doc _ _ _ Era Erb) as Hgf.
    unfold first_page, last_page in Hgf. rewrite Hgf in HR. eauto. }
  split; intros (x & Hx)%Hpair; lia.
Qed.

(** ** C4: a document with fewer than 43 pages *)

(** C4. For a document with fewer than 43 pages, whatever the flags,
    extraction ends in the error "Document has too few pages" with no
    manifest, and none of its effects writes a file: no narrative or TLF
    PDF, no text file, no JSON or CSV manifest. Its only filesystem effects
    are the [makedirs] of lines 205-208 when [dry_run] is off, and there
    are none when it is on. *)
Theorem C4_too_few_pages doc input_path output_dir verbose dry_run no_text now :
  (length doc < 43)%nat ->
  let run := extract_tlfs (Some doc) input_path output_dir verbose dry_run
               no_text now in
  outcome run = TooFewPages
  /\ Log ERROR ("Document has too few pages ("
                +:+ PyStr.str (Z.of_nat (length doc))
                +:+ "). Cannot extract CSR.") ∈ effects run
  /\ Forall (fun e => is_file_write e = false) (effects run)
  /\ (dry_run = true -> Forall (fun e => is_fs_write e = false) (effects run)).
Proof.
  intros Hlen run. unfold run, extract_tlfs.
  destruct (Z.ltb_spec (Z.of_nat (length doc)) 43) as [_|]; [|lia]. cbn.
  split; [done|]. split; [apply elem_of_app; right; by apply list_elem_of_singleton|].
  split.
  - destruct dry_run, no_text; cbn; repeat constructor.
  - intros ->. cbn. repeat constructor.
Qed.

(** A document of two pages, with [dry_run] off. *)
Lemma C4_too_few_pages_witness :
  let run := extract_tlfs (Some ["Title page"; "Synopsis"]) "csr.pdf" "out"
               false false false (mkDateTime 2023 6 2 12 34 56 0) in
  outcome run = TooFewPages
  /\ Log ERROR ("Document has too few pages ("
                +:+ PyStr.str (Z.of_nat (length ["Title page"; "Synopsis"]))
                +:+ "). Cannot extract CSR.") ∈ effects run
  /\ Forall (fun e => is_file_write e = false) (effects run)
  /\ (false = true -> Forall (fun e => is_fs_write e = false) (effects run)).
Proof.
  apply (C4_too_few_pages ["Title page"; "Synopsis"] "csr.pdf" "out"
           false false false (mkDateTime 2023 6 2 12 34 56 0)).
  simpl. lia.
Defined.

(** ** C5: dry run *)

Lemma console_app a b : console (a ++ b) = console a ++ console b.
Proof. apply List.filter_app. Qed.

Lemma console_id es :
  Forall (fun e => is_fs_write e = false) es -> console es = es.
Proof.
  induction 1 as [|e es He _ IH]; [done|].
  unfold console in *. cbn. rewrite He. cbn. by rewrite IH.
Qed.

Lemma console_none es :
  Forall (fun e => is_fs_write e = true) es -> console es = [].
Proof.
  induction 1 as [|e es He _ IH]; [done|].
  unfold console in *. cbn. rewrite He. cbn. by rewrite IH.
Qed.

Lemma log_info_console verbose msg :
  Forall (fun e => is_fs_write e = false) (log_info verbose msg).
Proof. destruct verbose; repeat constructor. Qed.

Lemma scan_page_log_console verbose n t st :
  Forall (fun e => is_fs_write e = false) (scan_page_log verbose n t st).
Proof.
  unfold scan_page_log. destruct (branch_of _ _); try by repeat constructor.
  destruct (current_record st); [apply log_info_console|constructor].
Qed.

Lemma scan_pages_log_console verbose n pages st :
  Forall (fun e => is_fs_write e = false) (snd (scan_pages verbose n pages st)).
Proof.
  revert n st. induction pages as [|t rest IH]; intros n st; cbn; [constructor|].
  destruct (is_termination t); [apply log_info_console|].
  specialize (IH (n + 1) (scan_page n t st)).
  destruct (scan_pages _ _ _ _) as [st_end log]. cbn in *.
  apply Forall_app. split; [apply scan_page_log_console|done].
Qed.

Lemma summary_console doc_name total_pages st :
  Forall (fun e => is_fs_write e = false) (summary doc_name total_pages st).
Proof.
  unfold summary. apply Forall_app. split; [repeat constructor|].
  apply Forall_fmap. by apply Forall_true.
Qed.

(** Text extraction of pages that exist writes the file and nothing else. *)
Lemma extract_txt_in_range doc start_page end_page filepath :
  0 <= start_page -> end_page < Z.of_nat (length doc) ->
  exists content,
    extract_txt doc start_page end_page filepath = [WriteText filepath content].
Proof.
  intros Hs He. unfold extract_txt.
  destruct (mapM_is_Some_2 (txt_chunk doc start_page end_page)
              (seqZ start_page (end_page + 1 - start_page))) as [chunks ->];
    [|eauto].
  apply Forall_forall. intros i Hi%elem_of_seqZ. unfold txt_chunk. cbn.
  destruct (lookup_lt_is_Some_2 doc (Z.to_nat i)) as [text ->]; [lia|].
  cbn. eauto.
Qed.

Lemma scanned_length pages : (length (scanned pages) <= length pages)%nat.
Proof.
  induction pages as [|t rest IH]; cbn; [done|].
  destruct (is_termination t); cbn; lia.
Qed.

(** The page range of every record lies in the TLF section of the
    document. *)
Lemma segment_range_in_doc verbose doc r :
  r ∈ tlfs (fst (segment verbose doc)) ->
  43 <= first_page r /\ last_page r <= Z.of_nat (length doc).
Proof.
  rewrite segment_state. intros (i & Hi)%list_elem_of_lookup_1.
  pose proof (inv_tiles _ _ _ (state_after_inv doc (length (tlf_pages doc)))) as H.
  destruct (first_heading _) as [j|]; [|by rewrite H, lookup_nil in Hi].
  destruct H as [H _].
  destruct (tiles_lookup _ _ _ _ _ H Hi) as (Ha & Hab & Hb & _).
  rewrite length_take in Hb.
  pose proof (scanned_length (drop 42 doc)) as Hlen.
  rewrite length_drop in Hlen. unfold tlf_pages in Hb. lia.
Qed.

Lemma write_tlf_console doc output_dir no_text r :
  43 <= first_page r -> last_page r <= Z.of_nat (length doc) ->
  console (write_tlf doc output_dir no_text r) = [].
Proof.
  intros Ha Hb. unfold write_tlf. destruct no_text; [done|].
  destruct (extract_txt_in_range doc (first_page r - 1) (last_page r - 1)
              (path_join output_dir ("text/" +:+ safe_id (tfl_id r) +:+ ".txt")))
    as [content ->]; [lia..|done].
Qed.

(** C5. For every input and the same clock value, a dry run ends in the
    same outcome as a run that writes (the same manifest: records, page
    ranges, titles, timestamp, and the same final scan state), shows the
    same log records and the same printed summary, and has no filesystem
    effect: no directory, PDF, text file or manifest file is created. *)
Theorem C5_dry_run_same_data doc input_path output_dir verbose no_text now :
  let dry := extract_tlfs doc input_path output_dir verbose true no_text now in
  let wet := extract_tlfs doc input_path output_dir verbose false no_text now in
  outcome dry = outcome wet
  /\ effects dry = console (effects wet)
  /\ Forall (fun e => is_fs_write e = false) (effects dry).
Proof.
  intros dry wet.
  assert (outcome dry = outcome wet /\ effects dry = console (effects wet))
    as [Hout Heff].
  { unfold dry, wet, extract_tlfs. destruct doc as [doc|]; [|done].
    destruct (Z.ltb_spec (Z.of_nat (length doc)) 43) as [|Hlen].
    { cbn. split; [done|]. by destruct no_text. }
    pose proof (scan_pages_log_console verbose 42 (drop 42 doc) scan_init) as Hlog.
    pose proof (segment_range_in_doc verbose doc) as Hrange.
    unfold segment in *. destruct (scan_pages _ _ _ _) as [st scan_log].
    cbn [fst snd outcome effects] in *. split; [done|].
    rewrite !console_app. cbn [app].
    rewrite (console_id (log_info _ _)) by apply log_info_console.
    rewrite (console_id scan_log) by done.
    rewrite (console_id (summary _ _ _)) by apply summary_console.
    assert (console (concat (write_tlf doc output_dir no_text <$> tlfs st)) = [])
      as ->.
    { revert Hrange. generalize (tlfs st) as l.
      induction l as [|r l IH]; intros Hl; [done|].
      rewrite fmap_cons. cbn [concat].
      rewrite console_app, IH.
      - rewrite write_tlf_console; [done|apply Hl, elem_of_cons; by left..].
      - intros r' Hr'. apply Hl, elem_of_cons. by right. }
    assert (console (match current_record st with
                     | Some r => log_info verbose (found_msg r)
                     | None => []
                     end)
            = match current_record st with
              | Some r => log_info verbose (found_msg r)
              | None => []
              end) as ->.
    { destruct (current_record st); [apply console_id, log_info_console|done]. }
    destruct no_text.
    - done.
    - destruct (extract_txt_in_range doc 0 41
                  (path_join output_dir "text/narrative_body.txt"))
        as [content ->]; [lia..|]. done. }
  split; [done|]. split; [done|]. rewrite Heff. unfold console.
  apply Forall_forall. intros e He%list_elem_of_In%List.filter_In.
  by destruct He as [_ ?%negb_true_iff].
Qed.

(** ** C9: the timestamp of the manifest *)

Lemma digit_char_is_digit d :
  0 <= d < 10 -> PyStr.is_digit (digit_char d) = true.
Proof.
  intros H.
  assert (d = 0 \/ d = 1 \/ d = 2 \/ d = 3 \/ d = 4 \/ d = 5 \/ d = 6 \/ d = 7
          \/ d = 8 \/ d = 9) as Hd by lia.
  repeat (destruct Hd as [->|Hd]; [reflexivity|]). by subst.
Qed.

(** When the clock shows a fraction of a second, the slice of line 322
    removes the fraction and the offset. *)
Lemma extraction_date_fraction t :
  microsecond t <> 0 ->
  extraction_date_of t
  = zfill 4 (year t) +:+ "-" +:+ zfill 2 (month t) +:+ "-" +:+ zfill 2 (day t)
    +:+ "T" +:+ zfill 2 (hour t) +:+ ":" +:+ zfill 2 (minute t) +:+ ":"
    +:+ zfill 2 (second t) +:+ "Z".
Proof.
  intros Hus. unfold extraction_date_of, isoformat.
  destruct (Z.eqb_spec (microsecond t) 0) as [|_]; [done|].
  cbv [zfill String.append PyStr.drop_last PyStr.stake String.length Nat.sub].
  reflexivity.
Qed.

(** With a fraction of a second on the clock the timestamp is well
    formed. *)
Lemma extraction_date_fraction_iso t :
  valid_datetime t -> microsecond t <> 0 ->
  is_iso_utc_seconds (extraction_date_of t) = true.
Proof.
  intros _ Hus. rewrite extraction_date_fraction by done.
  cbv [zfill String.append].
  repeat match goal with
         | |- context [digit_char ?d] =>
             let H := fresh "Hd" in
             assert (PyStr.is_digit (digit_char d) = true) as H
               by (apply digit_char_is_digit, Z.mod_pos_bound; lia);
             generalize dependent (digit_char d); intros
         end.
  cbn [is_iso_utc_seconds list_ascii_of_string forallb].
  repeat match goal with H : PyStr.is_digit _ = true |- _ => rewrite H; clear H end.
  reflexivity.
Qed.

(** C9 fails when the clock shows a whole second. At 2023-06-02 12:34:56
    UTC with [microsecond = 0], [isoformat] prints no fraction, the slice
    of line 322 cuts 13 characters all the same, and [extraction_date] is
    [2023-06-02T1Z], which is not of the form [YYYY-MM-DDTHH:MM:SSZ]. *)
Theorem C9_extraction_date_whole_second :
  let now := mkDateTime 2023 6 2 12 34 56 0 in
  valid_datetime now
  /\ isoformat now = "2023-06-02T12:34:56+00:00"
  /\ (forall doc_name total_pages tlfs,
        extraction_date (build_manifest doc_name total_pages now tlfs)
        = "2023-06-02T1Z")
  /\ is_iso_utc_seconds (extraction_date_of now) = false.
Proof.
  intros now. split; [unfold valid_datetime; cbn; lia|].
  split; [vm_compute; reflexivity|].
  split; [intros; vm_compute; reflexivity|vm_compute; reflexivity].
Qed.


(** * Further properties of the scan *)

(** ** The loop body, case by case *)

Lemma id_truthy_Some o :
  id_falsy o = false -> exists s, o = Some s /\ default "" o = s.
Proof. destruct o as [s|]; [eauto|done]. Qed.

(** The loop body on a state whose open record is the last one: the page
    is dropped, or the last record is extended, or a record is appended. *)
Lemma scan_page_cases n t st :
  open_last st ->
  (has_heading t = false /\ tlfs st = []
   /\ scan_page n t st
      = mkScan [] None (warnings st + 1) (tfl_pages_total st)
               (table_count st) (figure_count st))
  \/ (exists l r,
        tlfs st = l ++ [r]
        /\ (has_heading t = false \/ p_id (parse_tfl_page t) = Some (tfl_id r))
        /\ scan_page n t st
           = mkScan (l ++ [extend n r]) (Some (length l)) (warnings st)
                    (tfl_pages_total st + 1) (table_count st) (figure_count st))
  \/ (exists new_id,
        p_id (parse_tfl_page t) = Some new_id
        /\ (tlfs st = [] \/ exists l r, tlfs st = l ++ [r] /\ tfl_id r <> new_id)
        /\ let r := new_record n new_id (parse_tfl_page t) in
           scan_page n t st
           = mkScan (tlfs st ++ [r]) (Some (length (tlfs st))) (warnings st)
                    (tfl_pages_total st + 1)
                    (if is_table_record r then table_count st + 1
                     else table_count st)
                    (if is_table_record r then figure_count st
                     else figure_count st + 1)).
Proof.
  intros Hopen. unfold scan_page, branch_of, has_heading.
  destruct (id_falsy (p_id (parse_tfl_page t))) eqn:Ef.
  - destruct (current_tfl st) as [i|] eqn:Ec.
    + destruct (open_last_snoc _ _ Hopen Ec) as (l & r & Hl & ->).
      right; left. exists l, r. split; [done|]. split; [by left|].
      cbv beta iota. unfold extend_current. by rewrite ?Ec, Hl, alter_last.
    + unfold open_last in Hopen. rewrite Ec in Hopen.
      left. split; [done|]. split; [done|]. by rewrite Hopen.
  - destruct (id_truthy_Some _ Ef) as (new_id & Hid & ->).
    destruct (current_tfl st) as [i|] eqn:Ec.
    + destruct (open_last_snoc _ _ Hopen Ec) as (l & r & Hl & ->).
      assert (tlfs st !! length l = Some r) as Hlk
        by (by rewrite Hl, list_lookup_middle).
      cbv beta iota zeta. rewrite Hlk.
      change (default "" (tfl_id <$> Some r)) with (tfl_id r).
      destruct (String.eqb_spec (tfl_id r) new_id) as [Heq|Hne].
      * right; left. exists l, r. split; [done|]. split; [right; by rewrite Heq|].
        cbv beta iota. unfold extend_current. by rewrite ?Ec, Hl, alter_last.
      * right; right. exists new_id. split; [done|]. split; [right; eauto|].
        reflexivity.
    + right; right. exists new_id. split; [done|].
      unfold open_last in Hopen. rewrite Ec in Hopen. split; [by left|].
      reflexivity.
Qed.

(** ** The counters and the records after any number of pages *)

Lemma sum_counts_snoc l r : sum_counts (l ++ [r]) = sum_counts l + page_count r.
Proof.
  unfold sum_counts. induction l as [|x l IH]; cbn; [lia|].
  rewrite IH. lia.
Qed.

Lemma filter_length_snoc {A} (f : A -> bool) l x :
  length (List.filter f (l ++ [x]))
  = (length (List.filter f l) + (if f x then 1 else 0))%nat.
Proof.
  rewrite List.filter_app, length_app. cbn. by destruct (f x).
Qed.

Lemma seeded_from_extend n m text r :
  seeded_from m text r -> seeded_from m text (extend n r).
Proof. by intros (? & ? & ? & ? & ? & ? & ?). Qed.

Lemma scan_facts_init : scan_facts [] scan_init.
Proof. by split. Qed.

Lemma scan_facts_step done st t :
  open_last st -> scan_facts done st ->
  scan_facts (done ++ [t]) (scan_page (42 + Z.of_nat (length done)) t st).
Proof.
  intros Hopen [Htot Hproc Htab Hfig Hseed Hadj].
  assert (Z.of_nat (length (done ++ [t])) = Z.of_nat (length done) + 1) as Hlen
    by (rewrite length_app; cbn; lia).
  destruct (scan_page_cases (42 + Z.of_nat (length done)) t st Hopen)
    as [(Hh & Hnil & ->)|[(l & r & Hl & Hid & ->)|(new_id & Hid & Hprev & Hst)]].
  - (* the page is dropped *)
    rewrite Hnil in *. split; cbn in *; try done; lia.
  - (* the open record is extended *)
    rewrite Hl in *. split; cbn [tlfs tfl_pages_total warnings table_count figure_count].
    + rewrite sum_counts_snoc in *. cbn. lia.
    + lia.
    + rewrite filter_length_snoc in *. exact Htab.
    + rewrite filter_length_snoc in *. exact Hfig.
    + intros i r' [[Hi Hr']|[-> <-]]%lookup_snoc_Some.
      * destruct (Hseed i r') as (k & text & Hk & Hs);
          [by apply lookup_app_l_Some|].
        exists k, text. split; [by apply lookup_app_l_Some|done].
      * destruct (Hseed (length l) r) as (k & text & Hk & Hs);
          [by rewrite list_lookup_middle|].
        exists k, text. split; [by apply lookup_app_l_Some|].
        by apply seeded_from_extend.
    + intros i a b Ha Hb.
      apply lookup_snoc_Some in Hb as [[Hi Hb]|[Hi <-]].
      * apply lookup_snoc_Some in Ha as [[_ Ha]|[? _]]; [|lia].
        apply (Hadj i a b); by apply lookup_app_l_Some.
      * apply lookup_snoc_Some in Ha as [[_ Ha]|[? _]]; [|lia].
        cbn. apply (Hadj i a r); [by apply lookup_app_l_Some|].
        by rewrite Hi, list_lookup_middle.
  - (* a record is appended *)
    cbv zeta in Hst. rewrite Hst. clear Hst.
    set (r := new_record (42 + Z.of_nat (length done)) new_id (parse_tfl_page t)).
    split; cbn [tlfs tfl_pages_total warnings table_count figure_count].
    + rewrite sum_counts_snoc. cbn. lia.
    + lia.
    + rewrite filter_length_snoc. destruct (is_table_record r); lia.
    + rewrite filter_length_snoc. destruct (is_table_record r); cbn; lia.
    + intros i r' [[Hi Hr']|[-> <-]]%lookup_snoc_Some.
      * destruct (Hseed i r' Hr') as (k & text & Hk & Hs).
        exists k, text. split; [by apply lookup_app_l_Some|done].
      * exists (length done), t. split; [by rewrite list_lookup_middle|].
        by repeat split.
    + intros i a b Ha Hb.
      apply lookup_snoc_Some in Hb as [[Hi Hb]|[Hi <-]].
      * apply lookup_snoc_Some in Ha as [[_ Ha]|[? _]]; [|lia].
        by apply (Hadj i a b).
      * apply lookup_snoc_Some in Ha as [[_ Ha]|[? _]]; [|lia].
        destruct Hprev as [Hnil|(l & r0 & Hl & Hne)].
        -- by rewrite Hnil in Ha.
        -- rewrite Hl in Ha, Hi. rewrite length_app in Hi. cbn in Hi.
           assert (i = length l) as -> by lia.
           rewrite list_lookup_middle in Ha by done. by injection Ha as <-.
Qed.

Lemma scan_facts_steps done :
  scan_facts done (scan_steps 42 done scan_init).
Proof.
  induction done as [|t done IH] using rev_ind; [apply scan_facts_init|].
  rewrite scan_steps_snoc. apply scan_facts_step; [|done].
  apply (inv_open _ _ _ (scan_inv_steps done)).
Qed.

Lemma segment_facts verbose doc :
  scan_facts (tlf_pages doc) (fst (segment verbose doc)).
Proof.
  unfold segment. rewrite scan_pages_state. apply scan_facts_steps.
Qed.


(** ** The totals of the summary *)

Lemma filter_length_split {A} (f : A -> bool) l :
  (length (List.filter f l) + length (List.filter (fun x => negb (f x)) l))%nat
  = length l.
Proof.
  induction l as [|x l IH]; [done|]. cbn. destruct (f x); cbn; lia.
Qed.

(** X1. The totals printed in the summary are consistent with the records:
    "Total TFL pages" is the sum of the page counts of the records, this
    total and the number of warnings add up to the number of pages the scan
    processed, the table count is the number of records of type table, and
    tables and figures add up to the number of records. *)
Theorem summary_totals_add_up verbose doc :
  let st := fst (segment verbose doc) in
  tfl_pages_total st = sum_counts (tlfs st)
  /\ tfl_pages_total st + warnings st = Z.of_nat (length (tlf_pages doc))
  /\ table_count st
     = Z.of_nat (length (List.filter is_table_record (tlfs st)))
  /\ table_count st + figure_count st = Z.of_nat (length (tlfs st)).
Proof.
  intros st. destruct (segment_facts verbose doc) as [Htot Hproc Htab Hfig _ _].
  fold st in Htot, Hproc, Htab, Hfig.
  repeat split; try done.
  rewrite Htab, Hfig, <- (filter_length_split is_table_record (tlfs st)). lia.
Qed.

(** ** Where the fields of a record come from *)

Lemma scanned_lookup pages (k : nat) t :
  scanned pages !! k = Some t -> pages !! k = Some t.
Proof.
  revert k. induction pages as [|x pages IH]; intros k; cbn; [done|].
  destruct (is_termination x); [done|].
  destruct k as [|k]; cbn; [done|]. apply IH.
Qed.

Lemma parse_id_type lines s :
  p_id (parse_lines lines) = Some s ->
  is_heading s = true
  /\ p_type (parse_lines lines)
     = Some (if PyStr.contains "table" (PyStr.lower s) then "table" else "figure").
Proof.
  unfold parse_lines; cbn.
  destruct (find_heading lines) as [[i l]|] eqn:E; [|done].
  cbn. intros [= <-]. by apply find_heading_Some in E as (_ & H & _).
Qed.

(** X2. Every record of the scan is seeded from the page at its first page
    alone: its id, type, title, population and source program are those
    the classifier finds on that page, whatever the pages folded into it
    later carry. Its id is a heading line, its type is table when the word
    table occurs in the lower-cased id and figure otherwise (never
    missing), and a source program that is present is not empty. *)
Theorem record_seeded_from_first_page verbose doc (i : nat) r :
  tlfs (fst (segment verbose doc)) !! i = Some r ->
  exists text,
    doc !! Z.to_nat (first_page r - 1) = Some text
    /\ 43 <= first_page r
    /\ seeded_from (first_page r - 1) text r
    /\ is_heading (tfl_id r) = true
    /\ tfl_type r
       = Some (if PyStr.contains "table" (PyStr.lower (tfl_id r))
               then "table" else "figure")
    /\ tfl_source_program r <> Some "".
Proof.
  intros Hr.
  destruct (fact_seed _ _ (segment_facts verbose doc) i r Hr)
    as (k & text & Hk & Hseed).
  pose proof Hseed as (Hid & Hty & _ & _ & Hfirst & _ & Hsp).
  exists text. rewrite Hfirst.
  replace (42 + Z.of_nat k + 1 - 1) with (42 + Z.of_nat k) by lia.
  split.
  { apply scanned_lookup in Hk. rewrite lookup_drop in Hk.
    by replace (Z.to_nat (42 + Z.of_nat k)) with (42 + k)%nat by lia. }
  split; [lia|]. split; [done|].
  destruct (parse_id_type _ _ Hid) as [Hhead Htype].
  split; [done|]. split; [by rewrite Hty|].
  rewrite Hsp. destruct (p_source_program (parse_tfl_page text)); by cbn.
Qed.

Lemma record_seeded_from_first_page_witness :
  let r := mkTlf "Table 14.1.1" (Some "table") "Demographics"
                 "pdf/Table_14.1.1.pdf" (43, 44) 2 "Safety" (Some "prog1.sas") in
  exists text,
    doc_sample !! Z.to_nat (first_page r - 1) = Some text
    /\ 43 <= first_page r
    /\ seeded_from (first_page r - 1) text r
    /\ is_heading (tfl_id r) = true
    /\ tfl_type r
       = Some (if PyStr.contains "table" (PyStr.lower (tfl_id r))
               then "table" else "figure")
    /\ tfl_source_program r <> Some "".
Proof.
  intros r. apply (record_seeded_from_first_page false doc_sample 0 r).
  vm_compute. reflexivity.
Defined.

(** X3. Two records that follow each other in the result never have the
    same id: a page that repeats the id of the open record extends it. *)
Theorem adjacent_records_differ verbose doc (i : nat) a b :
  tlfs (fst (segment verbose doc)) !! i = Some a ->
  tlfs (fst (segment verbose doc)) !! S i = Some b ->
  tfl_id a <> tfl_id b.
Proof. apply (fact_adjacent _ _ (segment_facts verbose doc)). Qed.

Lemma adjacent_records_differ_witness :
  let a := mkTlf "Table 14.1.1" (Some "table") "Demographics"
                 "pdf/Table_14.1.1.pdf" (43, 44) 2 "Safety" (Some "prog1.sas") in
  let b := mkTlf "Figure 14.2-1" (Some "figure") "Kaplan-Meier plot"
                 "pdf/Figure_14.2-1.pdf" (45, 45) 1 "" None in
  tfl_id a <> tfl_id b.
Proof.
  intros a b. apply (adjacent_records_differ false doc_sample 0 a b);
    vm_compute; reflexivity.
Defined.


(** ** Records once written *)








(** ** The pages behind the termination page *)

Lemma scanned_cut pre t rest :
  is_termination t = true -> scanned (pre ++ t :: rest) = scanned pre.
Proof.
  intros Ht. induction pre as [|x pre IH]; cbn; [by rewrite Ht|].
  destruct (is_termination x); [done|]. by rewrite IH.
Qed.

Lemma scan_pages_cut verbose n pre t rest st :
  is_termination t = true ->
  scan_pages verbose n (pre ++ t :: rest) st
  = scan_pages verbose n (pre ++ [t]) st.
Proof.
  intros Ht. revert n st. induction pre as [|x pre IH]; intros n st; cbn.
  - by rewrite Ht.
  - destruct (is_termination x); [done|]. by rewrite IH.
Qed.

(** X5. What follows a termination page has no influence on the scan: a
    document gives the same records, counters and log as the document cut
    behind the termination page, and the same records and counters as the
    document cut before it, even when the termination page or the pages
    behind it carry TLF headings. *)
Theorem pages_after_termination_ignored verbose pre t rest :
  (42 <= length pre)%nat -> is_termination t = true ->
  segment verbose (pre ++ t :: rest) = segment verbose (pre ++ [t])
  /\ fst (segment verbose (pre ++ t :: rest)) = fst (segment verbose pre).
Proof.
  intros Hlen Ht. unfold segment. rewrite !drop_app_le by done. split.
  - by apply scan_pages_cut.
  - by rewrite !scan_pages_state, scanned_cut.
Qed.

Lemma pages_after_termination_ignored_witness :
  let pre := narrative_pages
             ++ [page_demographics; "Sex    F 12   M 14";
                 "Figure 14.2-1" +:+ nl +:+ "Kaplan-Meier plot"] in
  segment true (pre ++ "15. References" :: ["Table 14.3.1"])
  = segment true (pre ++ ["15. References"])
  /\ fst (segment true (pre ++ "15. References" :: ["Table 14.3.1"]))
     = fst (segment true pre).
Proof.
  intros pre. apply (pages_after_termination_ignored true pre "15. References").
  - vm_compute. lia.
  - vm_compute. reflexivity.
Defined.


(** ** The flags [verbose] and [no_text] *)

Section keep.
Context (f : Effect -> bool).

Lemma keep_all es :
  Forall (fun e => f e = true) es -> List.filter f es = es.
Proof.
  induction 1 as [|e es He _ IH]; [done|]. cbn. by rewrite He, IH.
Qed.

Lemma keep_none es :
  Forall (fun e => f e = false) es -> List.filter f es = [].
Proof.
  induction 1 as [|e es He _ IH]; [done|]. cbn. by rewrite He, IH.
Qed.
End keep.

Lemma log_info_quiet msg :
  log_info false msg = List.filter not_info (log_info true msg).
Proof. reflexivity. Qed.

Lemma scan_page_log_quiet n t st :
  scan_page_log false n t st = List.filter not_info (scan_page_log true n t st).
Proof.
  unfold scan_page_log. destruct (branch_of _ _); try reflexivity.
  by destruct (current_record st).
Qed.

Lemma scan_pages_quiet n pages st :
  scan_pages false n pages st
  = (fst (scan_pages true n pages st),
     List.filter not_info (snd (scan_pages true n pages st))).
Proof.
  revert n st. induction pages as [|t rest IH]; intros n st; cbn; [done|].
  destruct (is_termination t); [done|].
  rewrite IH. destruct (scan_pages true _ _ _) as [st_end log]. cbn.
  by rewrite List.filter_app, scan_page_log_quiet.
Qed.

Lemma extract_txt_not_info doc a b path :
  Forall (fun e => not_info e = true) (extract_txt doc a b path).
Proof. unfold extract_txt. destruct (mapM _ _); repeat constructor. Qed.

Lemma write_tlf_not_info doc output_dir no_text r :
  Forall (fun e => not_info e = true) (write_tlf doc output_dir no_text r).
Proof.
  unfold write_tlf. constructor; [done|].
  destruct no_text; [constructor|apply extract_txt_not_info].
Qed.

Lemma summary_not_info doc_name total_pages st :
  Forall (fun e => not_info e = true) (summary doc_name total_pages st).
Proof.
  unfold summary. apply Forall_app. split; [repeat constructor|].
  apply Forall_fmap. by apply Forall_true.
Qed.

(** X6. The flag [verbose] changes nothing but the log: a run without it
    ends in the same outcome (manifest and scan state), and its effects are
    those of the verbose run without the records of level INFO, in the same
    order. Warnings and errors are logged either way. *)
Theorem verbose_changes_only_info_log doc input_path output_dir dry_run
    no_text now :
  let loud := extract_tlfs doc input_path output_dir true dry_run no_text now in
  let quiet := extract_tlfs doc input_path output_dir false dry_run no_text now in
  outcome quiet = outcome loud
  /\ effects quiet = List.filter not_info (effects loud).
Proof.
  intros loud quiet. unfold loud, quiet, extract_tlfs.
  destruct doc as [doc|]; [|done].
  destruct (Z.of_nat (length doc) <? 43).
  { cbn. split; [done|]. rewrite List.filter_app. cbn.
    rewrite keep_all; [done|]. destruct dry_run, no_text; repeat constructor. }
  unfold segment. rewrite scan_pages_quiet.
  destruct (scan_pages true _ _ _) as [st scan_log]. cbn [fst snd outcome effects].
  split; [done|].
  rewrite !List.filter_app.
  rewrite (keep_all not_info (summary _ _ _)) by apply summary_not_info.
  repeat (apply (f_equal2 (@app Effect))); try reflexivity;
    try (by destruct (current_record st)); symmetry; apply keep_all.
  - destruct dry_run, no_text; repeat constructor.
  - destruct dry_run; [constructor|].
    constructor; [done|]. destruct no_text; [constructor|apply extract_txt_not_info].
  - destruct dry_run; [constructor|].
    apply Forall_concat, Forall_fmap, Forall_forall.
    intros r _. apply write_tlf_not_info.
  - destruct dry_run; repeat constructor.
Qed.

(** *** Paths below the output directory *)

Lemma string_length_app (a b : string) :
  String.length (a +:+ b) = (String.length a + String.length b)%nat.
Proof.
  induction a as [|c a IH]; [done|]. rewrite app_String. cbn. by rewrite IH.
Qed.

(** A relative path is appended to the directory behind a separator that
    depends on the directory alone. *)
Lemma path_join_relative a :
  exists sep, forall b,
    PyStr.startswith b "/" = false -> path_join a b = a +:+ sep +:+ b.
Proof.
  destruct (negb (PyStr.truthy a) || ends_with_slash a) eqn:E.
  - exists "". intros b Hb. unfold path_join. by rewrite Hb, E.
  - exists "/". intros b Hb. unfold path_join. by rewrite Hb, E.
Qed.

Lemma path_join_inj a b b' :
  PyStr.startswith b "/" = false -> PyStr.startswith b' "/" = false ->
  path_join a b = path_join a b' -> b = b'.
Proof.
  intros Hb Hb'. destruct (path_join_relative a) as [sep Hsep].
  rewrite !Hsep by done. by intros ?%(inj _)%(inj _).
Qed.

Lemma path_join_longer a b :
  PyStr.startswith b "/" = false -> b <> "" -> path_join a b <> a.
Proof.
  intros Hb Hne. destruct (path_join_relative a) as [sep Hsep].
  rewrite Hsep by done. intros H%(f_equal String.length).
  rewrite !string_length_app in H. destruct b; [done|]. cbn in H. lia.
Qed.

Lemma eqb_false_ne (a b : string) : a <> b -> String.eqb a b = false.
Proof. by intros ?%String.eqb_neq. Qed.

Lemma text_output_is_write output_dir e :
  is_fs_write e = false -> not_text_output output_dir e = true.
Proof. by destruct e. Qed.

Lemma keep_console (f : Effect -> bool) es :
  (forall e, is_fs_write e = false -> f e = true) ->
  Forall (fun e => is_fs_write e = false) es -> List.filter f es = es.
Proof.
  intros Hf Hes. apply keep_all. eapply Forall_impl; [exact Hes|]. apply Hf.
Qed.

Lemma dirs_without_text output_dir :
  List.filter (not_text_output output_dir)
    [MakeDirs output_dir; MakeDirs (path_join output_dir "pdf");
     MakeDirs (path_join output_dir "text")]
  = [MakeDirs output_dir; MakeDirs (path_join output_dir "pdf")].
Proof.
  assert (not_text_output output_dir (MakeDirs output_dir) = true) as H1.
  { unfold not_text_output, is_text_output. rewrite eqb_false_ne; [done|].
    intros H. by apply (path_join_longer output_dir "text"). }
  assert (not_text_output output_dir (MakeDirs (path_join output_dir "pdf"))
          = true) as H2.
  { unfold not_text_output, is_text_output. rewrite eqb_false_ne; [done|].
    by intros ?%path_join_inj. }
  assert (not_text_output output_dir (MakeDirs (path_join output_dir "text"))
          = false) as H3.
  { unfold not_text_output, is_text_output. by rewrite String.eqb_refl. }
  cbn [List.filter]. by rewrite H1, H2, H3.
Qed.

Lemma write_tlf_without_text doc output_dir r :
  43 <= first_page r -> last_page r <= Z.of_nat (length doc) ->
  List.filter (not_text_output output_dir) (write_tlf doc output_dir false r)
  = write_tlf doc output_dir true r.
Proof.
  intros Ha Hb. unfold write_tlf.
  destruct (extract_txt_in_range doc (first_page r - 1) (last_page r - 1)
              (path_join output_dir ("text/" +:+ safe_id (tfl_id r) +:+ ".txt")))
    as [content ->]; [lia..|done].
Qed.

(** X7. The flag [no_text] changes nothing but the text output: a run with
    it ends in the same outcome, and its effects are those of the run
    without it less the text files and the creation of the directory
    [text], in the same order. In particular text extraction never logs a
    failure on the page ranges of an extraction. *)
Theorem no_text_changes_only_text_output doc input_path output_dir verbose
    dry_run now :
  let full := extract_tlfs doc input_path output_dir verbose dry_run false now in
  let bare := extract_tlfs doc input_path output_dir verbose dry_run true now in
  outcome bare = outcome full
  /\ effects bare = List.filter (not_text_output output_dir) (effects full).
Proof.
  intros full bare. unfold full, bare, extract_tlfs.
  destruct doc as [doc|]; [|done].
  destruct (Z.ltb_spec (Z.of_nat (length doc)) 43) as [|Hlen].
  { cbn [outcome effects]. split; [done|]. rewrite List.filter_app.
    destruct dry_run; [done|]. by rewrite dirs_without_text. }
  pose proof (scan_pages_log_console verbose 42 (drop 42 doc) scan_init) as Hlog.
  pose proof (segment_range_in_doc verbose doc) as Hrange.
  unfold segment in *. destruct (scan_pages _ _ _ _) as [st scan_log].
  cbn [fst snd outcome effects] in *. split; [done|].
  rewrite !List.filter_app.
  rewrite (keep_console _ scan_log (text_output_is_write output_dir) Hlog).
  rewrite (keep_console _ (summary _ _ _) (text_output_is_write output_dir))
    by apply summary_console.
  rewrite (keep_console _ (log_info _ _) (text_output_is_write output_dir))
    by apply log_info_console.
  repeat (apply (f_equal2 (@app Effect))); try reflexivity.
  - destruct dry_run; [done|]. by rewrite dirs_without_text.
  - destruct dry_run; [done|].
    destruct (extract_txt_in_range doc 0 41
                (path_join output_dir "text/narrative_body.txt"))
      as [content ->]; [lia..|done].
  - symmetry. apply keep_console; [apply text_output_is_write|].
    destruct (current_record st); [apply log_info_console|constructor].
  - destruct dry_run; [done|].
    revert Hrange. generalize (tlfs st) as l.
    induction l as [|r l IH]; intros Hl; [done|].
    rewrite !fmap_cons. cbn [concat]. rewrite List.filter_app, <- IH.
    + rewrite write_tlf_without_text; [done|apply Hl, elem_of_cons; by left..].
    + intros r' Hr'. apply Hl, elem_of_cons. by right.
  - by destruct dry_run.
Qed.


(** * The validator as a whole *)

(** ** Failed checks and messages go together *)

Lemma snoc_not_nil {A} (l : list A) (x : A) : l ++ [x] <> [].
Proof. by destruct l. Qed.

Lemma log_fail_dirty k msg rep : dirty (log_fail k msg rep).
Proof. split; cbn; apply snoc_not_nil. Qed.

Lemma set_false_dirty k rep : dirty rep -> dirty (set_false k rep).
Proof. intros [_ H]. split; cbn; [apply snoc_not_nil|done]. Qed.

Lemma check_file_cases fs output_dir t rep :
  (file_matches fs output_dir t /\ check_file fs output_dir t rep = rep)
  \/ (~ file_matches fs output_dir t
      /\ dirty (check_file fs output_dir t rep)).
Proof.
  unfold file_matches, check_file.
  destruct (fs _) as [| | |len] eqn:E; try (right; split; [done|auto using log_fail_dirty, set_false_dirty]).
  destruct (Z.eqb_spec len (default 0 (j_page_count t))) as [->|Hne].
  - by left.
  - right. split; [congruence|apply log_fail_dirty].
Qed.

Lemma validate_narrative_cases fs output_dir n rep :
  (narrative_matches fs output_dir n
   /\ validate_narrative fs output_dir n rep = rep)
  \/ (~ narrative_matches fs output_dir n
      /\ dirty (validate_narrative fs output_dir n rep)).
Proof.
  unfold narrative_matches, validate_narrative.
  destruct n as [n|]; [|by left].
  destruct (fs _) as [| | |len] eqn:E; try (right; split; [done|auto using log_fail_dirty, set_false_dirty]).
  destruct (Z.eqb_spec len (default 0 (jn_page_count n))) as [->|Hne].
  - by left.
  - right. split; [congruence|apply log_fail_dirty].
Qed.

Lemma check_range_cases e t rep :
  ((forall x, e = Some x -> j_first t = x) /\ check_range e t rep = rep)
  \/ ((exists x, e = Some x /\ j_first t <> x)
      /\ dirty (check_range e t rep)).
Proof.
  unfold check_range. fold (j_first t). destruct e as [x|].
  - destruct (Z.gtb_spec (j_first t) x);
      [|destruct (Z.ltb_spec (j_first t) x)].
    + right. split; [exists x; split; [done|lia]|apply log_fail_dirty].
    + right. split; [exists x; split; [done|lia]|apply log_fail_dirty].
    + left. split; [|done]. intros ? [= <-]. lia.
  - left. split; [|done]. by intros ? [=].
Qed.

Lemma clean_not_dirty rep : clean rep -> ~ dirty rep.
Proof. intros [H _] [H' _]. done. Qed.

Lemma check_file_dirty fs output_dir t rep :
  dirty rep -> dirty (check_file fs output_dir t rep).
Proof.
  intros H. by destruct (check_file_cases fs output_dir t rep) as [[_ ->]|[_ ?]].
Qed.

Lemma check_range_dirty e t rep : dirty rep -> dirty (check_range e t rep).
Proof.
  intros H. by destruct (check_range_cases e t rep) as [[_ ->]|[_ ?]].
Qed.

Lemma validate_tlfs_dirty fs output_dir e l rep :
  dirty rep -> dirty (validate_tlfs fs output_dir e l rep).
Proof.
  revert e rep. induction l as [|t rest IH]; intros e rep H; cbn; [done|].
  by apply IH, check_file_dirty, check_range_dirty.
Qed.

(** The records of the loop, each compared with [expected_next_page]. *)
Lemma validate_tlfs_clean fs output_dir e l rep :
  clean rep ->
  (Forall (file_matches fs output_dir) l
   /\ ~ breach_from Z.gt e l /\ ~ breach_from Z.lt e l
   /\ validate_tlfs fs output_dir e l rep = rep)
  \/ ((~ Forall (file_matches fs output_dir) l
       \/ breach_from Z.gt e l \/ breach_from Z.lt e l)
      /\ dirty (validate_tlfs fs output_dir e l rep)).
Proof.
  intros Hc. revert e. induction l as [|t rest IH]; intros e; cbn.
  - left. split; [constructor|]. tauto.
  - fold (j_last t).
    destruct (check_range_cases e t rep) as [[Hr ->]|[Hr Hd]].
    + destruct (check_file_cases fs output_dir t rep) as [[Hf ->]|[Hf Hd]].
      * destruct (IH (Some (j_last t + 1))) as [(HF & Hg & Ho & ->)|[Hbad Hd]].
        -- left. split; [by constructor|].
           split; [|split; [|done]].
           ++ intros [(x & Hx & Hgt)|?]; [|done]. apply Hr in Hx. lia.
           ++ intros [(x & Hx & Hgt)|?]; [|done]. apply Hr in Hx. lia.
        -- right. split; [|done].
           destruct Hbad as [Hbad|[Hbad|Hbad]]; [left|right; left|right; right];
             [|by right..].
           intros HF. apply Hbad. by inversion HF.
      * right. split; [|by apply validate_tlfs_dirty].
        left. intros HF. apply Hf. by inversion HF.
    + right. split; [|by apply validate_tlfs_dirty, check_file_dirty].
      destruct Hr as (x & -> & Hne).
      destruct (Z.lt_total (j_first t) x) as [?|[?|?]]; [|done|].
      * right; right. left. eauto.
      * right; left. left. exists x. split; [done|lia].
Qed.

Lemma run_validation_cases fs output_dir m :
  (narrative_matches fs output_dir (j_narrative m)
   /\ Forall (file_matches fs output_dir) (j_tlfs m)
   /\ ~ has_gap (j_tlfs m) /\ ~ has_overlap (j_tlfs m)
   /\ clean (run_validation fs output_dir m))
  \/ (~ (narrative_matches fs output_dir (j_narrative m)
         /\ Forall (file_matches fs output_dir) (j_tlfs m)
         /\ ~ has_gap (j_tlfs m) /\ ~ has_overlap (j_tlfs m))
      /\ dirty (run_validation fs output_dir m)).
Proof.
  unfold run_validation, has_gap, has_overlap.
  rewrite !adjacent_pair_breach.
  destruct (validate_narrative_cases fs output_dir (j_narrative m)
              (mkReport [] [])) as [[Hn ->]|[Hn Hd]].
  - destruct (validate_tlfs_clean fs output_dir None (j_tlfs m)
                (mkReport [] [])) as [(HF & Hg & Ho & ->)|[Hbad Hd]];
      [done|by left|].
    right. split; [|done]. tauto.
  - right. split; [tauto|]. by apply validate_tlfs_dirty.
Qed.

(** ** The verdict *)

Lemma validation_passed_iff rep :
  validation_passed rep = true <-> failed rep = [].
Proof.
  split.
  - intros H. destruct (failed rep) as [|k l] eqn:E; [done|exfalso].
    assert (check rep k = false) as Hk.
    { apply check_false. rewrite E. apply elem_of_cons. by left. }
    revert H. unfold validation_passed, passed, all_checks. cbn [List.filter].
    destruct (check rep files_exist) eqn:E1,
             (check rep files_non_empty) eqn:E2,
             (check rep page_count_match) eqn:E3,
             (check rep no_page_gaps) eqn:E4,
             (check rep no_page_overlaps) eqn:E5,
             (check rep narrative_ok) eqn:E6,
             (check rep pdfs_readable) eqn:E7; cbn; try discriminate.
    intros _. destruct k; congruence.
  - intros H. unfold validation_passed, passed, check. rewrite H.
    vm_compute. reflexivity.
Qed.

Lemma passed_le rep : (passed rep <= 7)%nat.
Proof. unfold passed. apply (List.filter_length_le (check rep) all_checks). Qed.

Lemma verdict_passed rep :
  validation_passed rep = true ->
  verdict rep = "Validation PASSED (7/7 checks )".
Proof.
  intros H. apply Nat.eqb_eq in H. unfold verdict. rewrite H.
  vm_compute. reflexivity.
Qed.

Lemma verdict_failed rep :
  validation_passed rep = false ->
  (passed rep < 7)%nat
  /\ verdict rep = "Validation FAILED (" +:+ PyStr.str (Z.of_nat (passed rep))
                   +:+ "/7 checks passed)".
Proof.
  intros H. apply Nat.eqb_neq in H. pose proof (passed_le rep) as Hle.
  change (length all_checks) with 7%nat in H.
  split; [lia|]. unfold verdict.
  change (length all_checks) with 7%nat.
  destruct (passed rep) as [|[|[|[|[|[|[|n]]]]]]];
    try (vm_compute; reflexivity); lia.
Qed.


(** X8. The validator passes all seven checks exactly when the narrative
    file (if the manifest has a narrative) and the file of every record are
    PDFs with the page count the manifest gives for them, and no record
    starts after or before the page that follows its predecessor. Nothing
    else of the manifest is checked. *)
Theorem validation_passes_iff fs output_dir manifest :
  validation_passed (run_validation fs output_dir manifest) = true
  <-> narrative_matches fs output_dir (j_narrative manifest)
      /\ Forall (file_matches fs output_dir) (j_tlfs manifest)
      /\ ~ has_gap (j_tlfs manifest) /\ ~ has_overlap (j_tlfs manifest).
Proof.
  rewrite validation_passed_iff.
  destruct (run_validation_cases fs output_dir manifest)
    as [(Hn & HF & Hg & Ho & Hc & _)|[Hbad [Hd _]]]; tauto.
Qed.

(** X9. The verdict agrees with the messages: the validator reports
    PASSED exactly when it has no failure message to print. The verdict line
    is then "Validation PASSED (7/7 checks )", with a blank before the
    bracket; otherwise it is "Validation FAILED (k/7 checks passed)" with
    [k < 7] the number of checks that still hold. *)
Theorem verdict_agrees_with_messages fs output_dir manifest :
  let rep := run_validation fs output_dir manifest in
  (validation_passed rep = true <-> msgs rep = [])
  /\ (validation_passed rep = true ->
      verdict rep = "Validation PASSED (7/7 checks )")
  /\ (validation_passed rep = false ->
      (passed rep < 7)%nat
      /\ verdict rep = "Validation FAILED ("
                       +:+ PyStr.str (Z.of_nat (passed rep))
                       +:+ "/7 checks passed)").
Proof.
  intros rep. split; [|split].
  - rewrite validation_passed_iff. unfold rep.
    destruct (run_validation_cases fs output_dir manifest)
      as [(_ & _ & _ & _ & Hf & Hm)|[_ [Hf Hm]]]; tauto.
  - apply verdict_passed.
  - apply verdict_failed.
Qed.

(** ** The report and the [KeyError] of line 176 *)


Lemma gap_line_None l :
  gap_line l = None
  <-> exists a b, head l = Some a /\ last l = Some b
        /\ (j_pages_in_source a = None \/ j_pages_in_source b = None).
Proof.
  unfold gap_line. destruct l as [|a rest]; cbn [head].
  - split; [done|]. by intros (? & ? & [=] & _).
  - destruct (last (a :: rest)) as [b|] eqn:El.
    2:{ by apply last_None in El. }
    destruct (j_pages_in_source a) as [[a1 a2]|] eqn:Ea; cbn.
    + destruct (j_pages_in_source b) as [[b1 b2]|] eqn:Eb; cbn.
      * split; [done|].
        intros (a' & b' & [= <-] & [= <-] & [H|H]); congruence.
      * split; [|done]. intros _. exists a, b. auto.
    + split; [|done]. intros _. exists a, b. auto.
Qed.

Lemma last_app_keeps {A} (l1 l2 : list A) (x : A) :
  last l2 = Some x -> last (l1 ++ l2) = Some x.
Proof. intros H. by rewrite last_app, H. Qed.

Lemma last_cons_keeps {A} (l : list A) (x y : A) :
  last l = Some x -> last (y :: l) = Some x.
Proof. apply (last_app_keeps [y]). Qed.

Lemma report_tail_last manifest rep :
  last (report_tail manifest rep) = Some (Print (verdict rep)).
Proof. unfold report_tail. by do 4 apply last_app_keeps. Qed.




(** * The command line *)

(** ** A heading starts with the letter of its keyword *)

Lemma re_void_not_nullable r : re_void r = true -> Re.nullable r = false.
Proof.
  induction r; cbn; try done.
  - intros [H|H]%orb_true_iff; [rewrite IHr1|rewrite IHr2]; auto using andb_false_r.
  - intros [H1 H2]%andb_true_iff. by rewrite IHr1, IHr2.
Qed.

Lemma re_void_deriv c r : re_void r = true -> re_void (Re.deriv c r) = true.
Proof.
  induction r; cbn; try done.
  - intros [H|H]%orb_true_iff.
    + rewrite (re_void_not_nullable _ H). cbn. by rewrite IHr1.
    + destruct (Re.nullable r1); cbn; rewrite H, ?IHr2 by done;
        by rewrite orb_true_r.
  - intros [H1 H2]%andb_true_iff. by rewrite IHr1, IHr2.
Qed.

Lemma re_void_no_match r s : re_void r = true -> Re.match_prefix r s = false.
Proof.
  revert r. induction s as [|c s IH]; intros r H; cbn;
    rewrite (re_void_not_nullable _ H); [done|].
  by apply IH, re_void_deriv.
Qed.

Lemma is_heading_first_char c s :
  is_heading (String c s) = true ->
  PyStr.lower_char c = "t"%char \/ PyStr.lower_char c = "f"%char.
Proof.
  destruct (Ascii.eqb_spec (PyStr.lower_char c) "t") as [|Ht]; [by left|].
  destruct (Ascii.eqb_spec (PyStr.lower_char c) "f") as [|Hf]; [by right|].
  intros H. exfalso. revert H. unfold is_heading.
  cbn [Re.match_prefix]. rewrite re_void_no_match; [done|].
  apply Ascii.eqb_neq in Ht, Hf.
  cbn. change (PyStr.lower_char "T") with "t"%char.
  change (PyStr.lower_char "F") with "f"%char.
  by rewrite Ht, Hf.
Qed.

(** ** The files a run writes *)

Lemma last_write_app_r p a b e :
  last_write p b = Some e -> last_write p (a ++ b) = Some e.
Proof.
  unfold last_write. intros H. by rewrite List.filter_app, last_app, H.
Qed.

Lemma last_write_app_l p a b :
  List.filter (writes_to p) b = [] -> last_write p (a ++ b) = last_write p a.
Proof.
  unfold last_write. intros H. by rewrite List.filter_app, H, app_nil_r.
Qed.

Lemma writes_console p es :
  Forall (fun e => is_fs_write e = false) es ->
  List.filter (writes_to p) es = [].
Proof.
  intros H. apply keep_none. eapply Forall_impl; [exact H|].
  by intros [].
Qed.

Lemma writes_found p verbose (o : option TlfDict) :
  List.filter (writes_to p)
    match o with Some r => log_info verbose (found_msg r) | None => [] end = [].
Proof.
  destruct o; [|done]. apply writes_console, log_info_console.
Qed.

Lemma writes_extract_txt p doc a b filepath :
  filepath <> p ->
  List.filter (writes_to p) (extract_txt doc a b filepath) = [].
Proof.
  intros Hne%eqb_false_ne. unfold extract_txt.
  destruct (mapM _ _); cbn; by rewrite Hne.
Qed.

(** Relative names that begin with different characters, neither of them
    a slash, stay different below a directory. *)
Lemma path_join_head_ne a c b c' b' :
  c <> "/"%char -> c' <> "/"%char -> c <> c' ->
  path_join a (String c b) <> path_join a (String c' b').
Proof.
  intros Hc Hc' Hne H.
  apply path_join_inj in H; [congruence|..].
  - unfold PyStr.startswith. cbn [String.prefix].
    destruct (ascii_dec "/" c); [congruence|done].
  - unfold PyStr.startswith. cbn [String.prefix].
    destruct (ascii_dec "/" c'); [congruence|done].
Qed.

Lemma safe_id_head c s :
  PyStr.lower_char c = "t"%char \/ PyStr.lower_char c = "f"%char ->
  exists rest, safe_id (String c s) = String c rest.
Proof.
  intros Hc. unfold safe_id. cbn [PyStr.replace1].
  destruct (Ascii.eqb_spec c " ") as [->|_].
  { by destruct Hc as [Hc|Hc]; vm_compute in Hc. }
  cbn [PyStr.replace1].
  destruct (Ascii.eqb_spec c "010") as [->|_]; [|eauto].
  by destruct Hc as [Hc|Hc]; vm_compute in Hc.
Qed.

(** The file of a record of the scan. *)
Lemma segment_file verbose doc r :
  r ∈ tlfs (fst (segment verbose doc)) ->
  exists c rest,
    tfl_file r = "pdf/" +:+ String c rest +:+ ".pdf"
    /\ safe_id (tfl_id r) = String c rest
    /\ (PyStr.lower_char c = "t"%char \/ PyStr.lower_char c = "f"%char).
Proof.
  intros (i & Hi)%list_elem_of_lookup_1.
  destruct (fact_seed _ _ (segment_facts verbose doc) i r Hi)
    as (k & text & _ & Hid & _ & _ & Hfile & _).
  apply parse_id_type in Hid as [Hh _].
  destruct (tfl_id r) as [|c s] eqn:E; [by vm_compute in Hh|].
  pose proof (is_heading_first_char _ _ Hh) as Hc.
  destruct (safe_id_head c s Hc) as [rest Hrest].
  exists c, rest. by rewrite Hfile, <- Hrest.
Qed.

(** The effects of a run that writes, on a document of at least 43
    pages. *)
Lemma completed_run doc input_path output_dir verbose no_text now :
  (43 <= length doc)%nat ->
  let st := fst (segment verbose doc) in
  let m := build_manifest (basename input_path) (Z.of_nat (length doc)) now
             (tlfs st) in
  let run := extract_tlfs (Some doc) input_path output_dir verbose false
               no_text now in
  outcome run = Completed m st
  /\ exists dirs info_line narrative_txt scan_log found,
       effects run
       = dirs ++ info_line
         ++ (SavePdf (path_join output_dir "pdf/narrative_body.pdf") 0 41
             :: narrative_txt)
         ++ scan_log ++ found
         ++ concat (write_tlf doc output_dir no_text <$> tlfs st)
         ++ write_manifest output_dir m
         ++ summary (basename input_path) (Z.of_nat (length doc)) st
       /\ (forall p, List.filter (writes_to p) dirs = [])
       /\ (forall p, List.filter (writes_to p) info_line = [])
       /\ (forall p, p <> path_join output_dir "text/narrative_body.txt" ->
                     List.filter (writes_to p) narrative_txt = [])
       /\ (forall p, List.filter (writes_to p) scan_log = [])
       /\ (forall p, List.filter (writes_to p) found = []).
Proof.
  intros Hlen st m run. unfold run, extract_tlfs.
  destruct (Z.ltb_spec (Z.of_nat (length doc)) 43) as [|_]; [lia|].
  pose proof (scan_pages_log_console verbose 42 (drop 42 doc) scan_init) as Hlog.
  unfold m, st, segment in *. destruct (scan_pages _ _ _ _) as [st' scan_log].
  cbn [fst snd outcome effects] in *. split; [done|].
  eexists _, _, _, scan_log, _. split; [reflexivity|].
  split; [|split; [|split; [|split]]]; intros p.
  - by destruct no_text.
  - apply writes_console, log_info_console.
  - intros Hp. destruct no_text; [done|]. by apply writes_extract_txt.
  - by apply writes_console.
  - apply writes_found.
Qed.

Lemma summary_writes p doc_name total_pages st :
  List.filter (writes_to p) (summary doc_name total_pages st) = [].
Proof. apply writes_console, summary_console. Qed.

Lemma manifest_writes p output_dir m :
  p <> path_join output_dir "manifest.json" ->
  p <> path_join output_dir "manifest.csv" ->
  List.filter (writes_to p) (write_manifest output_dir m) = [].
Proof.
  intros H1 H2. unfold write_manifest. cbn [List.filter writes_to].
  by rewrite !eqb_false_ne.
Qed.

Lemma write_tlf_writes p doc output_dir no_text r :
  p <> path_join output_dir ("text/" +:+ safe_id (tfl_id r) +:+ ".txt") ->
  List.filter (writes_to p) (write_tlf doc output_dir no_text r)
  = if String.eqb (path_join output_dir (tfl_file r)) p
    then [SavePdf (path_join output_dir (tfl_file r))
                  (first_page r - 1) (last_page r - 1)]
    else [].
Proof.
  intros Hp. unfold write_tlf. cbn [List.filter writes_to].
  assert (List.filter (writes_to p)
            (if no_text then []
             else extract_txt doc (first_page r - 1) (last_page r - 1)
                    (path_join output_dir
                       ("text/" +:+ safe_id (tfl_id r) +:+ ".txt"))) = [])
    as ->.
  { destruct no_text; [done|]. by apply writes_extract_txt. }
  by destruct (String.eqb _ p).
Qed.

(** The names the run gives its files, told apart by their first
    characters. *)
Lemma pdf_not_text output_dir a b :
  path_join output_dir ("pdf/" +:+ a) <> path_join output_dir ("text/" +:+ b).
Proof. rewrite !app_String. by apply path_join_head_ne. Qed.

Lemma pdf_not_manifest output_dir a b :
  path_join output_dir ("pdf/" +:+ a)
  <> path_join output_dir ("manifest." +:+ b).
Proof. rewrite !app_String. by apply path_join_head_ne. Qed.

Lemma text_not_manifest output_dir a b :
  path_join output_dir ("text/" +:+ a)
  <> path_join output_dir ("manifest." +:+ b).
Proof. rewrite !app_String. by apply path_join_head_ne. Qed.

Lemma json_not_csv output_dir :
  path_join output_dir "manifest.json" <> path_join output_dir "manifest.csv".
Proof. by intros ?%path_join_inj. Qed.

Lemma record_not_narrative verbose doc output_dir r :
  r ∈ tlfs (fst (segment verbose doc)) ->
  path_join output_dir (tfl_file r)
  <> path_join output_dir "pdf/narrative_body.pdf".
Proof.
  intros (c & rest & -> & _ & Hc)%segment_file Heq.
  apply path_join_inj in Heq; [|done..].
  rewrite !app_String, app_empty_l in Heq.
  injection Heq as Heq _.
  by destruct Hc as [Hc|Hc]; rewrite Heq in Hc; vm_compute in Hc.
Qed.

Lemma tlf_writes_none p doc output_dir no_text l :
  (forall r, r ∈ l ->
     p <> path_join output_dir (tfl_file r)
     /\ p <> path_join output_dir
               ("text/" +:+ safe_id (tfl_id r) +:+ ".txt")) ->
  List.filter (writes_to p) (concat (write_tlf doc output_dir no_text <$> l))
  = [].
Proof.
  induction l as [|r l IH]; intros H; [done|].
  rewrite fmap_cons. cbn [concat]. rewrite List.filter_app, IH.
  - destruct (H r) as [H1 H2]; [apply elem_of_cons; by left|].
    rewrite write_tlf_writes by done. by rewrite eqb_false_ne.
  - intros r' Hr'. apply H, elem_of_cons. by right.
Qed.

Lemma tlf_writes_one doc output_dir no_text l r :
  Forall (fun r' => exists x, tfl_file r' = "pdf/" +:+ x) l ->
  NoDup (tfl_file <$> l) -> r ∈ l ->
  List.filter (writes_to (path_join output_dir (tfl_file r)))
    (concat (write_tlf doc output_dir no_text <$> l))
  = [SavePdf (path_join output_dir (tfl_file r))
             (first_page r - 1) (last_page r - 1)].
Proof.
  intros Hpdf Hnd Hr.
  assert (forall r' b, r' ∈ l ->
            path_join output_dir (tfl_file r)
            <> path_join output_dir ("text/" +:+ b)) as Htxt.
  { intros r' b _. rewrite Forall_forall in Hpdf.
    destruct (Hpdf r Hr) as [x ->]. apply pdf_not_text. }
  assert (forall r', r' ∈ l -> tfl_file r' <> tfl_file r ->
            path_join output_dir (tfl_file r)
            <> path_join output_dir (tfl_file r')) as Hne.
  { intros r' Hr' Hd Heq. rewrite Forall_forall in Hpdf.
    destruct (Hpdf r Hr) as [x Hx]. destruct (Hpdf r' Hr') as [x' Hx'].
    apply Hd. symmetry. revert Heq. rewrite Hx, Hx'. by apply path_join_inj. }
  clear Hpdf.
  induction l as [|r0 l IH]; [by apply elem_of_nil in Hr|].
  rewrite fmap_cons in Hnd. apply NoDup_cons in Hnd as [Hnotin Hnd].
  rewrite fmap_cons. cbn [concat]. rewrite List.filter_app.
  rewrite write_tlf_writes by (eapply Htxt, elem_of_cons; by left).
  destruct (decide (tfl_file r0 = tfl_file r)) as [Heq|Hd].
  - assert (r0 = r) as ->.
    { apply elem_of_cons in Hr as [->|Hr]; [done|]. exfalso. apply Hnotin.
      rewrite Heq. apply list_elem_of_fmap. eauto. }
    rewrite String.eqb_refl. rewrite tlf_writes_none; [done|].
    intros r' Hr'. split.
    + apply Hne; [apply elem_of_cons; by right|]. intros Hsame.
      apply Hnotin. rewrite <- Hsame. apply list_elem_of_fmap. eauto.
    + eapply Htxt, elem_of_cons. by right.
  - apply elem_of_cons in Hr as [->|Hr]; [done|].
    rewrite eqb_false_ne.
    2:{ intros Heq. eapply Hne; [apply elem_of_cons; by left|done|done]. }
    apply IH; [done|done|..].
    + intros r' b Hr'. eapply Htxt, elem_of_cons. by right.
    + intros r' Hr'. apply Hne, elem_of_cons. by right.
Qed.

Lemma segment_files_pdf verbose doc :
  Forall (fun r => exists x, tfl_file r = "pdf/" +:+ x)
         (tlfs (fst (segment verbose doc))).
Proof.
  apply Forall_forall. intros r (c & rest & -> & _)%segment_file. eauto.
Qed.

(** Two names of the run that differ in their first character. *)
Ltac differ :=
  rewrite ?app_String;
  first [by apply path_join_head_ne
        |apply not_eq_sym; by apply path_join_head_ne].

Section last_writes.
Context (doc : list string) (input_path output_dir : string).
Context (verbose no_text : bool) (now : DateTime).
Context (Hlen : (43 <= length doc)%nat).

Let st := fst (segment verbose doc).
Let m := build_manifest (basename input_path) (Z.of_nat (length doc)) now
           (tlfs st).
Let run := extract_tlfs (Some doc) input_path output_dir verbose false
             no_text now.

Lemma last_write_manifest :
  last_write (path_join output_dir "manifest.json") (effects run)
  = Some (WriteJson (path_join output_dir "manifest.json") m).
Proof.
  destruct (completed_run doc input_path output_dir verbose no_text now Hlen)
    as (_ & dirs & info_line & ntxt & scan_log & found & Heff
        & Hdirs & Hinfo & Hntxt & Hscan & Hfound).
  unfold run, last_write. rewrite Heff, !List.filter_app.
  rewrite Hdirs, Hinfo, Hscan, Hfound, summary_writes.
  cbn [List.filter writes_to write_manifest].
  rewrite Hntxt by differ.
  rewrite (eqb_false_ne (path_join output_dir "pdf/narrative_body.pdf"))
    by differ.
  rewrite String.eqb_refl.
  rewrite (eqb_false_ne _ _ (not_eq_sym (json_not_csv output_dir))).
  rewrite tlf_writes_none; [done|].
  intros r (x & Hx)%(proj1 (Forall_forall _ _) (segment_files_pdf verbose doc)).
  rewrite Hx. split; differ.
Qed.

Lemma last_write_narrative :
  last_write (path_join output_dir "pdf/narrative_body.pdf") (effects run)
  = Some (SavePdf (path_join output_dir "pdf/narrative_body.pdf") 0 41).
Proof.
  destruct (completed_run doc input_path output_dir verbose no_text now Hlen)
    as (_ & dirs & info_line & ntxt & scan_log & found & Heff
        & Hdirs & Hinfo & Hntxt & Hscan & Hfound).
  unfold run, last_write. rewrite Heff, !List.filter_app.
  rewrite Hdirs, Hinfo, Hscan, Hfound, summary_writes.
  cbn [List.filter writes_to]. rewrite String.eqb_refl.
  rewrite Hntxt by differ.
  rewrite manifest_writes by differ.
  rewrite tlf_writes_none; [done|].
  intros r Hr. split.
  - apply not_eq_sym. by eapply record_not_narrative.
  - differ.
Qed.

Lemma last_write_record r :
  NoDup (tfl_file <$> tlfs st) -> r ∈ tlfs st ->
  last_write (path_join output_dir (tfl_file r)) (effects run)
  = Some (SavePdf (path_join output_dir (tfl_file r))
                  (first_page r - 1) (last_page r - 1)).
Proof.
  intros Hnd Hr.
  destruct (completed_run doc input_path output_dir verbose no_text now Hlen)
    as (_ & dirs & info_line & ntxt & scan_log & found & Heff
        & Hdirs & Hinfo & Hntxt & Hscan & Hfound).
  unfold run, last_write. rewrite Heff, !List.filter_app.
  rewrite Hdirs, Hinfo, Hscan, Hfound, summary_writes.
  rewrite (tlf_writes_one doc output_dir no_text _ r
             (segment_files_pdf verbose doc) Hnd Hr).
  cbn [List.filter writes_to].
  rewrite (eqb_false_ne _ _
             (not_eq_sym (record_not_narrative verbose doc output_dir r Hr))).
  destruct (proj1 (Forall_forall _ _) (segment_files_pdf verbose doc) r Hr)
    as [x Hx].
  rewrite Hntxt by (rewrite Hx; differ).
  rewrite manifest_writes by (rewrite Hx; differ).
  done.
Qed.
End last_writes.

Lemma segment_record_range verbose doc r :
  r ∈ tlfs (fst (segment verbose doc)) ->
  first_page r <= last_page r
  /\ page_count r = last_page r - first_page r + 1.
Proof.
  rewrite segment_state. intros (i & Hi)%list_elem_of_lookup_1.
  pose proof (inv_tiles _ _ _ (state_after_inv doc (length (tlf_pages doc)))) as H.
  destruct (first_heading _) as [j|]; [|by rewrite H, lookup_nil in Hi].
  destruct H as [H _].
  destruct (tiles_lookup _ _ _ _ _ H Hi) as (_ & Hab & _ & Hc). done.
Qed.

Lemma gap_line_manifest_json m :
  is_Some (gap_line (j_tlfs (manifest_json m))).
Proof.
  destruct (gap_line _) as [line|] eqn:E; [eauto|exfalso].
  apply gap_line_None in E as (a & b & Ha & Hb & Hor). cbn in Ha, Hb.
  rewrite fmap_last in Hb.
  destruct (m_tlfs m) as [|r l]; [done|]. cbn in Ha. injection Ha as <-.
  destruct (last (r :: l)) as [r'|]; [|done]. cbn in Hb. injection Hb as <-.
  by destruct Hor.
Qed.

Lemma clean_report_passes manifest rep :
  clean rep -> is_Some (gap_line (j_tlfs manifest)) ->
  v_ending (print_report manifest rep) = Returned
  /\ last (v_effects (print_report manifest rep))
     = Some (Print "Validation PASSED (7/7 checks )").
Proof.
  intros [Hf Hm] [line Hline]. unfold print_report.
  assert (check rep no_page_gaps = true) as ->.
  { apply not_false_iff_true. rewrite check_false, Hf. apply not_elem_of_nil. }
  rewrite Hline. cbn. split; [done|].
  rewrite <- (verdict_passed rep) by by apply validation_passed_iff.
  apply last_app_keeps, last_cons_keeps, report_tail_last.
Qed.

Lemma env_of_writes_reads_back docs now output_dir :
  reads_back (env_of_writes docs now output_dir) output_dir.
Proof.
  split.
  - intros es path a b H _. unfold env_of_writes. cbn [env_fs]. by rewrite H.
  - intros es p m H. unfold env_of_writes. cbn [env_manifest]. by rewrite H.
Qed.

(** ** Extraction followed by validation *)

(** X11. Round trip through the files: when [main] runs an extraction
    with [--validate] (and without [--dry-run]) on a document of at least
    43 pages, the files read back as the run wrote them, and no two records
    were given the same output file, the validation that follows passes:
    [main] ends normally and the last line it prints is the verdict
    "Validation PASSED (7/7 checks )". *)
Theorem extract_then_validate_passes env args input_path doc :
  input_given args = Some input_path ->
  env_docs env input_path = Some doc ->
  (43 <= length doc)%nat ->
  arg_dry_run args = false ->
  arg_validate args = true ->
  reads_back env (arg_output args) ->
  NoDup (tfl_file <$> tlfs (fst (segment (arg_verbose args) doc))) ->
  m_exit (main env args) = ExitOk
  /\ last (m_effects (main env args))
     = Some (Print "Validation PASSED (7/7 checks )").
Proof.
  intros Hin Hdoc Hlen Hdry Hval [Hfs Hman] Hnd.
  unfold main. rewrite Hin, Hdoc, Hdry, Hval. cbn [andb negb].
  set (out := arg_output args). set (verbose := arg_verbose args).
  set (run := extract_tlfs (Some doc) input_path out verbose false
                (arg_no_text args) (env_now env)).
  set (m := build_manifest (basename input_path) (Z.of_nat (length doc))
              (env_now env) (tlfs (fst (segment verbose doc)))).
  rewrite (Hman (effects run) _ m)
    by apply (last_write_manifest doc input_path out verbose _ _ Hlen).
  cbn [run_validation_io v_effects v_ending m_exit m_effects].
  destruct (run_validation_cases (env_fs env (effects run)) out
              (manifest_json m)) as [(_ & _ & _ & _ & Hclean)|[Hbad _]].
  - destruct (clean_report_passes (manifest_json m) _ Hclean
                (gap_line_manifest_json m)) as [-> Hlast].
    split; [done|]. by apply last_app_keeps, last_cons_keeps.
  - exfalso. apply Hbad. split; [|split].
    + cbn. rewrite (Hfs _ _ 0 41); [done| |lia].
      apply (last_write_narrative doc input_path out verbose _ _ Hlen).
    + cbn. apply Forall_fmap, Forall_forall. intros r Hr.
      unfold file_matches. cbn.
      destruct (segment_record_range verbose doc r Hr) as [Hle Hc].
      rewrite (Hfs _ _ (first_page r - 1) (last_page r - 1)); [|  |lia].
      * f_equal. lia.
      * by apply (last_write_record doc input_path out verbose _ _ Hlen).
    + apply manifest_round_trip.
Qed.

(** The sample document, extracted and validated in one call. *)
Lemma extract_then_validate_passes_witness :
  let env := env_of_writes
               (fun p => if String.eqb p "csr.pdf" then Some doc_sample else None)
               (mkDateTime 2023 6 2 12 34 56 7) "out" in
  let args := mkArgs (Some "csr.pdf") "out" false false true false in
  m_exit (main env args) = ExitOk
  /\ last (m_effects (main env args))
     = Some (Print "Validation PASSED (7/7 checks )").
Proof.
  intros env args.
  apply (extract_then_validate_passes env args "csr.pdf" doc_sample).
  - reflexivity.
  - reflexivity.
  - vm_compute. lia.
  - reflexivity.
  - reflexivity.
  - apply env_of_writes_reads_back.
  - vm_compute. apply NoDup_cons. split; [|apply NoDup_singleton].
    intros H%list_elem_of_singleton. discriminate H.
Defined.


(** ** What [main] leaves alone *)

Lemma report_head_console manifest rep :
  Forall (fun e => is_fs_write e = false) (report_head manifest rep).
Proof.
  unfold report_head.
  destruct (check rep files_exist), (check rep files_non_empty),
           (check rep page_count_match); repeat constructor.
Qed.

Lemma report_tail_console manifest rep :
  Forall (fun e => is_fs_write e = false) (report_tail manifest rep).
Proof.
  unfold report_tail. repeat apply Forall_app_2.
  - destruct (check rep no_page_overlaps); repeat constructor.
  - destruct (check rep narrative_ok); repeat constructor.
  - destruct (check rep pdfs_readable); repeat constructor.
  - apply Forall_fmap. by apply Forall_true.
  - repeat constructor.
Qed.

Lemma validation_console mf fs output_dir :
  Forall (fun e => is_fs_write e = false)
         (v_effects (run_validation_io mf fs output_dir)).
Proof.
  destruct mf as [| |manifest]; cbn; [repeat constructor..|].
  constructor; [done|]. unfold print_report.
  destruct (check _ no_page_gaps); [destruct (gap_line _)|];
    cbn [v_effects].
  - apply Forall_app_2; [apply report_head_console|].
    constructor; [done|apply report_tail_console].
  - apply report_head_console.
  - apply Forall_app_2; [apply report_head_console|apply report_tail_console].
Qed.

Lemma dry_run_console doc input_path output_dir verbose no_text now :
  Forall (fun e => is_fs_write e = false)
    (effects (extract_tlfs doc input_path output_dir verbose true no_text now)).
Proof.
  unfold extract_tlfs. destruct doc as [doc|]; [|repeat constructor].
  destruct (Z.ltb_spec (Z.of_nat (length doc)) 43) as [|Hlen];
    [repeat constructor|].
  pose proof (scan_pages_log_console verbose 42 (drop 42 doc) scan_init) as Hlog.
  unfold segment. destruct (scan_pages _ _ _ _) as [st scan_log].
  cbn [fst snd effects app] in *.
  apply Forall_app_2; [apply log_info_console|].
  apply Forall_app_2; [done|].
  apply Forall_app_2; [|apply summary_console].
  destruct (current_record st); [apply log_info_console|constructor].
Qed.

(** X12. [main] touches the file system only when an input is given and
    [--dry-run] is off: without [--input] (or with an empty one), and in
    every dry run, none of its effects creates a directory or writes a
    file. In a dry run [--validate] is ignored without a word: the run is
    the same as without it. *)
Theorem main_writes_only_on_real_run env args :
  input_given args = None \/ arg_dry_run args = true ->
  Forall (fun e => is_fs_write e = false) (m_effects (main env args))
  /\ (arg_dry_run args = true -> is_Some (input_given args) ->
      main env args = main env (without_validate args)).
Proof.
  intros H. split.
  - unfold main. destruct (input_given args) as [p|].
    + destruct H as [H|H]; [done|]. rewrite H, andb_false_r. cbn.
      apply dry_run_console.
    + destruct (arg_validate args); cbn; [apply validation_console|constructor].
  - intros Hdry [p Hp]. unfold main, input_given in *. cbn.
    rewrite Hp, Hdry, andb_false_r. done.
Qed.

(** A dry run of the sample document with [--validate]. *)
Lemma main_writes_only_on_real_run_witness :
  let env := env_of_writes
               (fun p => if String.eqb p "csr.pdf" then Some doc_sample else None)
               (mkDateTime 2023 6 2 12 34 56 7) "out" in
  let args := mkArgs (Some "csr.pdf") "out" true true true false in
  Forall (fun e => is_fs_write e = false) (m_effects (main env args))
  /\ (arg_dry_run args = true -> is_Some (input_given args) ->
      main env args = main env (without_validate args)).
Proof.
  intros env args. apply (main_writes_only_on_real_run env args).
  right. reflexivity.
Defined.

(** ** Validation after an extraction that gave up *)

Lemma validate_tlfs_ext fs fs' output_dir e l rep :
  (forall p, fs p = fs' p) ->
  validate_tlfs fs output_dir e l rep = validate_tlfs fs' output_dir e l rep.
Proof.
  intros H. revert e rep. induction l as [|t rest IH]; intros e rep; [done|].
  cbn. unfold check_file. rewrite H. apply IH.
Qed.

Lemma run_validation_io_ext mf fs fs' output_dir :
  (forall p, fs p = fs' p) ->
  run_validation_io mf fs output_dir = run_validation_io mf fs' output_dir.
Proof.
  intros H. destruct mf as [| |manifest]; [done..|].
  unfold run_validation_io, run_validation.
  rewrite (validate_tlfs_ext fs fs') by done.
  unfold validate_narrative. destruct (j_narrative manifest); [|done].
  by rewrite H.
Qed.

Lemma aborted_run doc input_path output_dir verbose dry_run no_text now :
  (forall pages, doc = Some pages -> (length pages < 43)%nat) ->
  let run := extract_tlfs doc input_path output_dir verbose dry_run no_text
               now in
  Forall (fun e => is_file_write e = false) (effects run)
  /\ exists msg, last (effects run) = Some (Log ERROR msg).
Proof.
  intros Hshort. unfold extract_tlfs. destruct doc as [doc|].
  - specialize (Hshort doc eq_refl).
    destruct (Z.ltb_spec (Z.of_nat (length doc)) 43) as [_|]; [|lia].
    cbn [effects]. split.
    + destruct dry_run, no_text; repeat constructor.
    + eexists. apply last_snoc.
  - cbn. split; [repeat constructor|eauto].
Qed.

(** X13. [--validate] does not depend on the extraction having worked.
    When the input is missing or has fewer than 43 pages, [main] logs the
    error of the extraction and then validates whatever the output
    directory already holds: it prints, and ends, exactly as a standalone
    [--validate] of that directory would. *)
Theorem validation_after_aborted_extraction env args input_path :
  input_given args = Some input_path ->
  (forall pages, env_docs env input_path = Some pages ->
                 (length pages < 43)%nat) ->
  arg_validate args = true ->
  arg_dry_run args = false ->
  reads_only_files env ->
  exists pre msg,
    m_effects (main env args) = pre ++ m_effects (main env (validate_only args))
    /\ last pre = Some (Log ERROR msg)
    /\ Forall (fun e => is_file_write e = false) pre
    /\ m_exit (main env args) = m_exit (main env (validate_only args)).
Proof.
  intros Hin Hshort Hval Hdry Henv.
  destruct (aborted_run (env_docs env input_path) input_path (arg_output args)
              (arg_verbose args) false (arg_no_text args) (env_now env) Hshort)
    as [Hquiet [msg Hlast]].
  destruct (Henv _ Hquiet) as [Hman Hfs].
  eexists _, msg. unfold main at 1 3. rewrite Hin, Hval, Hdry. cbn [andb negb].
  cbn [m_effects m_exit]. rewrite Hman, (run_validation_io_ext _ _ _ _ Hfs).
  unfold main, validate_only, input_given. cbn.
  split; [reflexivity|]. split; [exact Hlast|]. split; [exact Hquiet|done].
Qed.

Lemma env_of_writes_only_files docs now output_dir :
  reads_only_files (env_of_writes docs now output_dir).
Proof.
  intros es Hes.
  assert (forall p, last_write p es = None) as Hnone.
  { intros p. unfold last_write. rewrite keep_none; [done|].
    eapply Forall_impl; [exact Hes|]. by intros []. }
  unfold env_of_writes. cbn [env_manifest env_fs].
  split; [|intros p]; by rewrite Hnone.
Qed.

(** A document of one page, with [--validate]. *)
Lemma validation_after_aborted_extraction_witness :
  let env := env_of_writes
               (fun p => if String.eqb p "short.pdf" then Some ["one page"]
                         else None)
               (mkDateTime 2023 6 2 12 34 56 7) "out" in
  let args := mkArgs (Some "short.pdf") "out" false false true false in
  exists pre msg,
    m_effects (main env args) = pre ++ m_effects (main env (validate_only args))
    /\ last pre = Some (Log ERROR msg)
    /\ Forall (fun e => is_file_write e = false) pre
    /\ m_exit (main env args) = m_exit (main env (validate_only args)).
Proof.
  intros env args.
  apply (validation_after_aborted_extraction env args "short.pdf").
  - reflexivity.
  - intros pages [= <-]. cbn. lia.
  - reflexivity.
  - reflexivity.
  - apply env_of_writes_only_files.
Defined.


(** * Text extraction *)







(** * A record whose file is written twice *)

Lemma tlf_writes_last doc output_dir no_text l1 b l2 :
  Forall (fun r => exists x, tfl_file r = "pdf/" +:+ x) (l1 ++ b :: l2) ->
  (forall c, c ∈ l2 -> tfl_file c <> tfl_file b) ->
  last_write (path_join output_dir (tfl_file b))
    (concat (write_tlf doc output_dir no_text <$> l1 ++ b :: l2))
  = Some (SavePdf (path_join output_dir (tfl_file b))
                  (first_page b - 1) (last_page b - 1)).
Proof.
  intros Hpdf Hl2. rewrite Forall_app, Forall_cons in Hpdf.
  destruct Hpdf as (_ & [x Hx] & Hpdf2). rewrite Forall_forall in Hpdf2.
  rewrite fmap_app, concat_app. apply last_write_app_r.
  rewrite fmap_cons. cbn [concat]. rewrite last_write_app_l.
  - unfold last_write. rewrite write_tlf_writes by (rewrite Hx; differ).
    by rewrite String.eqb_refl.
  - apply tlf_writes_none. intros c Hc. split.
    + destruct (Hpdf2 c Hc) as [y Hy]. intros Heq.
      apply (Hl2 c Hc). symmetry. revert Heq. rewrite Hx, Hy.
      by apply path_join_inj.
    + rewrite Hx. differ.
Qed.

Lemma last_write_overwritten doc input_path output_dir verbose no_text now
    l1 b l2 :
  (43 <= length doc)%nat ->
  tlfs (fst (segment verbose doc)) = l1 ++ b :: l2 ->
  (forall c, c ∈ l2 -> tfl_file c <> tfl_file b) ->
  last_write (path_join output_dir (tfl_file b))
    (effects (extract_tlfs (Some doc) input_path output_dir verbose false
                no_text now))
  = Some (SavePdf (path_join output_dir (tfl_file b))
                  (first_page b - 1) (last_page b - 1)).
Proof.
  intros Hlen Hsplit Hl2.
  destruct (completed_run doc input_path output_dir verbose no_text now Hlen)
    as (_ & dirs & info_line & ntxt & scan_log & found & Heff & _).
  pose proof (segment_files_pdf verbose doc) as Hpdf.
  rewrite Heff, Hsplit in *.
  do 5 apply last_write_app_r.
  assert (exists x, tfl_file b = "pdf/" +:+ x) as [x Hx].
  { rewrite Forall_app, Forall_cons in Hpdf. tauto. }
  rewrite last_write_app_l; [by apply tlf_writes_last|].
  rewrite List.filter_app, summary_writes, manifest_writes;
    [done|rewrite Hx; differ..].
Qed.

Lemma file_mismatch_msg fs output_dir e l rep t len :
  t ∈ l ->
  fs (path_join output_dir (default "" (j_file t))) = Pdf len ->
  len <> default 0 (j_page_count t) ->
  cross_mark +:+ " " +:+ "Page count mismatch: "
    +:+ basename (path_join output_dir (default "" (j_file t)))
    +:+ " has " +:+ PyStr.str len +:+ " pages but manifest says "
    +:+ PyStr.str (default 0 (j_page_count t))
  ∈ msgs (validate_tlfs fs output_dir e l rep).
Proof.
  intros Ht Hfs Hne. revert e rep.
  induction l as [|t' rest IH]; intros e rep; [by apply elem_of_nil in Ht|].
  apply elem_of_cons in Ht as [<-|Ht]; cbn [validate_tlfs].
  - apply validate_tlfs_msgs. unfold check_file. rewrite Hfs.
    destruct (Z.eqb_spec len (default 0 (j_page_count t))); [done|].
    cbn. apply elem_of_snoc. by right.
  - by apply IH.
Qed.

Lemma print_report_returned manifest rep :
  is_Some (gap_line (j_tlfs manifest)) ->
  v_ending (print_report manifest rep) = Returned
  /\ last (v_effects (print_report manifest rep)) = Some (Print (verdict rep))
  /\ forall s, s ∈ msgs rep -> Print s ∈ v_effects (print_report manifest rep).
Proof.
  intros [line Hline]. unfold print_report. rewrite Hline.
  assert (forall s, s ∈ msgs rep -> Print s ∈ report_tail manifest rep) as Hm.
  { intros s Hs. unfold report_tail. rewrite !elem_of_app.
    do 3 right. left. apply list_elem_of_fmap. eauto. }
  destruct (check rep no_page_gaps); cbn [v_ending v_effects].
  - split; [done|]. split.
    + apply last_app_keeps, last_cons_keeps, report_tail_last.
    + intros s Hs. rewrite !elem_of_app. auto.
  - split; [done|]. split.
    + apply last_app_keeps, report_tail_last.
    + intros s Hs. rewrite elem_of_app. auto.
Qed.

(** X15. Extraction can produce output that its own validation rejects.
    When a record [a] has the same output file as a later record [b] (the
    last one with that file) and the two differ in their page count, as
    when a TLF id comes back after another TLF, the PDF of [a] is
    overwritten by that of [b]; with files that read back as written, the
    validation that [main] runs next reports the page count mismatch for
    [a] and ends with a verdict FAILED. *)
Theorem overwritten_file_fails_validation env args input_path doc a b l1 l2 :
  input_given args = Some input_path ->
  env_docs env input_path = Some doc ->
  (43 <= length doc)%nat ->
  arg_dry_run args = false ->
  arg_validate args = true ->
  reads_back env (arg_output args) ->
  tlfs (fst (segment (arg_verbose args) doc)) = l1 ++ b :: l2 ->
  (forall c, c ∈ l2 -> tfl_file c <> tfl_file b) ->
  a ∈ l1 -> tfl_file a = tfl_file b -> page_count a <> page_count b ->
  m_exit (main env args) = ExitOk
  /\ Print (cross_mark +:+ " " +:+ "Page count mismatch: "
            +:+ basename (path_join (arg_output args) (tfl_file a))
            +:+ " has " +:+ PyStr.str (page_count b)
            +:+ " pages but manifest says " +:+ PyStr.str (page_count a))
     ∈ m_effects (main env args)
  /\ exists k : nat,
       (k < 7)%nat
       /\ last (m_effects (main env args))
          = Some (Print ("Validation FAILED (" +:+ PyStr.str (Z.of_nat k)
                         +:+ "/7 checks passed)")).
Proof.
  intros Hin Hdoc Hlen Hdry Hval [Hfs Hman] Hsplit Hl2 Ha Hfile Hcount.
  unfold main. rewrite Hin, Hdoc, Hdry, Hval. cbn [andb negb].
  set (out := arg_output args) in *. set (verbose := arg_verbose args) in *.
  set (run := extract_tlfs (Some doc) input_path out verbose false
                (arg_no_text args) (env_now env)).
  set (m := build_manifest (basename input_path) (Z.of_nat (length doc))
              (env_now env) (tlfs (fst (segment verbose doc)))).
  rewrite (Hman (effects run) _ m)
    by apply (last_write_manifest doc input_path out verbose _ _ Hlen).
  cbn [run_validation_io v_effects v_ending m_exit m_effects].
  set (rep := run_validation (env_fs env (effects run)) out (manifest_json m)).
  destruct (print_report_returned (manifest_json m) rep
              (gap_line_manifest_json m)) as (-> & Hlast & Hmsgs).
  assert (b ∈ tlfs (fst (segment verbose doc))) as Hb.
  { rewrite Hsplit, elem_of_app, elem_of_cons. auto. }
  destruct (segment_record_range verbose doc b Hb) as [Hle Hc].
  assert (env_fs env (effects run) (path_join out (tfl_file a))
          = Pdf (page_count b)) as Hread.
  { rewrite Hfile.
    rewrite (Hfs _ _ (first_page b - 1) (last_page b - 1)); [| |lia].
    - f_equal. lia.
    - by eapply last_write_overwritten. }
  assert (cross_mark +:+ " " +:+ "Page count mismatch: "
            +:+ basename (path_join out (tfl_file a))
            +:+ " has " +:+ PyStr.str (page_count b)
            +:+ " pages but manifest says " +:+ PyStr.str (page_count a)
          ∈ msgs rep) as Hmsg.
  { apply (file_mismatch_msg (env_fs env (effects run)) out None
             (j_tlfs (manifest_json m)) _
             (mkTlfJson (tfl_id a) (Some (pages_in_source a))
                        (Some (tfl_file a)) (Some (page_count a)))).
    - cbn. apply list_elem_of_fmap. exists a. split; [done|].
      rewrite Hsplit, elem_of_app. auto.
    - exact Hread.
    - cbn. congruence. }
  split; [done|]. split.
  - apply elem_of_app. right. apply elem_of_cons. right. by apply Hmsgs.
  - assert (validation_passed rep = false) as Hfailed.
    { apply not_true_iff_false. intros Hp.
      destruct (run_validation_cases (env_fs env (effects run)) out
                  (manifest_json m)) as [(_ & _ & _ & _ & _ & Hnil)|[_ [Hd _]]].
      - fold rep in Hnil. rewrite Hnil in Hmsg. by apply elem_of_nil in Hmsg.
      - apply validation_passed_iff in Hp. by apply Hd. }
    destruct (verdict_failed rep Hfailed) as [Hk Hv].
    exists (passed rep). split; [done|].
    rewrite <- Hv. by apply last_app_keeps, last_cons_keeps.
Qed.

(** The table of page 43 comes back on pages 45-46: its first PDF, of one
    page, is overwritten by the second, of two. *)
Lemma overwritten_file_fails_validation_witness :
  let env := env_of_writes
               (fun p => if String.eqb p "csr.pdf" then Some doc_repeated_table
                         else None)
               (mkDateTime 2023 6 2 12 34 56 7) "out" in
  let args := mkArgs (Some "csr.pdf") "out" false false true false in
  m_exit (main env args) = ExitOk
  /\ Print (cross_mark +:+ " Page count mismatch: Table_14.1.1.pdf has 2"
            +:+ " pages but manifest says 1")
     ∈ m_effects (main env args)
  /\ exists k : nat,
       (k < 7)%nat
       /\ last (m_effects (main env args))
          = Some (Print ("Validation FAILED (" +:+ PyStr.str (Z.of_nat k)
                         +:+ "/7 checks passed)")).
Proof.
  intros env args.
  apply (overwritten_file_fails_validation env args "csr.pdf"
           doc_repeated_table
           (mkTlf "Table 14.1.1" (Some "table") "Demographics"
                  "pdf/Table_14.1.1.pdf" (43, 43) 1 "" None)
           (mkTlf "Table 14.1.1" (Some "table") "Demographics (continued)"
                  "pdf/Table_14.1.1.pdf" (45, 46) 2 "" None)
           [mkTlf "Table 14.1.1" (Some "table") "Demographics"
                  "pdf/Table_14.1.1.pdf" (43, 43) 1 "" None;
            mkTlf "Figure 14.2-1" (Some "figure") "Kaplan-Meier plot"
                  "pdf/Figure_14.2-1.pdf" (44, 44) 1 "" None]
           []).
  - reflexivity.
  - reflexivity.
  - vm_compute. lia.
  - reflexivity.
  - reflexivity.
  - apply env_of_writes_reads_back.
  - vm_compute. reflexivity.
  - intros c Hc. by apply elem_of_nil in Hc.
  - apply elem_of_cons. by left.
  - reflexivity.
  - cbn. lia.
Defined.


(** * The timestamp, for every clock value *)

(** When the clock shows a whole second, the slice of line 322 cuts into
    the time of day. *)
Lemma extraction_date_whole_second t :
  microsecond t = 0 ->
  extraction_date_of t
  = zfill 4 (year t) +:+ "-" +:+ zfill 2 (month t) +:+ "-" +:+ zfill 2 (day t)
    +:+ "T" +:+ String (digit_char (hour t / 10 mod 10)) "Z".
Proof.
  intros Hus. unfold extraction_date_of, isoformat. rewrite Hus.
  cbv [Z.eqb zfill String.append PyStr.drop_last PyStr.stake String.length
       Nat.sub].
  reflexivity.
Qed.

(** X16. The timestamp of the manifest has the form
    [YYYY-MM-DDTHH:MM:SSZ] exactly when the clock does not show a whole
    second. On a whole second (microsecond 0) it is cut to 13 characters:
    the date, [T], the first digit of the hour and [Z]. *)
Theorem extraction_date_well_formed_iff t :
  valid_datetime t ->
  (is_iso_utc_seconds (extraction_date_of t) = true <-> microsecond t <> 0)
  /\ (microsecond t = 0 ->
      String.length (extraction_date_of t) = 13%nat
      /\ extraction_date_of t
         = zfill 4 (year t) +:+ "-" +:+ zfill 2 (month t) +:+ "-"
           +:+ zfill 2 (day t) +:+ "T"
           +:+ String (digit_char (hour t / 10 mod 10)) "Z").
Proof.
  intros Hvalid.
  assert (microsecond t = 0 ->
          String.length (extraction_date_of t) = 13%nat
          /\ is_iso_utc_seconds (extraction_date_of t) = false) as Hzero.
  { intros Hus. rewrite (extraction_date_whole_second t Hus).
    cbv [zfill String.append]. split; reflexivity. }
  split.
  - split.
    + intros Hiso Hus. destruct (Hzero Hus) as [_ Hno]. congruence.
    + by apply extraction_date_fraction_iso.
  - intros Hus. split; [by apply Hzero|by apply extraction_date_whole_second].
Qed.

(** Noon and seven microseconds. *)
Lemma extraction_date_well_formed_iff_witness :
  let t := mkDateTime 2023 6 2 12 0 0 7 in
  (is_iso_utc_seconds (extraction_date_of t) = true <-> microsecond t <> 0)
  /\ (microsecond t = 0 ->
      String.length (extraction_date_of t) = 13%nat
      /\ extraction_date_of t
         = zfill 4 (year t) +:+ "-" +:+ zfill 2 (month t) +:+ "-"
           +:+ zfill 2 (day t) +:+ "T"
           +:+ String (digit_char (hour t / 10 mod 10)) "Z").
Proof.
  intros t. apply (extraction_date_well_formed_iff t).
  unfold valid_datetime. cbn. lia.
Defined.


(** * The text fields of a record *)

(** ** [strip] *)

Lemma rstrip_cons c s :
  PyStr.rstrip s <> "" -> PyStr.rstrip (String c s) = String c (PyStr.rstrip s).
Proof. intros H. cbn [PyStr.rstrip]. by destruct (PyStr.rstrip s). Qed.

Lemma rstrip_idem s : PyStr.rstrip (PyStr.rstrip s) = PyStr.rstrip s.
Proof.
  induction s as [|c s IH]; [done|]. cbn [PyStr.rstrip].
  destruct (PyStr.rstrip s) as [|d r] eqn:E.
  - destruct (PyStr.is_space c) eqn:Ec; [done|]. cbn. by rewrite Ec.
  - rewrite rstrip_cons; rewrite IH; done.
Qed.

Lemma rstrip_head c s :
  PyStr.is_space c = false ->
  exists r, PyStr.rstrip (String c s) = String c r.
Proof.
  intros Hc. cbn [PyStr.rstrip]. destruct (PyStr.rstrip s); [|eauto].
  rewrite Hc. eauto.
Qed.

Lemma lstrip_head s :
  PyStr.lstrip s = ""
  \/ exists c r, PyStr.lstrip s = String c r /\ PyStr.is_space c = false.
Proof.
  induction s as [|c s IH]; [by left|]. cbn.
  destruct (PyStr.is_space c) eqn:Ec; [done|]. right. eauto.
Qed.

Lemma strip_idem s : trimmed (PyStr.strip s).
Proof.
  unfold trimmed, PyStr.strip.
  destruct (lstrip_head s) as [->|(c & r & -> & Hc)]; [done|].
  destruct (rstrip_head c r Hc) as [r' Hr']. rewrite Hr'.
  cbn [PyStr.lstrip]. rewrite Hc, <- Hr'. apply rstrip_idem.
Qed.

Lemma all_chars_lstrip p s :
  all_chars p s = true -> all_chars p (PyStr.lstrip s) = true.
Proof.
  induction s as [|c s IH]; [done|]. cbn.
  intros [Hc Hs]%andb_true_iff. destruct (PyStr.is_space c); [auto|].
  cbn. by rewrite Hc, Hs.
Qed.

Lemma all_chars_rstrip p s :
  all_chars p s = true -> all_chars p (PyStr.rstrip s) = true.
Proof.
  induction s as [|c s IH]; [done|]. cbn [all_chars PyStr.rstrip].
  intros [Hc Hs]%andb_true_iff. specialize (IH Hs).
  destruct (PyStr.rstrip s) as [|d r].
  - destruct (PyStr.is_space c); [done|]. cbn. by rewrite Hc.
  - change (all_chars p (String c (String d r)))
      with (p c && all_chars p (String d r)).
    by rewrite Hc, IH.
Qed.

Lemma all_chars_strip p s :
  all_chars p s = true -> all_chars p (PyStr.strip s) = true.
Proof. intros H. by apply all_chars_rstrip, all_chars_lstrip. Qed.

(** ** [splitlines] *)

Lemma splitlines_no_linebreak s :
  Forall (fun l => no_linebreak l = true) (PyStr.splitlines s).
Proof.
  assert (forall (n : nat) s, (String.length s <= n)%nat ->
            Forall (fun l => no_linebreak l = true) (PyStr.splitlines s))
    as Hgen.
  { clear s. induction n as [|n IH]; intros s Hn.
    - destruct s; [constructor|cbn in Hn; lia].
    - destruct s as [|c s]; [constructor|]. cbn in Hn.
      cbn [PyStr.splitlines]. destruct (PyStr.is_linebreak c) eqn:Ec.
      + constructor; [done|]. destruct s as [|c2 s]; [constructor|].
        cbn in Hn. destruct (_ && _); apply IH; cbn; lia.
      + assert (Forall (fun l => no_linebreak l = true) (PyStr.splitlines s))
          as Hs by (apply IH; lia).
        destruct (PyStr.splitlines s) as [|l ls].
        * constructor; [|constructor]. unfold no_linebreak. cbn. by rewrite Ec.
        * apply Forall_cons in Hs as [Hl Hls]. constructor; [|done].
          unfold no_linebreak in *. cbn. by rewrite Ec, Hl. }
  by apply (Hgen (String.length s)).
Qed.

(** Every line the classifier looks at is not empty, has no white space
    around it and no line break in it. *)
Lemma page_lines_clean text l :
  l ∈ page_lines text -> l <> "" /\ clean_line l.
Proof.
  unfold page_lines. intros [Hne Hl]%list_elem_of_In%List.filter_In.
  apply list_elem_of_In, list_elem_of_fmap in Hne as (l0 & -> & Hl0).
  split; [by destruct (PyStr.strip l0)|]. split; [apply strip_idem|].
  apply all_chars_strip.
  by apply (proj1 (Forall_forall _ _) (splitlines_no_linebreak text)).
Qed.

(** ** Pieces of clean lines *)

Lemma all_chars_impl (p q : ascii -> bool) s :
  (forall c, p c = true -> q c = true) ->
  all_chars p s = true -> all_chars q s = true.
Proof.
  intros Hpq. induction s as [|c s IH]; [done|]. cbn.
  intros [Hc Hs]%andb_true_iff. by rewrite (Hpq c Hc), IH.
Qed.

Lemma all_chars_app p (a b : string) :
  all_chars p (a +:+ b) = all_chars p a && all_chars p b.
Proof.
  induction a as [|c a IH]; [by rewrite app_empty_l|].
  rewrite app_String. cbn. by rewrite IH, andb_assoc.
Qed.

Lemma all_chars_split1 p sep s piece :
  all_chars p s = true -> piece ∈ PyStr.split1 sep s ->
  all_chars p piece = true.
Proof.
  revert piece. induction s as [|c s IH]; intros piece; cbn.
  - by intros _ ->%list_elem_of_singleton.
  - intros [Hc Hs]%andb_true_iff. destruct (Ascii.eqb c sep).
    + intros [->|[->|H%elem_of_nil]%elem_of_cons]%elem_of_cons; done.
    + destruct (PyStr.split1 sep s) as [|a rest]; [by intros ?%elem_of_nil|].
      intros [->|H]%elem_of_cons.
      * cbn. rewrite Hc. apply IH; [done|]. apply elem_of_cons. by left.
      * apply IH; [done|]. apply elem_of_cons. by right.
Qed.

Lemma replace1_absent old new s :
  all_chars (fun c => negb (Ascii.eqb c old)) s = true ->
  PyStr.replace1 old new s = s.
Proof.
  induction s as [|c s IH]; [done|]. cbn.
  intros [Hc Hs]%andb_true_iff. apply negb_true_iff in Hc.
  by rewrite Hc, IH.
Qed.

Lemma all_chars_replace1 p old new s :
  all_chars p new = true -> all_chars p s = true ->
  all_chars p (PyStr.replace1 old new s) = true.
Proof.
  intros Hnew. induction s as [|c s IH]; [done|]. cbn.
  intros [Hc Hs]%andb_true_iff. destruct (Ascii.eqb c old).
  - rewrite all_chars_app, Hnew. by apply IH.
  - cbn. by rewrite Hc, IH.
Qed.

Lemma clean_line_empty : clean_line "".
Proof. by split. Qed.

Lemma parse_fields_clean text :
  (forall s, p_id (parse_tfl_page text) = Some s -> s <> "" /\ clean_line s)
  /\ clean_line (p_title (parse_tfl_page text))
  /\ clean_line (p_population (parse_tfl_page text)).
Proof.
  pose proof (page_lines_clean text) as Hlines.
  unfold parse_tfl_page, parse_lines. cbn [p_id p_title p_population].
  split; [|split].
  - destruct (find_heading _) as [[i l]|] eqn:E; [|done].
    intros s [= <-]. apply find_heading_Some in E as (Hi & _).
    by apply Hlines, list_elem_of_lookup_2 with i.
  - destruct (find_heading _) as [[i l]|]; [|apply clean_line_empty].
    destruct (page_lines text !! S i) as [t|] eqn:Et;
      [|apply clean_line_empty].
    by apply Hlines, list_elem_of_lookup_2 with (S i).
  - unfold population_of.
    destruct (list_find _ _) as [[i line]|] eqn:E; [|apply clean_line_empty].
    apply list_find_Some in E as (Hl%lookup_take_Some & _).
    destruct Hl as [Hl _].
    destruct (Hlines line) as (_ & _ & Hnb);
      [by apply list_elem_of_lookup_2 with i|].
    split; [apply strip_idem|]. apply all_chars_strip.
    destruct (PyStr.split1 ":" line !! 1%nat) as [piece|] eqn:Ep; [|done].
    eapply all_chars_split1; [exact Hnb|].
    by apply list_elem_of_lookup_2 with 1%nat.
Qed.

(** X17. The id, the title and the population of every record are clean:
    no white space at either end and no line break inside, and the id is
    not empty. So the removal of line breaks in the file name (lines 277
    and 315) never removes anything: the sanitized id is the id with each
    space replaced by an underscore, and it has no line break either. *)
Theorem record_fields_clean verbose doc r :
  r ∈ tlfs (fst (segment verbose doc)) ->
  tfl_id r <> "" /\ clean_line (tfl_id r)
  /\ clean_line (tfl_title r) /\ clean_line (tfl_population r)
  /\ safe_id (tfl_id r) = PyStr.replace1 " " "_" (tfl_id r)
  /\ no_linebreak (safe_id (tfl_id r)) = true.
Proof.
  intros (i & Hi)%list_elem_of_lookup_1.
  destruct (fact_seed _ _ (segment_facts verbose doc) i r Hi)
    as (k & text & _ & Hid & _ & Htitle & _ & _ & Hpop & _).
  destruct (parse_fields_clean text) as (Hcid & Hctitle & Hcpop).
  destruct (Hcid _ Hid) as (Hne & Htrim & Hnb).
  rewrite Htitle, Hpop.
  assert (no_linebreak (PyStr.replace1 " " "_" (tfl_id r)) = true) as Hnb'.
  { by apply all_chars_replace1. }
  assert (safe_id (tfl_id r) = PyStr.replace1 " " "_" (tfl_id r)) as Hsafe.
  { unfold safe_id. apply replace1_absent.
    eapply all_chars_impl; [|exact Hnb'].
    intros c Hc. destruct (Ascii.eqb_spec c "010") as [->|]; done. }
  rewrite Hsafe. done.
Qed.

(** The first record of the sample document. *)
Lemma record_fields_clean_witness :
  let r := mkTlf "Table 14.1.1" (Some "table") "Demographics"
                 "pdf/Table_14.1.1.pdf" (43, 44) 2 "Safety" (Some "prog1.sas") in
  tfl_id r <> "" /\ clean_line (tfl_id r)
  /\ clean_line (tfl_title r) /\ clean_line (tfl_population r)
  /\ safe_id (tfl_id r) = PyStr.replace1 " " "_" (tfl_id r)
  /\ no_linebreak (safe_id (tfl_id r)) = true.
Proof.
  intros r. apply (record_fields_clean false doc_sample r).
  vm_compute. apply elem_of_cons. by left.
Defined.


(** * The counters in closed form *)

Lemma tiles_sum_counts a l b : tiles a l b -> sum_counts l = b - a.
Proof.
  revert a. induction l as [|r l IH]; intros a; [cbn; lia|].
  cbn [tiles]. intros (Ha & _ & Hc & Ht).
  change (sum_counts (r :: l)) with (page_count r + sum_counts l).
  rewrite (IH _ Ht). lia.
Qed.

(** X18. The counters of the summary in closed form. With [n] the number
    of pages the scan processes and [j] the number of them that come before
    the first page with a TLF identity, "Warnings" is [j] and "Total TFL
    pages" is [n - j]; when no page has a TLF identity every processed page
    gives a warning, the total is 0 and there is no record. *)
Theorem warnings_count_leading_pages verbose doc :
  let st := fst (segment verbose doc) in
  let n := Z.of_nat (length (tlf_pages doc)) in
  match first_heading (tlf_pages doc) with
  | Some j =>
      warnings st = Z.of_nat j /\ tfl_pages_total st = n - Z.of_nat j
      /\ tlfs st <> []
  | None => warnings st = n /\ tfl_pages_total st = 0 /\ tlfs st = []
  end.
Proof.
  intros st n.
  destruct (segment_facts verbose doc) as [Htot Hproc _ _ _ _].
  fold st in Htot, Hproc. fold n in Hproc.
  pose proof (inv_tiles _ _ _ (state_after_inv doc (length (tlf_pages doc))))
    as Htiles.
  rewrite take_ge, <- (segment_state verbose doc) in Htiles by done.
  fold st in Htiles.
  destruct (first_heading (tlf_pages doc)) as [j|].
  - destruct Htiles as [Htiles Hne].
    apply tiles_sum_counts in Htiles. fold n in Htiles.
    split; [lia|]. split; [lia|done].
  - rewrite Htiles in Htot. cbn in Htot. split; [lia|]. by split.
Qed.
